(** * Donation front-end: wallet submission / confirmation flow

    A shallow embedding of the TypeScript sources

      - [src/utils/paymentService.ts]  (sendTransaction, getCallsStatus,
        waitForBatchConfirmation)
      - [src/App.tsx]                  (handleConnectWallet, handleDisconnect,
        handleCreateDonation, handleDonate)
      - [components/DonationList.tsx]  (loadDonations)
      - [components/DonationCard.tsx]  (progress, handleDonate)
      - [components/CreateDonation.tsx] (handleSubmit)
      - [hooks/useContract.ts]         (getDonation, getTotalDonations,
        getTotalDonated)

    Asynchronous code is written in a state-and-exception monad over a
    world that records every observable effect (provider requests, contract
    reads, timers, console output, React state updates) in the order the
    program performs it.  The wallet provider and the on-chain read API are
    oracles that answer from the whole history of effects so far. *)

From Stdlib Require Import ZArith List String Ascii Bool Lia.
From Stdlib Require Import Floats.SpecFloat.
From Stdlib Require Import HexString DecimalString.
Import ListNotations.

Local Open Scope string_scope.
Local Open Scope Z_scope.

(* ================================================================== *)
(** ** JavaScript values                                              *)
(* ================================================================== *)

(** Numbers are IEEE-754 binary64 values ([prec = 53], [emax = 1024]). *)
Definition number := spec_float.
Definition prec : Z := 53.
Definition emax : Z := 1024.

(** The values that cross the program's boundaries: JSON-like data from
    the provider, plus bigints decoded from contract reads. *)
#[warnings="-register-all"] Inductive JsVal : Type :=
| JUndefined
| JNull
| JBool (b : bool)
| JNum (x : number)
| JBigInt (z : Z)
| JStr (s : string)
| JArr (items : list JsVal)
| JObj (fields : list (string * JsVal)).

(** A thrown value: an [Error] instance (with its [name] and [message]),
    or any other value ([err instanceof Error] is false for it). *)
Inductive Exn : Type :=
| ErrorObject (name message : string)
| NonError (v : JsVal).

Definition new_Error (message : string) : Exn := ErrorObject "Error" message.
Definition new_TypeError (message : string) : Exn := ErrorObject "TypeError" message.
Definition new_RangeError (message : string) : Exn := ErrorObject "RangeError" message.
Definition new_SyntaxError (message : string) : Exn := ErrorObject "SyntaxError" message.

(** Faults raised by the engine itself; their wording is engine-specific. *)
Inductive Fault : Type :=
| ReadOfNullish (base : JsVal) (prop : string)
| NotAFunction (callee : string)
| NotAnInteger (x : number)
| NoBigIntConversion (v : JsVal)
| BadBigIntSyntax (s : string).

(** What the ECMAScript runtime supplies and this program only calls. *)
Class Runtime : Type := {
  (** [Number::toString(x)], radix 10 *)
  Number_toString : number -> string;
  (** [StringToNumber] *)
  StringToNumber : string -> number;
  (** [StringToBigInt]; [None] when the text is not an integer literal *)
  StringToBigInt : string -> option Z;
  (** global [parseFloat] *)
  parseFloat : string -> number;
  (** message of an engine-raised error *)
  engine_message : Fault -> string
}.

(** Truthiness ([!v] is its negation). *)
Definition truthy (v : JsVal) : bool :=
  match v with
  | JUndefined | JNull => false
  | JBool b => b
  | JNum (S754_zero _) | JNum S754_nan => false
  | JNum _ => true
  | JBigInt z => negb (z =? 0)
  | JStr s => negb (s =? "")%string
  | JArr _ | JObj _ => true
  end.

(** [v === "text"] against a string literal. *)
Definition strict_eq_str (v : JsVal) (text : string) : bool :=
  match v with
  | JStr s => (s =? text)%string
  | _ => false
  end.

Fixpoint lookup_field (k : string) (fields : list (string * JsVal)) : option JsVal :=
  match fields with
  | [] => None
  | (k', v) :: rest => if (k =? k')%string then Some v else lookup_field k rest
  end.

(** Decimal text of a bigint. *)
Definition BigInt_toString (z : Z) : string :=
  NilZero.string_of_int (Z.to_int z).

Fixpoint join (sep : string) (parts : list string) : string :=
  match parts with
  | [] => ""
  | [p] => p
  | p :: rest => p ++ sep ++ join sep rest
  end.

Section Conversions.
Context {RT : Runtime}.

(** [ToString] as used by template literals.  Arrays join their
    elements with a comma (null and undefined elements print empty);
    plain objects print as [[object Object]]. *)
Fixpoint ToString (v : JsVal) : string :=
  match v with
  | JUndefined => "undefined"
  | JNull => "null"
  | JBool true => "true"
  | JBool false => "false"
  | JNum x => Number_toString x
  | JBigInt z => BigInt_toString z
  | JStr s => s
  | JArr items =>
      join "," ((fix each (l : list JsVal) : list string :=
                   match l with
                   | [] => []
                   | JUndefined :: rest => "" :: each rest
                   | JNull :: rest => "" :: each rest
                   | x :: rest => ToString x :: each rest
                   end) items)
  | JObj _ => "[object Object]"
  end.

(** [Error.prototype.toString]: [name: message], or the name alone when
    the message is empty. *)
Definition Exn_toString (e : Exn) : string :=
  match e with
  | ErrorObject name message =>
      if (message =? "")%string then name
      else if (name =? "")%string then message
      else name ++ ": " ++ message
  | NonError v => ToString v
  end.

(** [v.prop] for the property names this program reads ([status],
    [error], [targetAmount], ...): none of them exists on a primitive or
    on an array, so only own fields of an object can answer. *)
Definition get_prop (v : JsVal) (prop : string) : Exn + JsVal :=
  match v with
  | JUndefined | JNull => inl (new_TypeError (engine_message (ReadOfNullish v prop)))
  | JObj fields =>
      match lookup_field prop fields with
      | Some x => inr x
      | None => inr JUndefined
      end
  | _ => inr JUndefined
  end.
End Conversions.

(* ================================================================== *)
(** ** binary64 helpers                                               *)
(* ================================================================== *)

(** The double nearest to an integer (ties to even, overflow to infinity):
    [Number(z)] for a bigint [z]. *)
Definition Number_of_bigint (z : Z) : number := binary_normalize prec emax z 0 false.

Definition num_1e18 : number := Eval vm_compute in Number_of_bigint (10 ^ 18).
Definition num_100 : number := Eval vm_compute in Number_of_bigint 100.

(** [Math.floor]. *)
Definition Math_floor (x : number) : number :=
  match x with
  | S754_finite s m e =>
      if 0 <=? e then x
      else match Z.shiftl (cond_Zopp s (Zpos m)) e with
           | Z0 => S754_zero s
           | z => binary_normalize prec emax z 0 false
           end
  | _ => x
  end.

(** The delay in milliseconds a browser timer makes of the number handed
    to [setTimeout]: the argument is a [long] of Web IDL (NaN and the
    infinities give 0, a fraction is cut off, the integer wraps around at
    32 bits), and a negative delay counts as 0. *)
Definition setTimeout_delay (x : number) : Z :=
  match x with
  | S754_finite s m e =>
      let r := cond_Zopp s (Z.shiftl (Zpos m) e) mod 2 ^ 32 in
      Z.max 0 (if r <? 2 ^ 31 then r else r - 2 ^ 32)
  | _ => 0
  end.

(** [Math.min] of two numbers: NaN if either is NaN, and [-0 < +0]. *)
Definition Math_min (a b : number) : number :=
  match a, b with
  | S754_nan, _ | _, S754_nan => S754_nan
  | S754_zero sa, S754_zero sb => S754_zero (sa || sb)
  | _, _ => if SFltb a b then a else b
  end.

(* ================================================================== *)
(** ** Effects                                                        *)
(* ================================================================== *)

(** The argument of [provider.request]. *)
Record Request : Type := { method : string; params : list JsVal }.

(** The argument of [client.readContract]. *)
Record ReadCall : Type := {
  address : string;
  abi : JsVal;
  functionName : string;
  args : option (list JsVal)
}.

Inductive Event : Type :=
| EvRequest (r : Request)                    (* provider.request(r) *)
| EvReadContract (c : ReadCall)              (* client.readContract(c) *)
| EvSleep (ms : Z)                           (* awaited setTimeout(resolve, ms) *)
| EvConsoleLog (text : string)               (* console.log(text) *)
| EvConsoleError (text : string) (err : Exn) (* console.error(text, err) *)
| EvSetState (name : string) (v : JsVal).    (* a React state setter *)

(** How an awaited promise settles. *)
Inductive Outcome : Type :=
| Resolve (v : JsVal)
| Reject (e : Exn).

(** A provider's [request] function: its answer may depend on everything
    that happened before the call. *)
Definition RequestFn : Type := list Event -> Request -> Outcome.

(** The [provider] value handed around by the program. *)
Inductive Provider : Type :=
| ProviderNull                       (* null / undefined *)
| ProviderNoRequest                  (* an object without a [request] member *)
| ProviderObj (request : RequestFn).

(** The on-chain read API behind [createClient(rpcUrl).readContract]. *)
Class Chain : Type := { readContract : list Event -> ReadCall -> Outcome }.

(** The world: the effect history and the state of the React component
    that is running. *)
Record World (U : Type) : Type := mkWorld { log : list Event; ui : U }.
Arguments mkWorld {U} _ _.
Arguments log {U} _.
Arguments ui {U} _.

(** How a computation ends: it returns, it throws, or the model's fuel for
    an unbounded loop ran out before it did either. *)
Inductive Result (A : Type) : Type :=
| Ok (a : A)
| Throw (e : Exn)
| OutOfFuel.
Arguments Ok {A} _.
Arguments Throw {A} _.
Arguments OutOfFuel {A}.

Definition M (U A : Type) : Type := World U -> Result A * World U.

Definition ret {U A} (a : A) : M U A := fun w => (Ok a, w).
Definition throw {U A} (e : Exn) : M U A := fun w => (Throw e, w).
Definition out_of_fuel {U A} : M U A := fun w => (OutOfFuel, w).

Definition bind {U A B} (m : M U A) (k : A -> M U B) : M U B :=
  fun w =>
    match m w with
    | (Ok a, w') => k a w'
    | (Throw e, w') => (Throw e, w')
    | (OutOfFuel, w') => (OutOfFuel, w')
    end.

Declare Scope js_scope.
Delimit Scope js_scope with js.
Notation "x <- m ;; k" := (bind m (fun x => k))
  (at level 61, m at next level, right associativity) : js_scope.
Notation "m ;; k" := (bind m (fun _ => k))
  (at level 61, right associativity) : js_scope.
Local Open Scope js_scope.

(** [try { body } catch (err) { handler err }] *)
Definition try_catch {U A} (body : M U A) (handler : Exn -> M U A) : M U A :=
  fun w =>
    match body w with
    | (Throw e, w') => handler e w'
    | other => other
    end.

(** [try { body } finally { cleanup }]: the cleanup runs on return and on
    throw, and the body's completion is kept unless the cleanup itself
    completes abruptly. *)
Definition try_finally {U A} (body : M U A) (cleanup : M U unit) : M U A :=
  fun w =>
    match body w with
    | (OutOfFuel, w') => (OutOfFuel, w')
    | (r, w') =>
        match cleanup w' with
        | (Ok _, w'') => (r, w'')
        | (Throw e, w'') => (Throw e, w'')
        | (OutOfFuel, w'') => (OutOfFuel, w'')
        end
    end.

Definition lift {U A} (r : Exn + A) : M U A :=
  match r with
  | inl e => throw e
  | inr a => ret a
  end.

Definition emit {U} (e : Event) : M U unit :=
  fun w => (Ok tt, mkWorld (log w ++ [e]) (ui w)).

Definition read_ui {U A} (f : U -> A) : M U A := fun w => (Ok (f (ui w)), w).
Definition update_ui {U} (f : U -> U) : M U unit :=
  fun w => (Ok tt, mkWorld (log w) (f (ui w))).

(** [await new Promise((resolve) => setTimeout(resolve, ms))] *)
Definition sleep {U} (ms : Z) : M U unit := emit (EvSleep ms).

Definition console_log {U} (text : string) : M U unit := emit (EvConsoleLog text).
Definition console_error {U} (text : string) (err : Exn) : M U unit :=
  emit (EvConsoleError text err).

(** Settling of an awaited promise. *)
Definition await {U} (o : Outcome) : M U JsVal :=
  match o with
  | Resolve v => ret v
  | Reject e => throw e
  end.

Section Calls.
Context {RT : Runtime} {U : Type}.

(** [await provider.request(r)]. *)
Definition provider_request (provider : Provider) (r : Request) : M U JsVal :=
  match provider with
  | ProviderNull => throw (new_TypeError (engine_message (ReadOfNullish JNull "request")))
  | ProviderNoRequest => throw (new_TypeError (engine_message (NotAFunction "provider.request")))
  | ProviderObj request =>
      fun w => (emit (EvRequest r) ;; await (request (log w) r)) w
  end.

(** [await client.readContract(c)]. *)
Definition client_readContract {CH : Chain} (c : ReadCall) : M U JsVal :=
  fun w => (emit (EvReadContract c) ;; await (readContract (log w) c)) w.
End Calls.

(* ================================================================== *)
(** ** Built-in conversions                                           *)
(* ================================================================== *)

Section Builtins.
Context {RT : Runtime}.

(** [BigInt(x)] for a number [x]: its exact value when [x] is an integer,
    a RangeError otherwise (fractions, NaN, the infinities). *)
Definition BigInt_of_number (x : number) : Exn + Z :=
  match x with
  | S754_zero _ => inr 0
  | S754_finite s m e =>
      if 0 <=? e then inr (cond_Zopp s (Z.shiftl (Zpos m) e))
      else if Zpos m mod 2 ^ (- e) =? 0 then inr (cond_Zopp s (Z.shiftl (Zpos m) e))
      else inl (new_RangeError (engine_message (NotAnInteger x)))
  | _ => inl (new_RangeError (engine_message (NotAnInteger x)))
  end.

Definition BigInt_of_string (s : string) : Exn + Z :=
  match StringToBigInt s with
  | Some z => inr z
  | None => inl (new_SyntaxError (engine_message (BadBigIntSyntax s)))
  end.

(** [BigInt(v)] *)
Definition BigInt (v : JsVal) : Exn + Z :=
  match v with
  | JBigInt z => inr z
  | JNum x => BigInt_of_number x
  | JBool b => inr (if b then 1 else 0)
  | JStr s => BigInt_of_string s
  | JUndefined | JNull => inl (new_TypeError (engine_message (NoBigIntConversion v)))
  | JArr _ | JObj _ => BigInt_of_string (ToString v)
  end.

(** [Number(v)] *)
Definition Number (v : JsVal) : number :=
  match v with
  | JBigInt z => Number_of_bigint z
  | JNum x => x
  | JUndefined => S754_nan
  | JNull => S754_zero false
  | JBool b => if b then Number_of_bigint 1 else S754_zero false
  | JStr s => StringToNumber s
  | JArr _ | JObj _ => StringToNumber (ToString v)
  end.
End Builtins.

(* ================================================================== *)
(** ** viem and configuration                                         *)
(* ================================================================== *)

(** What the program imports from viem.  [encodeFunctionData] throws on
    an ABI / argument mismatch; [baseSepolia_id] is [baseSepolia.id]. *)
Class Viem : Type := {
  encodeFunctionData : JsVal -> string -> option (list JsVal) -> Exn + JsVal;
  baseSepolia_id : N
}.

(** [numberToHex] on a chain id: lower-case hexadecimal after [0x]. *)
Definition numberToHex (n : N) : string := HexString.of_N n.

(** [utils/Funding] and the build-time environment. *)
Class Config : Type := {
  CONTRACT_ADDRESS : string;
  FUNDING_ABI : JsVal;
  VITE_PAYMASTER_SERVICE_URL : JsVal
}.

(* ================================================================== *)
(** ** utils/paymentService.ts                                        *)
(* ================================================================== *)

Definition REWARDS_ABI : JsVal :=
  JArr [ JObj [ ("inputs", JArr []);
                ("name", JStr "claimReward");
                ("stateMutability", JStr "nonpayable");
                ("type", JStr "function") ] ].

Section PaymentService.
Context {RT : Runtime} {VM : Viem} {U : Type}.

Definition sendTransaction (provider : Provider)
    (fromAddress contractAddress paymasterUrl : string) : M U JsVal :=
  data <- lift (encodeFunctionData REWARDS_ABI "claimReward" None) ;;
  try_catch
    ((match provider with
      | ProviderObj _ => ret tt
      | _ => throw (new_Error "No provider available. Please connect to a base account")
      end) ;;
     (if (paymasterUrl =? "")%string
      then throw (new_Error "Paymaster URL is required!")
      else ret tt) ;;
     let calls :=
       JArr [ JObj [ ("to", JStr contractAddress);
                     ("value", JStr "0x0");
                     ("data", data) ] ] in
     result <- provider_request provider
       {| method := "wallet_sendCalls";
          params :=
            [ JObj [ ("version", JStr "1.0");
                     ("chainId", JStr (numberToHex baseSepolia_id));
                     ("from", JStr fromAddress);
                     ("calls", calls);
                     ("capabilities",
                       JObj [ ("paymasterService",
                                JObj [ ("url", JStr paymasterUrl) ]) ]) ] ] |} ;;
     ret result)
    (fun error =>
       console_log ("Error sending transaction : " ++ Exn_toString error) ;;
       throw error).

Definition getCallsStatus (provider : Provider) (batchId : JsVal) : M U JsVal :=
  status <- provider_request provider
    {| method := "wallet_getCallsStatus"; params := [batchId] |} ;;
  ret status.

(** The loop [for (let attempt = 0; attempt < maxAttempts; attempt++)]
    from the counter value [attempt] on; leaving the loop reaches the final
    [throw].  [maxAttempts] and the counter are numbers, so the loop has no
    bound of its own (think of [Infinity]): the model runs on fuel, one
    unit for each round. *)
Fixpoint waitForBatchConfirmation_from (fuel : nat) (provider : Provider)
    (batchId : JsVal) (maxAttempts intervalMs : number) (attempt : number)
    : M U JsVal :=
  if SFltb attempt maxAttempts then
    match fuel with
    | O => out_of_fuel
    | S fuel' =>
        status <- getCallsStatus provider batchId ;;
        s <- lift (get_prop status "status") ;;
        if strict_eq_str s "CONFIRMED" then ret status
        else
          (s' <- lift (get_prop status "status") ;;
           if strict_eq_str s' "FAILED" then
             (err <- lift (get_prop status "error") ;;
              throw (new_Error ("Batch failed: " ++ ToString err)))
           else
             (sleep (setTimeout_delay intervalMs) ;;
              waitForBatchConfirmation_from fuel' provider batchId
                maxAttempts intervalMs
                (SFadd prec emax attempt (Number_of_bigint 1))))
    end
  else throw (new_Error "Batch confirmation timeout").

(** [maxAttempts: number = 60] and [intervalMs: number = 2000]: [None] is
    an omitted or undefined argument. *)
Definition waitForBatchConfirmation (fuel : nat) (provider : Provider)
    (batchId : JsVal) (maxAttempts intervalMs : option number) : M U JsVal :=
  let maxAttempts :=
    match maxAttempts with Some n => n | None => Number_of_bigint 60 end in
  let intervalMs :=
    match intervalMs with Some ms => ms | None => Number_of_bigint 2000 end in
  waitForBatchConfirmation_from fuel provider batchId maxAttempts intervalMs
    (S754_zero false).
End PaymentService.

(* ================================================================== *)
(** ** hooks/useContract.ts                                           *)
(* ================================================================== *)

Record Donation : Type := {
  targetAmount : Z;
  totalDonated : Z;
  creator : JsVal;
  timestamp : Z;
  description : JsVal
}.

Section UseContract.
Context {RT : Runtime} {CH : Chain} {CFG : Config} {U : Type}.

Definition getDonation (id : Z) : M U Donation :=
  result <- client_readContract
    {| address := CONTRACT_ADDRESS;
       abi := FUNDING_ABI;
       functionName := "getDonation";
       args := Some [JBigInt id] |} ;;
  let donation := result in
  x1 <- lift (get_prop donation "targetAmount") ;;
  targetAmount <- lift (BigInt x1) ;;
  x2 <- lift (get_prop donation "totalDonated") ;;
  totalDonated <- lift (BigInt x2) ;;
  creator <- lift (get_prop donation "creator") ;;
  x3 <- lift (get_prop donation "timestamp") ;;
  timestamp <- lift (BigInt x3) ;;
  description <- lift (get_prop donation "description") ;;
  ret {| targetAmount := targetAmount;
         totalDonated := totalDonated;
         creator := creator;
         timestamp := timestamp;
         description := description |}.

Definition getTotalDonations : M U number :=
  result <- client_readContract
    {| address := CONTRACT_ADDRESS;
       abi := FUNDING_ABI;
       functionName := "totalDonations";
       args := None |} ;;
  ret (Number result).
End UseContract.

Section UseContractTotals.
Context {RT : Runtime} {CH : Chain} {CFG : Config} {U : Type}.

Definition getTotalDonated (id : Z) : M U Z :=
  result <- client_readContract
    {| address := CONTRACT_ADDRESS;
       abi := FUNDING_ABI;
       functionName := "getTotalDonated";
       args := Some [JBigInt id] |} ;;
  lift (BigInt result).
End UseContractTotals.

(* ================================================================== *)
(** ** Code called but not shown                                      *)
(* ================================================================== *)

(** An asynchronous function of the repository whose source is not at
    hand, or a callback handed to a component: given the history so far
    it completes somehow and adds some events of its own.  It has no
    access to the state of the component that calls it. *)
Definition External (X : Type) : Type := list Event -> Result X * list Event.

(** [await f(...)] for such a function. *)
Definition call {U X} (f : External X) : M U X :=
  fun w =>
    let (r, evs) := f (log w) in
    (r, mkWorld (log w ++ evs) (ui w)).

(** A computation of a parent component, started in the parent's state
    [a], as the callback a child receives: the child sees its completion
    and the events it adds, not the parent's state. *)
Definition as_callback {A X} (m : M A X) (a : A) : External X :=
  fun history =>
    let (r, w') := m (mkWorld history a) in
    (r, skipn (List.length history) (log w')).

(** The form event handed to a submit handler. *)
Record FormEvent : Type := { preventDefault : External unit }.

(* ================================================================== *)
(** ** App.tsx                                                        *)
(* ================================================================== *)

Module App.

Record State : Type := {
  account : option string;
  provider : Provider;
  sdk : JsVal;
  error : string;
  isLoading : bool;
  refreshTrigger : number
}.

Definition M := M State.

Definition setError (s : string) : M unit :=
  update_ui (fun u => {| account := account u; provider := provider u; sdk := sdk u;
                         error := s;
                         isLoading := isLoading u; refreshTrigger := refreshTrigger u |}) ;;
  emit (EvSetState "error" (JStr s)).

Definition setIsLoading (b : bool) : M unit :=
  update_ui (fun u => {| account := account u; provider := provider u; sdk := sdk u;
                         error := error u;
                         isLoading := b; refreshTrigger := refreshTrigger u |}) ;;
  emit (EvSetState "isLoading" (JBool b)).

(** The functional form [setRefreshTrigger((prev) => f prev)]. *)
Definition setRefreshTrigger (f : number -> number) : M unit :=
  update_ui (fun u => {| account := account u; provider := provider u; sdk := sdk u;
                         error := error u;
                         isLoading := isLoading u;
                         refreshTrigger := f (refreshTrigger u) |}) ;;
  n <- read_ui refreshTrigger ;;
  emit (EvSetState "refreshTrigger" (JNum n)).

(** [!provider || !account] *)
Definition not_connected (p : Provider) (a : option string) : bool :=
  match p, a with
  | ProviderNull, _ => true
  | _, None => true
  | _, Some s => (s =? "")%string
  end.

Definition account_value (a : option string) : JsVal :=
  match a with
  | Some s => JStr s
  | None => JNull
  end.

(** [err instanceof Error ? err.message : fallback] *)
Definition message_or (fallback : string) (err : Exn) : string :=
  match err with
  | ErrorObject _ message => message
  | NonError _ => fallback
  end.

Section Handlers.
Context {RT : Runtime} {VM : Viem} {CFG : Config}.

(** [BigInt(Math.floor(parseFloat(amountStr) * 1e18))] *)
Definition amountInWei_of (amountStr : string) : Exn + Z :=
  BigInt_of_number (Math_floor (SFmul prec emax (parseFloat amountStr) num_1e18)).

(** The confirmation loop written out in both handlers
    ([for (let i = 0; i < 60; i++)]); the result is the [confirmed] flag
    when the loop is left. *)
Fixpoint confirmation_loop (provider : Provider) (batchId : JsVal)
    (remaining : nat) : M bool :=
  match remaining with
  | O => ret false
  | S remaining' =>
      status <- provider_request provider
        {| method := "wallet_getCallsStatus"; params := [batchId] |} ;;
      s <- lift (get_prop status "status") ;;
      if strict_eq_str s "CONFIRMED" then ret true
      else
        (s' <- lift (get_prop status "status") ;;
         if strict_eq_str s' "FAILED" then
           (err <- lift (get_prop status "error") ;;
            throw (new_Error ("Transaction failed: " ++ ToString err)))
         else
           (sleep 2000 ;;
            confirmation_loop provider batchId remaining'))
  end.

(** Lines 131-152 and 210-231: the loop and the timeout check after it. *)
Definition inline_confirmation (provider : Provider) (batchId : JsVal) : M unit :=
  confirmed <- confirmation_loop provider batchId 60 ;;
  if negb confirmed
  then throw (new_Error "Transaction confirmation timeout")
  else ret tt.

(** The [wallet_sendCalls] submission written out in both handlers. *)
Definition inline_submission (provider : Provider) (account : option string)
    (data : JsVal) : M JsVal :=
  let calls :=
    JArr [ JObj [ ("to", JStr CONTRACT_ADDRESS);
                  ("value", JStr "0x0");
                  ("data", data) ] ] in
  provider_request provider
    {| method := "wallet_sendCalls";
       params :=
         [ JObj [ ("version", JStr "1.0");
                  ("chainId", JStr (numberToHex baseSepolia_id));
                  ("from", account_value account);
                  ("calls", calls);
                  ("capabilities",
                    JObj [ ("paymasterService",
                             JObj [ ("url", VITE_PAYMASTER_SERVICE_URL) ]) ]) ] ] |}.

Definition handleCreateDonation (amountStr description : string) : M unit :=
  provider <- read_ui provider ;;
  account <- read_ui account ;;
  if not_connected provider account then
    setError "Wallet not connected" ;; ret tt
  else
    (setError "" ;;
     setIsLoading true ;;
     try_finally
       (try_catch
          (amountInWei <- lift (amountInWei_of amountStr) ;;
           data <- lift (encodeFunctionData FUNDING_ABI "createDonation"
                           (Some [JBigInt amountInWei; JStr description])) ;;
           batchId <- inline_submission provider account data ;;
           (if negb (truthy batchId)
            then throw (new_Error "Failed to get batch ID")
            else ret tt) ;;
           inline_confirmation provider batchId ;;
           setRefreshTrigger (fun prev => SFadd prec emax prev (Number_of_bigint 1)))
          (fun err =>
             setError (message_or "Failed to create donation" err) ;;
             throw err))
       (setIsLoading false)).

Definition handleDonate (id : Z) (amountStr : string) : M unit :=
  provider <- read_ui provider ;;
  account <- read_ui account ;;
  if not_connected provider account then
    setError "Wallet not connected" ;; ret tt
  else
    (setError "" ;;
     setIsLoading true ;;
     try_finally
       (try_catch
          (amountInWei <- lift (amountInWei_of amountStr) ;;
           data <- lift (encodeFunctionData FUNDING_ABI "donate"
                           (Some [JBigInt id; JBigInt amountInWei])) ;;
           batchId <- inline_submission provider account data ;;
           (if negb (truthy batchId)
            then throw (new_Error "Failed to get batch ID")
            else ret tt) ;;
           inline_confirmation provider batchId ;;
           setRefreshTrigger (fun prev => SFadd prec emax prev (Number_of_bigint 1)))
          (fun err =>
             setError (message_or "Failed to process donation" err) ;;
             throw err))
       (setIsLoading false)).
End Handlers.

Definition setAccount (a : option string) : M unit :=
  update_ui (fun u => {| account := a; provider := provider u; sdk := sdk u;
                         error := error u;
                         isLoading := isLoading u; refreshTrigger := refreshTrigger u |}) ;;
  emit (EvSetState "account" (account_value a)).

(** In the history a provider object shows as an empty object. *)
Definition provider_value (p : Provider) : JsVal :=
  match p with
  | ProviderNull => JNull
  | _ => JObj []
  end.

Definition setProvider (p : Provider) : M unit :=
  update_ui (fun u => {| account := account u; provider := p; sdk := sdk u;
                         error := error u;
                         isLoading := isLoading u; refreshTrigger := refreshTrigger u |}) ;;
  emit (EvSetState "provider" (provider_value p)).

Definition setSdk (v : JsVal) : M unit :=
  update_ui (fun u => {| account := account u; provider := provider u; sdk := v;
                         error := error u;
                         isLoading := isLoading u; refreshTrigger := refreshTrigger u |}) ;;
  emit (EvSetState "sdk" v).

(** What [connectWallet] resolves with, as [handleConnectWallet]
    destructures it. *)
Record Connection : Type := {
  address : option string;
  connectedProvider : Provider;
  connectedSdk : JsVal
}.

(** [utils/walletService] and [utils/walletProvider]. *)
Class WalletService : Type := {
  connectWallet : External Connection;
  disconnectWallet : JsVal -> External JsVal;
  switchToBaseSepolia : Provider -> External JsVal;
  checkPaymasterService : JsVal -> Provider -> External JsVal
}.

Section Connection.
Context {CFG : Config} {WS : WalletService}.

Definition handleConnectWallet : M unit :=
  setError "" ;;
  setIsLoading true ;;
  try_finally
    (try_catch
       (connection <- call connectWallet ;;
        let address := address connection in
        let connectedProvider := connectedProvider connection in
        let connectedSdk := connectedSdk connection in
        switched <- call (switchToBaseSepolia connectedProvider) ;;
        (if negb (truthy switched)
         then throw (new_Error "Failed to switch to Base Sepolia network")
         else ret tt) ;;
        isPaymasterValid <-
          call (checkPaymasterService VITE_PAYMASTER_SERVICE_URL connectedProvider) ;;
        (if negb (truthy isPaymasterValid)
         then throw (new_Error "Paymaster service not properly configured")
         else ret tt) ;;
        setAccount address ;;
        setProvider connectedProvider ;;
        setSdk connectedSdk ;;
        setError "")
       (fun err =>
          setError (message_or "Failed to connect wallet" err) ;;
          setAccount None ;;
          setProvider ProviderNull ;;
          setSdk JNull))
    (setIsLoading false).

Definition handleDisconnect : M unit :=
  try_catch
    (sdk <- read_ui sdk ;;
     (if truthy sdk
      then (call (disconnectWallet sdk) ;; ret tt)
      else ret tt) ;;
     setAccount None ;;
     setProvider ProviderNull ;;
     setSdk JNull ;;
     setError "")
    (fun err => setError (message_or "Failed to disconnect" err)).
End Connection.

End App.

(* ================================================================== *)
(** ** components/DonationList.tsx                                    *)
(* ================================================================== *)

Module DonationList.

Record DonationWithId : Type := { id : Z; donation : Donation }.

Record State : Type := {
  donations : list DonationWithId;
  isLoadingDonations : bool;
  error : string
}.

Definition M := M State.

Definition Donation_value (d : Donation) : JsVal :=
  JObj [ ("targetAmount", JBigInt (targetAmount d));
         ("totalDonated", JBigInt (totalDonated d));
         ("creator", creator d);
         ("timestamp", JBigInt (timestamp d));
         ("description", description d) ].

Definition DonationWithId_value (x : DonationWithId) : JsVal :=
  JObj [ ("id", JBigInt (id x)); ("donation", Donation_value (donation x)) ].

Definition setDonations (l : list DonationWithId) : M unit :=
  update_ui (fun u => {| donations := l;
                         isLoadingDonations := isLoadingDonations u;
                         error := error u |}) ;;
  emit (EvSetState "donations" (JArr (map DonationWithId_value l))).

Definition setIsLoadingDonations (b : bool) : M unit :=
  update_ui (fun u => {| donations := donations u;
                         isLoadingDonations := b;
                         error := error u |}) ;;
  emit (EvSetState "isLoadingDonations" (JBool b)).

Definition setError (s : string) : M unit :=
  update_ui (fun u => {| donations := donations u;
                         isLoadingDonations := isLoadingDonations u;
                         error := s |}) ;;
  emit (EvSetState "error" (JStr s)).

Section Load.
Context {RT : Runtime} {CH : Chain} {CFG : Config}.

(** One pass of the loop body for counter value [i]: the inner
    [try { ... push ... } catch (err) { console.error(...) }]. *)
Definition load_one (i : number) (donationsList : list DonationWithId)
    : M (list DonationWithId) :=
  try_catch
    (id1 <- lift (BigInt_of_number i) ;;
     donation <- getDonation id1 ;;
     id2 <- lift (BigInt_of_number i) ;;
     ret (donationsList ++ [ {| id := id2; donation := donation |} ])%list)
    (fun err =>
       console_error ("Error loading donation " ++ Number_toString i ++ ":") err ;;
       ret donationsList).

(** [for (let i = 0; i < total; i++)] on numbers.  The loop has no bound
    of its own (think of an infinite [total]), so the model runs on fuel. *)
Fixpoint load_from (fuel : nat) (i total : number)
    (donationsList : list DonationWithId) : M (list DonationWithId) :=
  if SFltb i total then
    match fuel with
    | O => out_of_fuel
    | S fuel' =>
        donationsList' <- load_one i donationsList ;;
        load_from fuel' (SFadd prec emax i (Number_of_bigint 1)) total donationsList'
    end
  else ret donationsList.

Definition loadDonations (fuel : nat) : M unit :=
  setIsLoadingDonations true ;;
  setError "" ;;
  try_finally
    (try_catch
       (total <- getTotalDonations ;;
        donationsList <- load_from fuel (S754_zero false) total [] ;;
        setDonations (rev donationsList))
       (fun err =>
          setError (App.message_or "Failed to load donations" err)))
    (setIsLoadingDonations false).
End Load.

End DonationList.

(* ================================================================== *)
(** ** components/DonationCard.tsx                                    *)
(* ================================================================== *)

Module DonationCard.

(** [Number(donation.targetAmount) / 1e18] *)
Definition targetAmount (donation : Donation) : number :=
  SFdiv prec emax (Number_of_bigint (targetAmount donation)) num_1e18.

(** [Number(donation.totalDonated) / 1e18] *)
Definition totalDonated (donation : Donation) : number :=
  SFdiv prec emax (Number_of_bigint (totalDonated donation)) num_1e18.

(** [Math.min((totalDonated / targetAmount) * 100, 100)] on the two local
    numbers. *)
Definition progress_of (totalDonated targetAmount : number) : number :=
  Math_min (SFmul prec emax (SFdiv prec emax totalDonated targetAmount) num_100) num_100.

Definition progress (donation : Donation) : number :=
  progress_of (totalDonated donation) (targetAmount donation).

(** The [width] of the progress fill. *)
Definition progress_width {RT : Runtime} (donation : Donation) : string :=
  Number_toString (progress donation) ++ "%".


Record State : Type := {
  donateAmount : string;
  isSubmitting : bool;
  error : string
}.

Definition M := M State.

Definition setDonateAmount (s : string) : M unit :=
  update_ui (fun u => {| donateAmount := s;
                         isSubmitting := isSubmitting u;
                         error := error u |}) ;;
  emit (EvSetState "donateAmount" (JStr s)).

Definition setIsSubmitting (b : bool) : M unit :=
  update_ui (fun u => {| donateAmount := donateAmount u;
                         isSubmitting := b;
                         error := error u |}) ;;
  emit (EvSetState "isSubmitting" (JBool b)).

Definition setError (s : string) : M unit :=
  update_ui (fun u => {| donateAmount := donateAmount u;
                         isSubmitting := isSubmitting u;
                         error := s |}) ;;
  emit (EvSetState "error" (JStr s)).

(** The card's submit handler, with the props [id] and [onDonate]. *)
Definition handleDonate (id : Z) (onDonate : Z -> string -> External unit)
    (e : FormEvent) : M unit :=
  call (preventDefault e) ;;
  donateAmount <- read_ui donateAmount ;;
  if (donateAmount =? "")%string then ret tt
  else
    (setIsSubmitting true ;;
     setError "" ;;
     try_finally
       (try_catch
          (call (onDonate id donateAmount) ;;
           setDonateAmount "")
          (fun err => setError (App.message_or "Donation failed" err)))
       (setIsSubmitting false)).

(** The [disabled] attribute of the donate button, with the prop
    [isLoading]. *)
Definition donate_disabled (u : State) (isLoading : bool) : bool :=
  isSubmitting u || isLoading || (donateAmount u =? "")%string.

End DonationCard.

(* ================================================================== *)
(** ** components/CreateDonation.tsx                                  *)
(* ================================================================== *)

Module CreateDonation.

Record State : Type := {
  isExpanded : bool;
  amount : string;
  description : string;
  isSubmitting : bool;
  error : string;
  success : string
}.

(** A pending [setTimeout]: its delay and what its callback does to the
    state when it fires. *)
Record Timer : Type := { delay : Z; fire : State -> State }.

(** The component's state together with the timers it has set. *)
Record Env : Type := { state : State; timers : list Timer }.

Definition M := M Env.

Definition set_state (f : State -> State) : M unit :=
  update_ui (fun env => {| state := f (state env); timers := timers env |}).

Definition with_success (s : string) (u : State) : State :=
  {| isExpanded := isExpanded u; amount := amount u; description := description u;
     isSubmitting := isSubmitting u; error := error u; success := s |}.

Definition setAmount (s : string) : M unit :=
  set_state (fun u =>
    {| isExpanded := isExpanded u; amount := s; description := description u;
       isSubmitting := isSubmitting u; error := error u; success := success u |}) ;;
  emit (EvSetState "amount" (JStr s)).

Definition setDescription (s : string) : M unit :=
  set_state (fun u =>
    {| isExpanded := isExpanded u; amount := amount u; description := s;
       isSubmitting := isSubmitting u; error := error u; success := success u |}) ;;
  emit (EvSetState "description" (JStr s)).

Definition setIsSubmitting (b : bool) : M unit :=
  set_state (fun u =>
    {| isExpanded := isExpanded u; amount := amount u; description := description u;
       isSubmitting := b; error := error u; success := success u |}) ;;
  emit (EvSetState "isSubmitting" (JBool b)).

Definition setError (s : string) : M unit :=
  set_state (fun u =>
    {| isExpanded := isExpanded u; amount := amount u; description := description u;
       isSubmitting := isSubmitting u; error := s; success := success u |}) ;;
  emit (EvSetState "error" (JStr s)).

Definition setSuccess (s : string) : M unit :=
  set_state (with_success s) ;;
  emit (EvSetState "success" (JStr s)).

(** [setTimeout(callback, ms)], not awaited. *)
Definition setTimeout (callback : State -> State) (ms : Z) : M unit :=
  update_ui (fun env =>
    {| state := state env;
       timers := (timers env ++ [ {| delay := ms; fire := callback |} ])%list |}).

Definition handleSubmit (onCreateDonation : string -> string -> External unit)
    (e : FormEvent) : M unit :=
  call (preventDefault e) ;;
  amount <- read_ui (fun env => amount (state env)) ;;
  description <- read_ui (fun env => description (state env)) ;;
  if (amount =? "")%string || (description =? "")%string then ret tt
  else
    (setIsSubmitting true ;;
     setError "" ;;
     setSuccess "" ;;
     try_finally
       (try_catch
          (call (onCreateDonation amount description) ;;
           setAmount "" ;;
           setDescription "" ;;
           setSuccess "Donation campaign created successfully!" ;;
           setTimeout (with_success "") 3000)
          (fun err => setError (App.message_or "Failed to create donation" err)))
       (setIsSubmitting false)).

(** The [disabled] attribute of the submit button, with the prop
    [isLoading]. *)
Definition submit_disabled (u : State) (isLoading : bool) : bool :=
  isSubmitting u || isLoading || (amount u =? "")%string || (description u =? "")%string.

End CreateDonation.

(* ================================================================== *)
(** ** A concrete environment for examples                            *)
(* ================================================================== *)

Module Sample.

(** A runtime that prints every number as [#], reads [parseFloat("1")]
    as 1 and anything else as NaN, and words every engine error alike. *)
#[export] Instance runtime : Runtime := {|
  Number_toString := fun _ => "#";
  StringToNumber := fun _ => S754_nan;
  StringToBigInt := fun _ => None;
  parseFloat := fun s => if (s =? "1")%string then Number_of_bigint 1 else S754_nan;
  engine_message := fun _ => "engine fault"
|}.

(** An encoder that accepts every call and yields the function name. *)
#[export] Instance viem : Viem := {|
  encodeFunctionData := fun _ name _ => inr (JStr name);
  baseSepolia_id := 84532%N
|}.

#[export] Instance config : Config := {|
  CONTRACT_ADDRESS := "0xC0";
  FUNDING_ABI := JArr [];
  VITE_PAYMASTER_SERVICE_URL := JStr "https://paymaster.example"
|}.

Definition status_object (status : string) : JsVal := JObj [ ("status", JStr status) ].

Definition failed_object (reason : string) : JsVal :=
  JObj [ ("status", JStr "FAILED"); ("error", JStr reason) ].

Definition count_requests (history : list Event) : nat :=
  List.length (filter (fun e => match e with EvRequest _ => true | _ => false end) history).

(** A wallet that hands out batch id [0xb1], answers the first poll with
    PENDING and the second with CONFIRMED. *)
Definition slow_wallet : RequestFn :=
  fun history r =>
    if (method r =? "wallet_sendCalls")%string then Resolve (JStr "0xb1")
    else if (count_requests history <? 1)%nat then Resolve (status_object "PENDING")
    else Resolve (status_object "CONFIRMED").

(** A wallet whose every poll reports FAILED with reason [reverted]. *)
Definition failing_wallet : RequestFn :=
  fun _ r =>
    if (method r =? "wallet_sendCalls")%string then Resolve (JStr "0xb1")
    else Resolve (failed_object "reverted").

(** A wallet whose polls stay PENDING for ever. *)
Definition stuck_wallet : RequestFn :=
  fun _ r =>
    if (method r =? "wallet_sendCalls")%string then Resolve (JStr "0xb1")
    else Resolve (status_object "PENDING").

Definition empty_world {U} (u : U) : World U := mkWorld [] u.

(** The number 2.5. *)
Definition two_and_a_half : number := S754_finite false 5629499534213120 (-51).

Definition connected (request : RequestFn) : App.State :=
  {| App.account := Some "0xA11CE";
     App.provider := ProviderObj request;
     App.sdk := JNull;
     App.error := "stale";
     App.isLoading := false;
     App.refreshTrigger := Number_of_bigint 7 |}.

Definition donation_object (target total : Z) : JsVal :=
  JObj [ ("targetAmount", JBigInt target);
         ("totalDonated", JBigInt total);
         ("creator", JStr "0xA11CE");
         ("timestamp", JBigInt 1700000000);
         ("description", JStr "books") ].

(** A contract holding three campaigns, the middle one unreadable. *)
#[export] Instance chain : Chain := {|
  readContract := fun _ c =>
    if (functionName c =? "totalDonations")%string then Resolve (JBigInt 3)
    else match args c with
         | Some [JBigInt 1] => Reject (new_Error "execution reverted")
         | Some [JBigInt i] => Resolve (donation_object 10 i)
         | _ => Reject (NonError JNull)
         end
|}.

Definition list_state : DonationList.State :=
  {| DonationList.donations := [];
     DonationList.isLoadingDonations := false;
     DonationList.error := "stale" |}.

End Sample.

(* ================================================================== *)
(** ** Vocabulary of the statements                                   *)
(* ================================================================== *)

(** The request every status poll sends. *)
Definition poll_request (batchId : JsVal) : Request :=
  {| method := "wallet_getCallsStatus"; params := [batchId] |}.

(** The history after [k] further polls that each led to a wait: every
    such poll is followed by one timer of [ms] milliseconds. *)
Fixpoint pending_log (batchId : JsVal) (ms : Z) (k : nat) (history : list Event)
    : list Event :=
  match k with
  | O => history
  | S k' =>
      pending_log batchId ms k'
        (history ++ [EvRequest (poll_request batchId); EvSleep ms])
  end.

(** The value of a loop counter ([attempt] in the helper, [i] in
    [loadDonations]) after [k] rounds of [++], starting from [0]. *)
Fixpoint counter (k : nat) : number :=
  match k with
  | O => S754_zero false
  | S k' => SFadd prec emax (counter k') (Number_of_bigint 1)
  end.

(** [prev + 1] on numbers. *)
Definition plus_one (x : number) : number := SFadd prec emax x (Number_of_bigint 1).

(** The number of attempts the helper is given: 60 when [maxAttempts] is
    left out. *)
Definition maxAttempts_or_default (maxAttempts : option number) : number :=
  match maxAttempts with Some n => n | None => Number_of_bigint 60 end.

(** The helper's wait after a poll, in milliseconds: what the timer makes
    of [intervalMs], 2000 when it is left out. *)
Definition intervalMs_or_default (intervalMs : option number) : Z :=
  setTimeout_delay
    (match intervalMs with Some ms => ms | None => Number_of_bigint 2000 end).

(** [maxAttempts] lets the loop run exactly [n] rounds: the counter is
    below it in the rounds [0], ..., [n - 1] and no longer after them. *)
Definition attempts_of (maxAttempts : number) (n : nat) : Prop :=
  (forall k, (k < n)%nat -> SFltb (counter k) maxAttempts = true)
  /\ SFltb (counter n) maxAttempts = false.

(** A poll settled with a status other than CONFIRMED and FAILED. *)
Definition keeps_polling {RT : Runtime} (o : Outcome) : bool :=
  match o with
  | Resolve v =>
      match get_prop v "status" with
      | inr s => negb (strict_eq_str s "CONFIRMED") && negb (strict_eq_str s "FAILED")
      | inl _ => false
      end
  | Reject _ => false
  end.

(** How a confirmation loop can end. *)
Inductive PollEnd : Type :=
| Confirmed (status : JsVal)   (* a poll reported CONFIRMED *)
| Failed (err : JsVal)         (* a poll reported FAILED with this error *)
| TimedOut                     (* the attempts ran out *)
| Aborted (e : Exn).           (* a poll rejected, or its answer was not readable *)

(** What the library helper makes of each ending ... *)
Definition helper_completion {RT : Runtime} (e : PollEnd) : Result JsVal :=
  match e with
  | Confirmed status => Ok status
  | Failed err => Throw (new_Error ("Batch failed: " ++ ToString err))
  | TimedOut => Throw (new_Error "Batch confirmation timeout")
  | Aborted e => Throw e
  end.

(** ... and what the loops written out in [App.tsx] make of it. *)
Definition inline_completion {RT : Runtime} (e : PollEnd) : Result unit :=
  match e with
  | Confirmed _ => Ok tt
  | Failed err => Throw (new_Error ("Transaction failed: " ++ ToString err))
  | TimedOut => Throw (new_Error "Transaction confirmation timeout")
  | Aborted e => Throw e
  end.

(** The [confirmed] flag, or the error, with which the inline loop itself
    is left. *)
Definition loop_completion {RT : Runtime} (e : PollEnd) : Result bool :=
  match e with
  | Confirmed _ => Ok true
  | Failed err => Throw (new_Error ("Transaction failed: " ++ ToString err))
  | TimedOut => Ok false
  | Aborted e => Throw e
  end.

(** A computation came to an end: it returned or it threw. *)
Definition completes {A} (r : Result A) : Prop :=
  match r with
  | OutOfFuel => False
  | _ => True
  end.

(** Two completions agree when both return, or both throw the same value. *)
Definition same_completion {A B} (r1 : Result A) (r2 : Result B) : Prop :=
  match r1, r2 with
  | Ok _, Ok _ => True
  | Throw e1, Throw e2 => e1 = e2
  | OutOfFuel, OutOfFuel => True
  | _, _ => False
  end.

(** The helper with [maxAttempts = 60], [intervalMs = 2000] (and fuel for
    its 60 rounds) and the inline loop leave the same history and complete
    alike. *)
Definition identical_polling {RT : Runtime} {VM : Viem} {CFG : Config}
    (provider : Provider) (batchId : JsVal) (w : World App.State) : Prop :=
  let helper :=
    waitForBatchConfirmation 60 provider batchId
      (Some (Number_of_bigint 60)) (Some (Number_of_bigint 2000)) w in
  let inline := App.inline_confirmation provider batchId w in
  snd helper = snd inline /\ same_completion (fst helper) (fst inline).

(** [v.k1.k2...] on plain objects. *)
Fixpoint path (keys : list string) (v : JsVal) : option JsVal :=
  match keys with
  | [] => Some v
  | k :: rest =>
      match v with
      | JObj fields =>
          match lookup_field k fields with
          | Some x => path rest x
          | None => None
          end
      | _ => None
      end
  end.

(** A [wallet_sendCalls] request that asks the paymaster at [url] to
    sponsor exactly one call, to [contract], carrying no value, on Base
    Sepolia. *)
Definition sponsored_submission {VM : Viem} (url contract : JsVal) (r : Request) : Prop :=
  method r = "wallet_sendCalls" /\
  exists arg call : JsVal,
    params r = [arg] /\
    path ["version"] arg = Some (JStr "1.0") /\
    path ["chainId"] arg = Some (JStr (numberToHex baseSepolia_id)) /\
    path ["calls"] arg = Some (JArr [call]) /\
    path ["to"] call = Some contract /\
    path ["value"] call = Some (JStr "0x0") /\
    path ["capabilities"; "paymasterService"; "url"] arg = Some url.

(** An event is harmless for sponsorship: if it is a [wallet_sendCalls]
    request at all, it is a sponsored one. *)
Definition submits_sponsored {VM : Viem} (url contract : JsVal) (e : Event) : Prop :=
  match e with
  | EvRequest r =>
      if (method r =? "wallet_sendCalls")%string
      then sponsored_submission url contract r
      else True
  | _ => True
  end.

(** An event stays within the two remote procedure calls of the flow. *)
Definition rpc_of_the_flow (e : Event) : Prop :=
  match e with
  | EvRequest r => method r = "wallet_sendCalls" \/ method r = "wallet_getCallsStatus"
  | _ => True
  end.

(** The request [sendTransaction] submits. *)
Definition sendTransaction_request {VM : Viem}
    (fromAddress contractAddress paymasterUrl : string) (data : JsVal) : Request :=
  {| method := "wallet_sendCalls";
     params :=
       [ JObj [ ("version", JStr "1.0");
                ("chainId", JStr (numberToHex baseSepolia_id));
                ("from", JStr fromAddress);
                ("calls", JArr [ JObj [ ("to", JStr contractAddress);
                                        ("value", JStr "0x0");
                                        ("data", data) ] ]);
                ("capabilities",
                  JObj [ ("paymasterService",
                           JObj [ ("url", JStr paymasterUrl) ]) ]) ] ] |}.

(** The line [sendTransaction] writes to the console before rethrowing. *)
Definition sendTransaction_logs {RT : Runtime} (e : Exn) : Event :=
  EvConsoleLog ("Error sending transaction : " ++ Exn_toString e).

(** The two contract reads of [useContract]. *)
Definition getDonation_call {CFG : Config} (id : Z) : ReadCall :=
  {| address := CONTRACT_ADDRESS;
     abi := FUNDING_ABI;
     functionName := "getDonation";
     args := Some [JBigInt id] |}.

Definition totalDonations_call {CFG : Config} : ReadCall :=
  {| address := CONTRACT_ADDRESS;
     abi := FUNDING_ABI;
     functionName := "totalDonations";
     args := None |}.

(** The App state a handler leaves behind: only the three flags move,
    and [refreshTrigger] only when it was [raised]. *)
Definition settled_state (u : App.State) (message : string) (raised : bool)
    : App.State :=
  {| App.account := App.account u;
     App.provider := App.provider u;
     App.sdk := App.sdk u;
     App.error := message;
     App.isLoading := false;
     App.refreshTrigger :=
       if raised then plus_one (App.refreshTrigger u) else App.refreshTrigger u |}.

(** The text a handler shows for a thrown value: the message of an
    [Error], and the handler's own [fallback] text for anything else. *)
Definition shown_message (fallback : string) (e : Exn) : string :=
  match e with
  | ErrorObject _ message => message
  | NonError _ => fallback
  end.

(** What [handleCreateDonation] and [handleDonate] owe their caller once
    the wallet check has passed, for a run that started in [w]:
    the history begins by clearing the error and raising [isLoading] and
    ends by lowering [isLoading]; a return leaves the error cleared and
    [refreshTrigger] at [prev + 1]; a throw leaves the message of the
    thrown error (or [fallback] when it is not an [Error]) and
    [refreshTrigger] as it was. *)
Definition manages_flags (fallback : string) (w : World App.State)
    (run : Result unit * World App.State) : Prop :=
  (exists mid,
     log (snd run) =
     (log w ++ [EvSetState "error" (JStr ""); EvSetState "isLoading" (JBool true)]
            ++ mid ++ [EvSetState "isLoading" (JBool false)])%list)
  /\ match fst run with
     | Ok _ => ui (snd run) = settled_state (ui w) "" true
     | Throw e => ui (snd run) = settled_state (ui w) (shown_message fallback e) false
     | OutOfFuel => False
     end.

(** The failure message as C6 words it: the message of whatever was
    thrown. *)
Definition failure_message {RT : Runtime} (e : Exn) : string :=
  match e with
  | ErrorObject _ message => message
  | NonError v => ToString v
  end.

(** C6 as it is worded, for one run: the flags are managed as in
    [manages_flags], a throw leaves the failure message in the error
    state, and a return leaves [refreshTrigger] exactly one higher. *)
Definition flags_as_stated {RT : Runtime} (w : World App.State)
    (run : Result unit * World App.State) : Prop :=
  (exists mid,
     log (snd run) =
     (log w ++ [EvSetState "error" (JStr ""); EvSetState "isLoading" (JBool true)]
            ++ mid ++ [EvSetState "isLoading" (JBool false)])%list)
  /\ App.isLoading (ui (snd run)) = false
  /\ match fst run with
     | Ok _ =>
         App.error (ui (snd run)) = ""
         /\ SFsub prec emax (App.refreshTrigger (ui (snd run)))
                            (App.refreshTrigger (ui w))
            = Number_of_bigint 1
     | Throw e =>
         App.error (ui (snd run)) = failure_message e
         /\ App.refreshTrigger (ui (snd run)) = App.refreshTrigger (ui w)
     | OutOfFuel => False
     end.

(** C6 as it is worded, for both handlers and every connected state. *)
Definition flags_managed_as_stated {RT : Runtime} {VM : Viem} {CFG : Config} : Prop :=
  forall w : World App.State,
    App.not_connected (App.provider (ui w)) (App.account (ui w)) = false ->
    (forall amountStr description,
        flags_as_stated w (App.handleCreateDonation amountStr description w))
    /\ (forall id amountStr,
        flags_as_stated w (App.handleDonate id amountStr w)).

(** [bumps m]: [m] only adds to the history; if it returns, it has set
    [refreshTrigger] to [prev + 1] and touched nothing else; if it throws,
    it has touched nothing. *)
Definition bumps (m : App.M unit) : Prop :=
  forall w,
    (exists evs, log (snd (m w)) = (log w ++ evs)%list)
    /\ match fst (m w) with
       | Ok _ =>
           ui (snd (m w)) =
           {| App.account := App.account (ui w);
              App.provider := App.provider (ui w);
              App.sdk := App.sdk (ui w);
              App.error := App.error (ui w);
              App.isLoading := App.isLoading (ui w);
              App.refreshTrigger := plus_one (App.refreshTrigger (ui w)) |}
       | Throw _ => ui (snd (m w)) = ui w
       | OutOfFuel => False
       end.


(** [total] lets the loop run exactly [n] rounds, and in round [k] the
    counter converts to the bigint [k]. *)
Definition counts_to {RT : Runtime} (total : number) (n : nat) : Prop :=
  (forall k, (k < n)%nat ->
     SFltb (counter k) total = true /\
     BigInt_of_number (counter k) = inr (Z.of_nat k))
  /\ SFltb (counter n) total = false.

(** The contract reads among some events, in order. *)
Fixpoint reads_of (evs : list Event) : list ReadCall :=
  match evs with
  | [] => []
  | EvReadContract c :: rest => c :: reads_of rest
  | _ :: rest => reads_of rest
  end.

(** Following the specification's wording: go through the given ids in
    order; an id whose [getDonation] succeeds is kept with its donation,
    an id whose [getDonation] fails is reported on the console and
    skipped, and the remaining ids are visited all the same. *)
Fixpoint load_in_order {RT : Runtime} {CH : Chain} {CFG : Config}
    (ids : list nat) (kept : list DonationList.DonationWithId)
    : DonationList.M (list DonationList.DonationWithId) :=
  match ids with
  | [] => ret kept
  | k :: rest =>
      fun w =>
        match getDonation (Z.of_nat k) w with
        | (Ok d, w') =>
            load_in_order rest
              (kept ++ [ {| DonationList.id := Z.of_nat k;
                            DonationList.donation := d |} ])%list w'
        | (Throw e, w') =>
            (console_error
               ("Error loading donation " ++ Number_toString (counter k) ++ ":") e ;;
             load_in_order rest kept) w'
        | (OutOfFuel, w') => (OutOfFuel, w')
        end
  end.

(** The state of the list component once a load has ended. *)
Definition loaded_state (l : list DonationList.DonationWithId) (message : string)
    : DonationList.State :=
  {| DonationList.donations := l;
     DonationList.isLoadingDonations := false;
     DonationList.error := message |}.

(** How many provider requests, and how many milliseconds of awaited
    timers, a stretch of history holds. *)
Fixpoint requests_in (evs : list Event) : nat :=
  match evs with
  | [] => 0
  | EvRequest _ :: rest => S (requests_in rest)
  | _ :: rest => requests_in rest
  end.

Fixpoint slept_in (evs : list Event) : Z :=
  match evs with
  | [] => 0
  | EvSleep ms :: rest => ms + slept_in rest
  | _ :: rest => slept_in rest
  end.

(** [spends r s m]: whatever the world, [m] only adds to the history, and
    what it adds holds at most [r] provider requests and between [0] and
    [s] milliseconds of awaited timers. *)
Definition spends {U A} (r : nat) (s : Z) (m : M U A) : Prop :=
  forall w, exists evs,
    log (snd (m w)) = (log w ++ evs)%list
    /\ (requests_in evs <= r)%nat
    /\ 0 <= slept_in evs <= s.

(** C2 as it is worded: whatever the provider answers and whatever number
    [maxAttempts] is, the call comes to an end (some amount of fuel lets it
    return or throw) and has issued at most [maxAttempts] queries. *)
Definition bounded_polling {RT : Runtime} {U : Type} : Prop :=
  forall (provider : Provider) (batchId : JsVal)
         (maxAttempts intervalMs : option number) (w : World U),
  exists (fuel : nat) (evs : list Event),
    let run := waitForBatchConfirmation fuel provider batchId maxAttempts intervalMs w in
    completes (fst run)
    /\ log (snd run) = (log w ++ evs)%list
    /\ SFltb (maxAttempts_or_default maxAttempts)
             (Number_of_bigint (Z.of_nat (requests_in evs))) = false.

(** An event that is no submission: anything but a [wallet_sendCalls]
    request. *)
Definition no_submission (e : Event) : Prop :=
  match e with
  | EvRequest r => method r <> "wallet_sendCalls"
  | _ => True
  end.

(** A run that started at the history [before] and left the history
    [after] has submitted exactly once: it went on with the request [r],
    and whatever followed holds no other [wallet_sendCalls] request. *)
Definition submits_once (r : Request) (before after : list Event) : Prop :=
  exists rest,
    after = (before ++ EvRequest r :: rest)%list /\ Forall no_submission rest.

(** The request both handlers submit. *)
Definition handler_request {VM : Viem} {CFG : Config}
    (account : option string) (data : JsVal) : Request :=
  {| method := "wallet_sendCalls";
     params :=
       [ JObj [ ("version", JStr "1.0");
                ("chainId", JStr (numberToHex baseSepolia_id));
                ("from", App.account_value account);
                ("calls", JArr [ JObj [ ("to", JStr CONTRACT_ADDRESS);
                                        ("value", JStr "0x0");
                                        ("data", data) ] ]);
                ("capabilities",
                  JObj [ ("paymasterService",
                           JObj [ ("url", VITE_PAYMASTER_SERVICE_URL) ]) ]) ] ] |}.

(** The history once a handler has passed the wallet check. *)
Definition started_history (w : World App.State) : list Event :=
  (log w ++ [EvSetState "error" (JStr ""); EvSetState "isLoading" (JBool true)])%list.

(** A handler run ended by throwing [e] after the history [history]: the
    error state holds the text shown for [e] (its message, or [fallback]
    when it is not an [Error]), [refreshTrigger] is as it was and
    [isLoading] is lowered last. *)
Definition thrown_after (fallback : string) (w : World App.State) (e : Exn)
    (history : list Event) : Result unit * World App.State :=
  (Throw e,
   mkWorld (history ++ [EvSetState "error" (JStr (shown_message fallback e));
                        EvSetState "isLoading" (JBool false)])
           (settled_state (ui w) (shown_message fallback e) false)).

(** What a handler run [run] does from world [w] once its call data is
    built and [submission] goes to a working provider: how the answer to
    the submission and the answers to the polls decide the outcome. *)
Definition flow_outcomes {RT : Runtime} (request : RequestFn) (submission : Request)
    (fallback : string) (w : World App.State)
    (run : Result unit * World App.State) : Prop :=
  let started := started_history w in
  let submitted := (started ++ [EvRequest submission])%list in
  (forall e,
      request started submission = Reject e ->
      run = thrown_after fallback w e submitted)
  /\ (forall batchId,
      request started submission = Resolve batchId ->
      truthy batchId = false ->
      run = thrown_after fallback w (new_Error "Failed to get batch ID") submitted)
  /\ (forall batchId (k : nat),
      request started submission = Resolve batchId ->
      truthy batchId = true ->
      let poll := poll_request batchId in
      let history j := pending_log batchId 2000 j submitted in
      (forall j, (j < k)%nat -> keeps_polling (request (history j) poll) = true) ->
      (forall status,
          (k < 60)%nat ->
          request (history k) poll = Resolve status ->
          get_prop status "status" = inr (JStr "CONFIRMED") ->
          run = (Ok tt,
                 mkWorld (history k ++
                          [EvRequest poll;
                           EvSetState "refreshTrigger"
                             (JNum (plus_one (App.refreshTrigger (ui w))));
                           EvSetState "isLoading" (JBool false)])
                         (settled_state (ui w) "" true)))
      /\ (forall status err,
          (k < 60)%nat ->
          request (history k) poll = Resolve status ->
          get_prop status "status" = inr (JStr "FAILED") ->
          get_prop status "error" = inr err ->
          run = thrown_after fallback w
                  (new_Error ("Transaction failed: " ++ ToString err))
                  (history k ++ [EvRequest poll]))
      /\ (k = 60%nat ->
          run = thrown_after fallback w
                  (new_Error "Transaction confirmation timeout") (history 60%nat))).


(** What a handler run [run] does from world [w] once its batch is
    submitted and poll number [k] brings no status: the provider rejects
    it, or answers with [null] or [undefined]. *)
Definition poll_failure_outcomes {RT : Runtime} (request : RequestFn)
    (submission : Request) (fallback : string) (w : World App.State)
    (run : Result unit * World App.State) : Prop :=
  let started := started_history w in
  let submitted := (started ++ [EvRequest submission])%list in
  forall batchId (k : nat),
    request started submission = Resolve batchId ->
    truthy batchId = true ->
    let poll := poll_request batchId in
    let history j := pending_log batchId 2000 j submitted in
    (k < 60)%nat ->
    (forall j, (j < k)%nat -> keeps_polling (request (history j) poll) = true) ->
    (forall e,
        request (history k) poll = Reject e ->
        run = thrown_after fallback w e (history k ++ [EvRequest poll]))
    /\ (forall answer,
        request (history k) poll = Resolve answer ->
        answer = JNull \/ answer = JUndefined ->
        run = thrown_after fallback w
                (new_TypeError (engine_message (ReadOfNullish answer "status")))
                (history k ++ [EvRequest poll])).

(** The App state while a handler's attempt runs. *)
Definition loading_state (u : App.State) : App.State :=
  {| App.account := App.account u;
     App.provider := App.provider u;
     App.sdk := App.sdk u;
     App.error := "";
     App.isLoading := true;
     App.refreshTrigger := App.refreshTrigger u |}.

(** How the guarded part of a handler completes, given how its attempt
    completed in world [w']. *)
Definition guarded_completion (fallback : string) (r : Result unit)
    (w' : World App.State) : Result unit * World App.State :=
  let u := ui w' in
  match r with
  | Ok _ =>
      (r, mkWorld (log w' ++ [EvSetState "isLoading" (JBool false)])
            {| App.account := App.account u; App.provider := App.provider u;
               App.sdk := App.sdk u; App.error := App.error u;
               App.isLoading := false;
               App.refreshTrigger := App.refreshTrigger u |})
  | Throw e =>
      (r, mkWorld (log w' ++ [EvSetState "error" (JStr (shown_message fallback e));
                              EvSetState "isLoading" (JBool false)])
            {| App.account := App.account u; App.provider := App.provider u;
               App.sdk := App.sdk u; App.error := shown_message fallback e;
               App.isLoading := false;
               App.refreshTrigger := App.refreshTrigger u |})
  | OutOfFuel => (r, w')
  end.


Definition getTotalDonated_call {CFG : Config} (id : Z) : ReadCall :=
  {| address := CONTRACT_ADDRESS;
     abi := FUNDING_ABI;
     functionName := "getTotalDonated";
     args := Some [JBigInt id] |}.

(** The App state after a connection attempt that went through ... *)
Definition connected_state (u : App.State) (c : App.Connection) : App.State :=
  {| App.account := App.address c;
     App.provider := App.connectedProvider c;
     App.sdk := App.connectedSdk c;
     App.error := "";
     App.isLoading := false;
     App.refreshTrigger := App.refreshTrigger u |}.

(** ... and after one that did not. *)
Definition disconnected_state (u : App.State) (message : string) : App.State :=
  {| App.account := None;
     App.provider := ProviderNull;
     App.sdk := JNull;
     App.error := message;
     App.isLoading := false;
     App.refreshTrigger := App.refreshTrigger u |}.

(** The history a failed connection attempt ends with. *)
Definition disconnects_with (message : string) : list Event :=
  [ EvSetState "error" (JStr message);
    EvSetState "account" JNull;
    EvSetState "provider" JNull;
    EvSetState "sdk" JNull;
    EvSetState "isLoading" (JBool false) ].

(** The history a connection attempt that went through ends with. *)
Definition connects_with (c : App.Connection) : list Event :=
  [ EvSetState "account" (App.account_value (App.address c));
    EvSetState "provider" (App.provider_value (App.connectedProvider c));
    EvSetState "sdk" (App.connectedSdk c);
    EvSetState "error" (JStr "");
    EvSetState "isLoading" (JBool false) ].

(** From the history [h0] on, all three steps of a connection went
    through: [connectWallet] resolved with [c], the switch to Base Sepolia
    and the paymaster check for [c]'s provider both resolved with a truthy
    value, and [evs] is what the three calls added to the history. *)
Definition connection_checked {CFG : Config} {WS : App.WalletService}
    (h0 : list Event) (c : App.Connection) (evs : list Event) : Prop :=
  exists evs1 s evs2 v evs3,
    App.connectWallet h0 = (Ok c, evs1)
    /\ App.switchToBaseSepolia (App.connectedProvider c) (h0 ++ evs1)%list
       = (Ok s, evs2)
    /\ truthy s = true
    /\ App.checkPaymasterService VITE_PAYMASTER_SERVICE_URL
         (App.connectedProvider c) (h0 ++ evs1 ++ evs2)%list = (Ok v, evs3)
    /\ truthy v = true
    /\ evs = (evs1 ++ evs2 ++ evs3)%list.

(** The App state after a disconnect that went through. *)
Definition cleared_state (u : App.State) : App.State :=
  {| App.account := None;
     App.provider := ProviderNull;
     App.sdk := JNull;
     App.error := "";
     App.isLoading := App.isLoading u;
     App.refreshTrigger := App.refreshTrigger u |}.

Definition clears : list Event :=
  [ EvSetState "account" JNull;
    EvSetState "provider" JNull;
    EvSetState "sdk" JNull;
    EvSetState "error" (JStr "") ].


(** More of the sample environment: a wallet service that connects to
    the slow wallet and cannot disconnect, and form events that do
    nothing. *)
(** The binary64 number of sign [s] and magnitude [k], for an integer [k]
    with [0 < k < 2^53]: its bits, moved up to fill the 53 digits of the
    mantissa. *)
Definition integer_number (s : bool) (k : Z) : number :=
  let d := Zdigits2 k in
  S754_finite s (Z.to_pos (k * 2 ^ (prec - d))) (d - prec).

(** A mantissa that fits the 53 digits, as every result of an arithmetic
    operation has. *)
Definition short_mantissa (x : number) : Prop :=
  match x with
  | S754_finite _ m _ => Zpos m < 2 ^ prec
  | _ => True
  end.

(** The history and state of [loadDonations] once it has asked for the
    total. *)
Definition asked_total {CFG : Config} (w : World DonationList.State)
    : World DonationList.State :=
  mkWorld (log w ++ [EvSetState "isLoadingDonations" (JBool true);
                     EvSetState "error" (JStr "");
                     EvReadContract totalDonations_call])%list
    {| DonationList.donations := DonationList.donations (ui w);
       DonationList.isLoadingDonations := true;
       DonationList.error := "" |}.

Module SampleForms.

#[export] Instance service : App.WalletService := {|
  App.connectWallet := fun _ =>
    (Ok {| App.address := Some "0xA11CE";
           App.connectedProvider := ProviderObj Sample.slow_wallet;
           App.connectedSdk := JObj [] |}, []);
  App.disconnectWallet := fun _ _ => (Throw (new_Error "popup closed"), []);
  App.switchToBaseSepolia := fun _ _ => (Ok (JBool true), []);
  App.checkPaymasterService := fun url _ _ => (Ok (JBool (truthy url)), [])
|}.

Definition submit : FormEvent := {| preventDefault := fun _ => (Ok tt, []) |}.

Definition disconnected : App.State :=
  {| App.account := None;
     App.provider := ProviderNull;
     App.sdk := JNull;
     App.error := "";
     App.isLoading := false;
     App.refreshTrigger := S754_zero false |}.

Definition card (amount : string) : DonationCard.State :=
  {| DonationCard.donateAmount := amount;
     DonationCard.isSubmitting := false;
     DonationCard.error := "" |}.

Definition form (amount description : string) : CreateDonation.Env :=
  {| CreateDonation.state :=
       {| CreateDonation.isExpanded := true;
          CreateDonation.amount := amount;
          CreateDonation.description := description;
          CreateDonation.isSubmitting := false;
          CreateDonation.error := "";
          CreateDonation.success := "" |};
     CreateDonation.timers := [] |}.

(** A callback that rejects. *)
Definition rejecting : External unit :=
  fun _ => (Throw (new_Error "Transaction failed: reverted"), []).

(** A wallet whose polls reject. *)
Definition broken_wallet : RequestFn :=
  fun _ r =>
    if (method r =? "wallet_sendCalls")%string then Resolve (JStr "0xb1")
    else Reject (NonError (JStr "offline")).

(** A contract whose [getTotalDonated] answers 42 and whose [getDonation]
    answers without the two texts. *)
#[export] Instance bare_chain : Chain := {|
  readContract := fun _ c =>
    if (functionName c =? "getTotalDonated")%string then Resolve (JBigInt 42)
    else Resolve (JObj [ ("targetAmount", JBigInt 10);
                         ("totalDonated", JBigInt 4);
                         ("timestamp", JBigInt 1700000000) ])
|}.

(** An encoder that finds no function on any ABI. *)
#[export] Instance failing_encoder : Viem := {|
  encodeFunctionData := fun _ name _ =>
    inl (new_Error ("Function " ++ name ++ " not found on ABI"));
  baseSepolia_id := 84532%N
|}.

(** A contract holding three donations. *)
#[export] Instance three_donations : Chain := {|
  readContract := fun _ c =>
    if (functionName c =? "totalDonations")%string then Resolve (JBigInt 3)
    else Resolve (JObj [ ("targetAmount", JBigInt 10);
                         ("totalDonated", JBigInt 4);
                         ("timestamp", JBigInt 1700000000) ])
|}.

End SampleForms.


(* ================================================================== *)
(** * Reasoning about effects                                         *)
(* ================================================================== *)

(** [appends P m]: whatever the world, [m] only adds events to the end of
    the history, and every event it adds satisfies [P]. *)
Definition appends {U A} (P : Event -> Prop) (m : M U A) : Prop :=
  forall w, exists evs, log (snd (m w)) = (log w ++ evs)%list /\ Forall P evs.

(** [quiet m]: [m] only adds events to the history, leaves the component
    state alone, and returns or throws. *)
Definition quiet {U A} (m : M U A) : Prop :=
  forall w,
    (exists evs, snd (m w) = mkWorld (log w ++ evs) (ui w)) /\ completes (fst (m w)).

Section Frames.
Context {U : Type}.
Variable P : Event -> Prop.

Lemma appends_ret {A} (a : A) : appends P (@ret U A a).
Proof. intros w. exists []. simpl. rewrite app_nil_r. auto. Qed.

Lemma appends_throw {A} e : appends P (@throw U A e).
Proof. intros w. exists []. simpl. rewrite app_nil_r. auto. Qed.

Lemma appends_out_of_fuel {A} : appends P (@out_of_fuel U A).
Proof. intros w. exists []. simpl. rewrite app_nil_r. auto. Qed.

Lemma appends_lift {A} (r : Exn + A) : appends P (@lift U A r).
Proof. destruct r; [apply appends_throw | apply appends_ret]. Qed.

Lemma appends_await o : appends P (@await U o).
Proof. destruct o; [apply appends_ret | apply appends_throw]. Qed.

Lemma appends_emit e : P e -> appends P (@emit U e).
Proof. intros He w. exists [e]. simpl. auto. Qed.

Lemma appends_read_ui {A} (f : U -> A) : appends P (read_ui f).
Proof. intros w. exists []. simpl. rewrite app_nil_r. auto. Qed.

Lemma appends_update_ui (f : U -> U) : appends P (update_ui f).
Proof. intros w. exists []. simpl. rewrite app_nil_r. auto. Qed.

Lemma appends_bind {A B} (m : M U A) (k : A -> M U B) :
  appends P m -> (forall a, appends P (k a)) -> appends P (bind m k).
Proof.
  intros Hm Hk w. unfold bind.
  destruct (Hm w) as (e1 & H1 & F1).
  destruct (m w) as [[a | e | ] w1]; simpl in *.
  - destruct (Hk a w1) as (e2 & H2 & F2).
    exists (e1 ++ e2)%list. rewrite H2, H1, app_assoc.
    split; [reflexivity | apply Forall_app; auto].
  - exists e1; auto.
  - exists e1; auto.
Qed.

Lemma appends_try_catch {A} (body : M U A) handler :
  appends P body -> (forall e, appends P (handler e)) ->
  appends P (try_catch body handler).
Proof.
  intros Hb Hh w. unfold try_catch.
  destruct (Hb w) as (e1 & H1 & F1).
  destruct (body w) as [[a | e | ] w1]; simpl in *.
  - exists e1; auto.
  - destruct (Hh e w1) as (e2 & H2 & F2).
    exists (e1 ++ e2)%list. rewrite H2, H1, app_assoc.
    split; [reflexivity | apply Forall_app; auto].
  - exists e1; auto.
Qed.

Lemma appends_try_finally {A} (body : M U A) cleanup :
  appends P body -> appends P cleanup -> appends P (try_finally body cleanup).
Proof.
  intros Hb Hc w. unfold try_finally.
  destruct (Hb w) as (e1 & H1 & F1).
  destruct (body w) as [[a | e | ] w1]; simpl in *.
  3: exists e1; auto.
  all: destruct (Hc w1) as (e2 & H2 & F2).
  all: destruct (cleanup w1) as [[[] | e' | ] w2]; simpl in *.
  all: exists (e1 ++ e2)%list; rewrite H2, H1, app_assoc.
  all: split; [reflexivity | apply Forall_app; auto].
Qed.

Lemma appends_provider_request {RT : Runtime} provider r :
  P (EvRequest r) -> appends P (@provider_request RT U provider r).
Proof.
  intros Hr. destruct provider; simpl; try apply appends_throw.
  intros w. exists [EvRequest r]. unfold bind, emit. simpl.
  destruct (request (log w) r); simpl; auto.
Qed.

Lemma appends_client_readContract {CH : Chain} c :
  P (EvReadContract c) -> appends P (@client_readContract U CH c).
Proof.
  intros Hc w. exists [EvReadContract c]. unfold client_readContract, bind, emit.
  simpl. destruct (readContract (log w) c); simpl; auto.
Qed.

Lemma appends_if {A} (b : bool) (m1 m2 : M U A) :
  appends P m1 -> appends P m2 -> appends P (if b then m1 else m2).
Proof. destruct b; auto. Qed.
End Frames.

Section Quiet.
Context {U : Type}.

Lemma quiet_ret {A} (a : A) : quiet (@ret U A a).
Proof.
  intros w. split; [ | exact I]. exists []. cbn. rewrite app_nil_r.
  destruct w; reflexivity.
Qed.

Lemma quiet_throw {A} e : quiet (@throw U A e).
Proof.
  intros w. split; [ | exact I]. exists []. cbn. rewrite app_nil_r.
  destruct w; reflexivity.
Qed.

Lemma quiet_lift {A} (r : Exn + A) : quiet (@lift U A r).
Proof. destruct r; [apply quiet_throw | apply quiet_ret]. Qed.

Lemma quiet_emit e : quiet (@emit U e).
Proof. intros w. split; [ | exact I]. exists [e]. reflexivity. Qed.

Lemma quiet_bind {A B} (m : M U A) (k : A -> M U B) :
  quiet m -> (forall a, quiet (k a)) -> quiet (bind m k).
Proof.
  intros Hm Hk w. unfold bind.
  destruct (Hm w) as [(e1 & H1) C1].
  destruct (m w) as [[a | e | ] w1]; cbn in *; subst w1.
  - destruct (Hk a (mkWorld (log w ++ e1) (ui w))) as [(e2 & H2) C2].
    split; [ | exact C2]. exists (e1 ++ e2)%list. rewrite H2. cbn.
    rewrite app_assoc. reflexivity.
  - split; [exists e1; reflexivity | exact I].
  - contradiction.
Qed.

Lemma quiet_if {A} (b : bool) (m1 m2 : M U A) :
  quiet m1 -> quiet m2 -> quiet (if b then m1 else m2).
Proof. destruct b; auto. Qed.

Lemma quiet_provider_request {RT : Runtime} provider r :
  quiet (@provider_request RT U provider r).
Proof.
  destruct provider; cbn; try apply quiet_throw.
  intros w. unfold bind, emit. cbn.
  destruct (request (log w) r); (split; [exists [EvRequest r]; reflexivity | exact I]).
Qed.
End Quiet.

Create HintDb frames.
#[export] Hint Resolve
  appends_ret appends_throw appends_out_of_fuel appends_lift appends_await
  appends_read_ui appends_update_ui appends_bind appends_try_catch
  appends_try_finally appends_if
  quiet_ret quiet_throw quiet_lift quiet_emit quiet_bind quiet_if
  quiet_provider_request : frames.

(* ================================================================== *)
(** * Integers as binary64 numbers                                    *)
(* ================================================================== *)

Section SmallIntegers.

(** [<] on numbers is asymmetric and irreflexive. *)
Lemma SFltb_asym (x y : number) : SFltb x y = true -> SFltb y x = false.
Proof.
  unfold SFltb.
  destruct x as [sx | sx | | sx mx ex], y as [sy | sy | | sy my ey];
    cbn [SFcompare]; try discriminate; try reflexivity;
    try (destruct sx; discriminate || reflexivity);
    try (destruct sy; discriminate || reflexivity);
    try (destruct sx, sy; discriminate || reflexivity).
  pose proof (Pos.compare_cont_antisym mx my Eq) as Ha. cbn [CompOpp] in Ha.
  rewrite <- Ha. rewrite (Z.compare_antisym ex ey).
  destruct sx, sy; try discriminate; try reflexivity;
    destruct (ex ?= ey); cbn [CompOpp]; try discriminate; try reflexivity;
    destruct (Pos.compare_cont Eq mx my); cbn [CompOpp]; discriminate || reflexivity.
Qed.

Lemma SFltb_irrefl (x : number) : SFltb x x = false.
Proof.
  unfold SFltb.
  destruct x as [sx | sx | | sx mx ex]; cbn [SFcompare]; try reflexivity.
  - destruct sx; reflexivity.
  - rewrite Z.compare_refl, Pos.compare_cont_refl. destruct sx; reflexivity.
Qed.

Lemma digits2_pos_bounds (p : positive) :
  2 ^ (Zpos (digits2_pos p) - 1) <= Zpos p < 2 ^ Zpos (digits2_pos p).
Proof.
  induction p as [p IH | p IH | ]; cbn [digits2_pos].
  - rewrite Pos2Z.inj_succ.
    replace (Z.succ (Zpos (digits2_pos p)) - 1) with (Z.succ (Zpos (digits2_pos p) - 1)) by lia.
    rewrite !Z.pow_succ_r by lia. lia.
  - rewrite Pos2Z.inj_succ.
    replace (Z.succ (Zpos (digits2_pos p)) - 1) with (Z.succ (Zpos (digits2_pos p) - 1)) by lia.
    rewrite !Z.pow_succ_r by lia. lia.
  - cbn. lia.
Qed.

Lemma digits2_pos_unique (p : positive) (d : Z) :
  2 ^ (d - 1) <= Zpos p < 2 ^ d -> Zpos (digits2_pos p) = d.
Proof.
  intros [Hlo Hhi]. pose proof (digits2_pos_bounds p) as [Hlo' Hhi'].
  set (d' := Zpos (digits2_pos p)) in *.
  assert (0 < d) by (destruct d; cbn in Hhi; lia).
  destruct (Z.lt_trichotomy d' d) as [Hlt | [Heq | Hgt]]; [ | exact Heq | ].
  - assert (2 ^ d' <= 2 ^ (d - 1)) by (apply Z.pow_le_mono_r; lia). lia.
  - assert (2 ^ d <= 2 ^ (d' - 1)) by (apply Z.pow_le_mono_r; lia). lia.
Qed.

Lemma Zdigits2_bounds (k : Z) :
  0 < k -> 2 ^ (Zdigits2 k - 1) <= k < 2 ^ Zdigits2 k.
Proof. destruct k as [ | p | p]; try lia. intros _. apply digits2_pos_bounds. Qed.

Lemma Zdigits2_range (k : Z) : 0 < k < 2 ^ prec -> 1 <= Zdigits2 k <= prec.
Proof.
  intros [Hpos Hlt]. pose proof (Zdigits2_bounds k Hpos) as [Hlo Hhi].
  split.
  - destruct k; try lia. cbn. lia.
  - destruct (Z_le_gt_dec (Zdigits2 k) prec) as [Hle | Hgt]; [exact Hle | ].
    assert (2 ^ prec <= 2 ^ (Zdigits2 k - 1)) by (apply Z.pow_le_mono_r; lia). lia.
Qed.

Lemma Zdigits2_mono (a b : Z) : 0 < a <= b -> Zdigits2 a <= Zdigits2 b.
Proof.
  intros Hab.
  pose proof (Zdigits2_bounds a ltac:(lia)) as [Hlo _].
  pose proof (Zdigits2_bounds b ltac:(lia)) as [_ Hhi].
  destruct (Z_le_gt_dec (Zdigits2 a) (Zdigits2 b)) as [Hle | Hgt]; [exact Hle | ].
  assert (0 <= Zdigits2 b) by (destruct b; cbn; lia).
  assert (2 ^ Zdigits2 b <= 2 ^ (Zdigits2 a - 1)) by (apply Z.pow_le_mono_r; lia). lia.
Qed.

(** The mantissa of [integer_number s k] is [k] times a power of two, and
    has 53 digits. *)
Lemma full_mantissa (k : Z) :
  0 < k < 2 ^ prec ->
  Zpos (Z.to_pos (k * 2 ^ (prec - Zdigits2 k))) = k * 2 ^ (prec - Zdigits2 k)
  /\ Zpos (digits2_pos (Z.to_pos (k * 2 ^ (prec - Zdigits2 k)))) = prec.
Proof.
  intros Hk. pose proof (Zdigits2_range k Hk) as Hd.
  pose proof (Zdigits2_bounds k (proj1 Hk)) as [Hlo Hhi].
  assert (Hp : 0 < 2 ^ (prec - Zdigits2 k)) by (apply Z.pow_pos_nonneg; lia).
  assert (Hid : Zpos (Z.to_pos (k * 2 ^ (prec - Zdigits2 k))) = k * 2 ^ (prec - Zdigits2 k))
    by (apply Z2Pos.id, Z.mul_pos_pos; lia).
  split; [exact Hid | ].
  apply digits2_pos_unique. rewrite Hid.
  replace (prec - 1) with ((Zdigits2 k - 1) + (prec - Zdigits2 k)) by lia.
  replace (2 ^ prec) with (2 ^ Zdigits2 k * 2 ^ (prec - Zdigits2 k))
    by (rewrite <- Z.pow_add_r by lia; f_equal; lia).
  rewrite Z.pow_add_r by lia.
  split.
  - apply Z.mul_le_mono_nonneg_r; lia.
  - apply Z.mul_lt_mono_pos_r; lia.
Qed.

Lemma iter_xO (p n : positive) : Zpos (Pos.iter xO p n) = Zpos p * 2 ^ Zpos n.
Proof.
  induction n as [ | n IH] using Pos.peano_ind.
  - cbn. lia.
  - rewrite Pos.iter_succ, Pos2Z.inj_succ, Z.pow_succ_r by lia.
    rewrite Pos2Z.inj_xO, IH. lia.
Qed.

Lemma iter_pos_nat {A} (f : A -> A) (n : positive) (x : A) :
  iter_pos f n x = Nat.iter (Pos.to_nat n) f x.
Proof.
  revert x. induction n as [n IH | n IH | ]; intros x; cbn [iter_pos].
  - rewrite !IH, Pos2Nat.inj_xI.
    replace (S (2 * Pos.to_nat n)) with (Pos.to_nat n + (Pos.to_nat n + 1))%nat by lia.
    rewrite !Nat.iter_add. reflexivity.
  - rewrite !IH, Pos2Nat.inj_xO.
    replace (2 * Pos.to_nat n)%nat with (Pos.to_nat n + Pos.to_nat n)%nat by lia.
    rewrite Nat.iter_add. reflexivity.
  - reflexivity.
Qed.

(** Shifting a mantissa right halves it, whatever the round and sticky
    bits; shifting out zeros leaves them unset. *)
Lemma shr_1_m (mrs : shr_record) :
  0 <= shr_m mrs -> shr_m (shr_1 mrs) = shr_m mrs / 2.
Proof.
  destruct mrs as [m r s]. cbn [shr_m]. intros Hm.
  destruct m as [ | [p | p | ] | p]; cbn [shr_1 shr_m]; try reflexivity; try lia.
  - apply (Z.div_unique _ 2 _ 1); lia.
  - apply (Z.div_unique _ 2 _ 0); lia.
Qed.

Lemma shr_iter_m (n : nat) (mrs : shr_record) :
  0 <= shr_m mrs ->
  shr_m (Nat.iter n shr_1 mrs) = shr_m mrs / 2 ^ Z.of_nat n.
Proof.
  intros Hm. induction n as [ | n IH].
  - cbn [Nat.iter nat_rect]. cbn. rewrite Z.div_1_r. reflexivity.
  - cbn [Nat.iter nat_rect].
    assert (0 <= shr_m (Nat.iter n shr_1 mrs)).
    { rewrite IH. apply Z.div_pos; [lia | apply Z.pow_pos_nonneg; lia]. }
    change (nat_rect _ mrs (fun _ => shr_1) n) with (Nat.iter n shr_1 mrs).
    rewrite shr_1_m by assumption. rewrite IH.
    rewrite Z.div_div by (try apply Z.pow_pos_nonneg; lia).
    rewrite Nat2Z.inj_succ, Z.pow_succ_r by lia. f_equal. lia.
Qed.

Lemma shr_1_even (m : Z) :
  0 < m ->
  shr_1 (Build_shr_record (2 * m) false false) = Build_shr_record m false false.
Proof. destruct m; try lia. reflexivity. Qed.

Lemma shr_exact (n : nat) (m : Z) :
  0 < m ->
  Nat.iter n shr_1 (Build_shr_record (m * 2 ^ Z.of_nat n) false false)
  = Build_shr_record m false false.
Proof.
  intros Hm. induction n as [ | n IH].
  - cbn [Nat.iter nat_rect]. f_equal. cbn. lia.
  - rewrite Nat.iter_succ_r.
    replace (m * 2 ^ Z.of_nat (S n)) with (2 * (m * 2 ^ Z.of_nat n))
      by (rewrite Nat2Z.inj_succ, Z.pow_succ_r by lia; lia).
    rewrite shr_1_even by (apply Z.mul_pos_pos; [lia | apply Z.pow_pos_nonneg; lia]).
    exact IH.
Qed.

(** A mantissa of 53 digits with an exponent in range needs no rounding. *)
Lemma round_full_mantissa (s : bool) (m : positive) (e : Z) :
  Zpos (digits2_pos m) = prec ->
  3 - emax - prec <= e <= emax - prec ->
  binary_round_aux prec emax s (Zpos m) e loc_Exact = S754_finite s m e.
Proof.
  intros Hd He. unfold binary_round_aux, shr_fexp, fexp, emin. cbn [Zdigits2].
  rewrite Hd.
  replace (Z.max (prec + e - prec) (3 - emax - prec) - e) with 0 by lia.
  cbn [shr shr_record_of_loc shr_m loc_of_shr_record round_nearest_even Zdigits2].
  rewrite Hd.
  replace (Z.max (prec + e - prec) (3 - emax - prec) - e) with 0 by lia.
  cbn [shr shr_record_of_loc shr_m].
  replace (e <=? emax - prec) with true by (symmetry; apply Z.leb_le; lia).
  reflexivity.
Qed.

(** Rounding is exact when only zeros stand below the 53 leading digits. *)
Lemma round_trailing_zeros (s : bool) (m p : positive) (e q : Z) :
  Zpos (digits2_pos m) = prec ->
  0 <= q -> Zpos p = Zpos m * 2 ^ q ->
  3 - emax - prec <= e + q <= emax - prec ->
  binary_round_aux prec emax s (Zpos p) e loc_Exact = S754_finite s m (e + q).
Proof.
  intros Hd Hq Hp He.
  destruct q as [ | q | q]; [ | | lia].
  - assert (p = m) by lia. subst p. rewrite Z.add_0_r in *.
    apply round_full_mantissa; assumption.
  - pose proof (digits2_pos_bounds m) as [Hlo Hhi]. rewrite Hd in Hlo, Hhi.
    assert (Hpq : 0 < 2 ^ Zpos q) by (apply Z.pow_pos_nonneg; lia).
    assert (Hdp : Zpos (digits2_pos p) = prec + Zpos q).
    { apply digits2_pos_unique. rewrite Hp.
      replace (prec + Zpos q - 1) with ((prec - 1) + Zpos q) by lia.
      rewrite !Z.pow_add_r by (unfold prec; lia). split.
      - apply Z.mul_le_mono_nonneg_r; lia.
      - apply Z.mul_lt_mono_pos_r; lia. }
    unfold binary_round_aux, shr_fexp. cbn [Zdigits2]. rewrite Hdp.
    replace (fexp prec emax (prec + Zpos q + e) - e) with (Zpos q)
      by (unfold fexp, emin, prec, emax in *; lia).
    cbn [shr shr_record_of_loc]. rewrite iter_pos_nat.
    replace (Zpos p) with (Zpos m * 2 ^ Z.of_nat (Pos.to_nat q))
      by (rewrite positive_nat_Z; symmetry; exact Hp).
    rewrite shr_exact by lia.
    cbn [shr_m loc_of_shr_record round_nearest_even Zdigits2]. rewrite Hd.
    replace (fexp prec emax (prec + (e + Zpos q)) - (e + Zpos q)) with 0
      by (unfold fexp, emin, prec, emax in *; lia).
    cbn [shr shr_record_of_loc shr_m].
    replace (e + Zpos q <=? emax - prec) with true
      by (symmetry; apply Z.leb_le; lia).
    reflexivity.
Qed.

(** Rounding [k * 2^j] at exponent [-j] gives the number of the integer
    [k]. *)
Lemma round_integer (s : bool) (p : positive) (k j : Z) :
  0 < k < 2 ^ prec -> 0 <= j -> Zpos p = k * 2 ^ j ->
  binary_round prec emax s p (- j) = integer_number s k.
Proof.
  intros Hk Hj Hp. pose proof (Zdigits2_range k Hk) as Hd.
  pose proof (Zdigits2_bounds k (proj1 Hk)) as [Hlo Hhi].
  pose proof (full_mantissa k Hk) as [Hm Hfull].
  assert (Hpj : 0 < 2 ^ j) by (apply Z.pow_pos_nonneg; lia).
  unfold integer_number. cbv zeta.
  set (d := Zdigits2 k) in *.
  set (m := Z.to_pos (k * 2 ^ (prec - d))) in *.
  assert (Hdp : Zpos (digits2_pos p) = d + j).
  { apply digits2_pos_unique. rewrite Hp.
    replace (d + j - 1) with ((d - 1) + j) by lia.
    rewrite !Z.pow_add_r by lia. split.
    - apply Z.mul_le_mono_nonneg_r; lia.
    - apply Z.mul_lt_mono_pos_r; lia. }
  unfold binary_round. rewrite Hdp.
  replace (fexp prec emax (d + j + - j)) with (d - prec)
    by (unfold fexp, emin, prec, emax in *; lia).
  unfold shl_align.
  destruct (d - prec - - j) as [ | q | q] eqn:Hq.
  - (* the bits fill the mantissa as they are *)
    assert (j = prec - d) by lia. subst j.
    assert (p = m) by lia. subst p.
    replace (- (prec - d)) with (d - prec) by lia.
    apply round_full_mantissa; [exact Hfull | unfold prec, emax in *; lia].
  - (* too many bits: the lower ones, all zero, are shifted out *)
    replace (d - prec) with (- j + Zpos q) by lia.
    apply round_trailing_zeros; [exact Hfull | lia | | unfold prec, emax in *; lia].
    rewrite Hm, Hp, <- Z.mul_assoc, <- Z.pow_add_r by lia.
    f_equal. f_equal. lia.
  - (* too few bits: zeros are appended *)
    assert (Hiter : Pos.iter xO p q = m).
    { apply Pos2Z.inj. rewrite iter_xO, Hm, Hp, <- Z.mul_assoc, <- Z.pow_add_r by lia.
      f_equal. f_equal. lia. }
    rewrite Hiter.
    apply round_full_mantissa; [exact Hfull | unfold prec, emax in *; lia].
Qed.

Lemma Number_of_bigint_small (k : Z) :
  0 < k < 2 ^ prec -> Number_of_bigint k = integer_number false k.
Proof.
  intros Hk. unfold Number_of_bigint, binary_normalize.
  destruct k as [ | p | p]; try lia.
  exact (round_integer false p (Zpos p) 0 Hk (Z.le_refl 0) ltac:(rewrite Z.pow_0_r; lia)).
Qed.

(** Adding 1 to the number of a small integer is exact. *)
Lemma integer_number_succ (k : Z) :
  0 < k -> k + 1 < 2 ^ prec ->
  SFadd prec emax (integer_number false k) (Number_of_bigint 1)
  = integer_number false (k + 1).
Proof.
  intros Hpos Hlt.
  assert (Hk : 0 < k < 2 ^ prec) by lia.
  pose proof (Zdigits2_range k Hk) as Hd.
  pose proof (full_mantissa k Hk) as [Hm _].
  change (Number_of_bigint 1) with (S754_finite false 4503599627370496 (-52)).
  unfold integer_number at 1. cbv zeta.
  set (d := Zdigits2 k) in *.
  set (m := Z.to_pos (k * 2 ^ (prec - d))) in *.
  cbn [SFadd].
  replace (Z.min (d - prec) (-52)) with (-52) by (unfold prec in *; lia).
  assert (Hleft : Zpos (fst (shl_align m (d - prec) (-52))) = k * 2 ^ 52).
  { unfold shl_align. destruct (-52 - (d - prec)) as [ | q | q] eqn:Hq.
    - cbn [fst]. rewrite Hm. f_equal. f_equal. unfold prec in *. lia.
    - unfold prec in *. lia.
    - cbn [fst]. rewrite iter_xO, Hm, <- Z.mul_assoc, <- Z.pow_add_r by (unfold prec in *; lia).
      f_equal. f_equal. unfold prec in *. lia. }
  cbn [cond_Zopp]. rewrite Hleft.
  change (Zpos (fst (shl_align 4503599627370496 (-52) (-52)))) with (2 ^ 52).
  unfold binary_normalize.
  destruct (k * 2 ^ 52 + 2 ^ 52) as [ | p | p] eqn:Hp; try lia.
  exact (round_integer false p (k + 1) 52 ltac:(lia) ltac:(lia) ltac:(lia)).
Qed.

(** The loop counter of a [for (let i = 0; ...; i++)] holds the integer
    it counts, as long as that is below [2^53]. *)
Lemma counter_small (k : nat) :
  (0 < k)%nat -> Z.of_nat k < 2 ^ prec ->
  counter k = integer_number false (Z.of_nat k).
Proof.
  induction k as [ | k IH]; [lia | ]. intros _ Hlt.
  cbn [counter]. destruct k as [ | k].
  - cbn [counter]. vm_compute. reflexivity.
  - rewrite IH by lia.
    replace (Z.of_nat (S (S k))) with (Z.of_nat (S k) + 1) by lia.
    apply integer_number_succ; lia.
Qed.

(** [<] on the numbers of small integers is [<] on the integers. *)
Lemma integer_number_lt (a b : Z) :
  0 < a -> a < b -> b < 2 ^ prec ->
  SFltb (integer_number false a) (integer_number false b) = true.
Proof.
  intros Ha Hab Hb.
  pose proof (Zdigits2_range a ltac:(lia)) as Hda.
  pose proof (Zdigits2_range b ltac:(lia)) as Hdb.
  pose proof (Zdigits2_mono a b ltac:(lia)) as Hmono.
  unfold SFltb, integer_number. cbv zeta. cbn [SFcompare].
  destruct (Z.compare_spec (Zdigits2 a - prec) (Zdigits2 b - prec)) as [Heq | Hlt | Hgt].
  - assert (Hd : Zdigits2 a = Zdigits2 b) by lia. rewrite Hd.
    assert (Hp : 0 < 2 ^ (prec - Zdigits2 b)) by (apply Z.pow_pos_nonneg; lia).
    change (Pos.compare_cont Eq ?x ?y) with (Pos.compare x y).
    replace (_ ?= _)%positive with Lt; [reflexivity | ].
    symmetry. apply Pos.compare_lt_iff.
    assert (Hlt : a * 2 ^ (prec - Zdigits2 b) < b * 2 ^ (prec - Zdigits2 b))
      by (apply Z.mul_lt_mono_pos_r; lia).
    assert (Hpa : 0 < a * 2 ^ (prec - Zdigits2 b)) by (apply Z.mul_pos_pos; lia).
    rewrite <- (Z2Pos.id _ Hpa) in Hlt.
    rewrite <- (Z2Pos.id (b * _)) in Hlt by lia.
    exact Hlt.
  - reflexivity.
  - lia.
Qed.

Lemma BigInt_of_integer_number {RT : Runtime} (s : bool) (k : Z) :
  0 < k < 2 ^ prec ->
  BigInt_of_number (integer_number s k) = inr (cond_Zopp s k).
Proof.
  intros Hk. pose proof (Zdigits2_range k Hk) as Hd.
  assert (Hp : 0 < 2 ^ (prec - Zdigits2 k)) by (apply Z.pow_pos_nonneg; lia).
  unfold integer_number, BigInt_of_number. cbv zeta.
  rewrite Z2Pos.id by (apply Z.mul_pos_pos; lia).
  replace (- (Zdigits2 k - prec)) with (prec - Zdigits2 k) by lia.
  rewrite Z.mod_mul by lia.
  assert (Hshift : Z.shiftl (k * 2 ^ (prec - Zdigits2 k)) (Zdigits2 k - prec) = k).
  { rewrite Z.shiftl_div_pow2 by lia.
    replace (- (Zdigits2 k - prec)) with (prec - Zdigits2 k) by lia.
    apply Z.div_mul. lia. }
  rewrite Hshift. destruct (0 <=? Zdigits2 k - prec); reflexivity.
Qed.

(** An integer [maxAttempts] (or total) below [2^53] lets a counting loop
    run exactly that many rounds; a negative one lets it run no round at
    all. *)
Lemma attempts_of_bigint (z : Z) :
  z < 2 ^ prec -> attempts_of (Number_of_bigint z) (Z.to_nat z).
Proof.
  intros Hz. destruct z as [ | p | p].
  - split; [intros k Hk; cbn in Hk; lia | reflexivity].
  - rewrite Number_of_bigint_small by lia. split.
    + intros k Hk. destruct k as [ | k]; [reflexivity | ].
      rewrite counter_small by lia. apply integer_number_lt; lia.
    + rewrite counter_small by lia. rewrite Z2Nat.id by lia. apply SFltb_irrefl.
  - split; [intros k Hk; cbn in Hk; lia | ].
    cbn [Z.to_nat counter]. unfold Number_of_bigint, binary_normalize, binary_round.
    destruct (shl_align p 0 _) as [mz ez]. unfold binary_round_aux.
    destruct (shr_fexp prec emax (Zpos mz) ez loc_Exact) as [mrs e'].
    destruct (shr_fexp prec emax _ e' loc_Exact) as [mrs2 e2].
    destruct (shr_m mrs2); [reflexivity | | reflexivity].
    destruct (e2 <=? emax - prec); reflexivity.
Qed.

(** In [loadDonations] the counter moreover converts back to the id it
    stands for. *)
Lemma bigint_total_counts {RT : Runtime} (z : Z) :
  z < 2 ^ prec -> counts_to (Number (JBigInt z)) (Z.to_nat z).
Proof.
  intros Hz. cbn [Number].
  destruct (attempts_of_bigint z Hz) as [Hin Hout].
  split; [ | exact Hout].
  intros k Hk. split; [apply Hin; exact Hk | ].
  destruct k as [ | k]; [reflexivity | ].
  rewrite counter_small by lia.
  apply (BigInt_of_integer_number false). lia.
Qed.

(** From [2^53] on the counter no longer moves: [2^53 + 1] is [2^53]. *)
Lemma counter_saturates (k : nat) :
  2 ^ prec - 1 <= Z.of_nat k ->
  counter (S k) = S754_finite false 4503599627370496 1.
Proof.
  induction k as [ | k IH]; intros Hk.
  - change (2 ^ prec) with 9007199254740992 in Hk. lia.
  - destruct (Z.eq_dec (Z.of_nat (S k)) (2 ^ prec - 1)) as [Heq | Hne].
    + change (counter (S (S k)))
        with (SFadd prec emax (counter (S k)) (Number_of_bigint 1)).
      rewrite counter_small by (change (2 ^ prec) with 9007199254740992 in *; lia).
      rewrite Heq. vm_compute. reflexivity.
    + change (counter (S (S k)))
        with (SFadd prec emax (counter (S k)) (Number_of_bigint 1)).
      rewrite IH by lia. vm_compute. reflexivity.
Qed.

(** The counter never reaches [Infinity]. *)
Lemma counter_below_infinity (k : nat) :
  SFltb (counter k) (S754_infinity false) = true.
Proof.
  destruct k as [ | k]; [reflexivity | ].
  destruct (Z_lt_le_dec (Z.of_nat (S k)) (2 ^ prec)) as [Hlt | Hge].
  - rewrite counter_small by lia. reflexivity.
  - rewrite counter_saturates by lia. reflexivity.
Qed.

(** The delay a timer makes of a small integer is that integer. *)
Lemma setTimeout_delay_bigint (z : Z) :
  0 <= z < 2 ^ 31 -> setTimeout_delay (Number_of_bigint z) = z.
Proof.
  intros Hz. destruct (Z.eq_dec z 0) as [-> | Hnz]; [reflexivity | ].
  assert (Hk : 0 < z < 2 ^ prec)
    by (change (2 ^ prec) with 9007199254740992; change (2 ^ 31) with 2147483648 in Hz; lia).
  pose proof (Zdigits2_range z Hk) as Hd.
  assert (Hp : 0 < 2 ^ (prec - Zdigits2 z)) by (apply Z.pow_pos_nonneg; lia).
  rewrite Number_of_bigint_small by exact Hk.
  unfold integer_number, setTimeout_delay. cbv zeta.
  rewrite Z2Pos.id by (apply Z.mul_pos_pos; lia).
  assert (Hshift : Z.shiftl (z * 2 ^ (prec - Zdigits2 z)) (Zdigits2 z - prec) = z).
  { rewrite Z.shiftl_div_pow2 by lia.
    replace (- (Zdigits2 z - prec)) with (prec - Zdigits2 z) by lia.
    apply Z.div_mul. lia. }
  rewrite Hshift. cbn [cond_Zopp].
  change (2 ^ 32) with 4294967296. change (2 ^ 31) with 2147483648 in *.
  rewrite Z.mod_small by lia.
  replace (z <? 2147483648) with true by (symmetry; apply Z.ltb_lt; lia).
  lia.
Qed.

Lemma shr_record_of_loc_m (m : Z) (l : location) : shr_m (shr_record_of_loc m l) = m.
Proof. destruct l as [ | [ | | ]]; reflexivity. Qed.

(** What is left after the shift of a rounding step fits the 53 digits. *)
Lemma shr_fexp_m (m e : Z) (l : location) :
  0 <= m ->
  0 <= shr_m (fst (shr_fexp prec emax m e l))
  /\ shr_m (fst (shr_fexp prec emax m e l)) < 2 ^ prec.
Proof.
  intros Hm. unfold shr_fexp, shr.
  assert (Hdig : 0 <= Zdigits2 m) by (destruct m; cbn; lia).
  assert (Hlt : m < 2 ^ Zdigits2 m).
  { destruct m as [ | p | p]; [cbn; lia | | lia]. apply digits2_pos_bounds. }
  destruct (fexp prec emax (Zdigits2 m + e) - e) as [ | q | q] eqn:Hq;
    cbn [fst]; rewrite ?shr_record_of_loc_m.
  - split; [exact Hm | ].
    assert (2 ^ Zdigits2 m <= 2 ^ prec)
      by (apply Z.pow_le_mono_r; unfold fexp, emin, prec, emax in *; lia).
    lia.
  - rewrite iter_pos_nat, shr_iter_m by (rewrite shr_record_of_loc_m; exact Hm).
    rewrite shr_record_of_loc_m, positive_nat_Z.
    assert (Hpq : 0 < 2 ^ Zpos q) by (apply Z.pow_pos_nonneg; lia).
    split; [apply Z.div_pos; lia | ].
    apply Z.div_lt_upper_bound; [lia | ].
    destruct (Z_le_gt_dec (Zpos q) (Zdigits2 m)) as [Hle | Hgt].
    + assert (2 ^ Zdigits2 m <= 2 ^ (Zpos q + prec))
        by (apply Z.pow_le_mono_r; unfold fexp, emin, prec, emax in *; lia).
      rewrite Z.pow_add_r in * by (unfold prec; lia). lia.
    + assert (2 ^ Zdigits2 m <= 2 ^ Zpos q) by (apply Z.pow_le_mono_r; lia).
      assert (0 < 2 ^ prec) by (apply Z.pow_pos_nonneg; unfold prec; lia).
      nia.
  - split; [exact Hm | ].
    assert (2 ^ Zdigits2 m <= 2 ^ prec)
      by (apply Z.pow_le_mono_r; unfold fexp, emin, prec, emax in *; lia).
    lia.
Qed.

Lemma round_nearest_even_nonneg (m : Z) (l : location) :
  0 <= m -> 0 <= round_nearest_even m l.
Proof. intros Hm. destruct l as [ | [ | | ]]; cbn; try lia. destruct (Z.even m); lia. Qed.

Lemma binary_round_aux_short (s : bool) (m e : Z) (l : location) :
  0 <= m -> short_mantissa (binary_round_aux prec emax s m e l).
Proof.
  intros Hm. unfold binary_round_aux.
  pose proof (shr_fexp_m m e l Hm) as [H1 _].
  destruct (shr_fexp prec emax m e l) as [mrs1 e1]. cbn [fst] in H1.
  pose proof (shr_fexp_m _ e1 loc_Exact
                (round_nearest_even_nonneg _ (loc_of_shr_record mrs1) H1)) as [_ H2].
  destruct (shr_fexp prec emax _ e1 loc_Exact) as [mrs2 e2]. cbn [fst] in H2.
  destruct (shr_m mrs2) as [ | p | p]; [exact I | | exact I].
  destruct (e2 <=? emax - prec); [exact H2 | exact I].
Qed.

(** A product always has a short mantissa, whatever its factors. *)
Lemma SFmul_short (x y : number) : short_mantissa (SFmul prec emax x y).
Proof.
  destruct x as [sx | sx | | sx mx ex], y as [sy | sy | | sy my ey]; cbn [SFmul]; try exact I.
  apply binary_round_aux_short. lia.
Qed.

(** [BigInt(Math.floor(x))] for a number with a short mantissa: the
    integer part towards minus infinity; only NaN and the infinities make
    it throw. *)
Lemma BigInt_of_floor {RT : Runtime} (x : number) :
  short_mantissa x ->
  BigInt_of_number (Math_floor x) =
  match x with
  | S754_zero _ => inr 0
  | S754_finite s m e =>
      inr (if 0 <=? e then cond_Zopp s (Zpos m) * 2 ^ e
           else cond_Zopp s (Zpos m) / 2 ^ (- e))
  | _ => inl (new_RangeError (engine_message (NotAnInteger x)))
  end.
Proof.
  intros Hshort. destruct x as [s | s | | s m e]; try reflexivity.
  cbn [short_mantissa] in Hshort. unfold Math_floor.
  destruct (0 <=? e) eqn:He.
  - apply Z.leb_le in He. unfold BigInt_of_number.
    replace (0 <=? e) with true by (symmetry; apply Z.leb_le; exact He).
    rewrite Z.shiftl_mul_pow2 by exact He. destruct s; cbn [cond_Zopp]; f_equal; lia.
  - apply Z.leb_gt in He.
    assert (Hpow : 2 <= 2 ^ (- e)).
    { change 2 with (2 ^ 1) at 1. apply Z.pow_le_mono_r; lia. }
    assert (H53 : 0 < 2 ^ prec) by (apply Z.pow_pos_nonneg; unfold prec; lia).
    rewrite Z.shiftl_div_pow2 by lia.
    set (z := cond_Zopp s (Zpos m) / 2 ^ (- e)).
    assert (Hz : - 2 ^ prec < z < 2 ^ prec).
    { unfold z. destruct s; cbn [cond_Zopp]; split.
      - assert (- 2 ^ prec + 1 <= - Zpos m / 2 ^ (- e))
          by (apply Z.div_le_lower_bound; [lia | nia]).
        lia.
      - apply Z.div_lt_upper_bound; [lia | nia].
      - assert (0 <= Zpos m / 2 ^ (- e)) by (apply Z.div_pos; lia). lia.
      - apply Z.div_lt_upper_bound; [lia | nia]. }
    destruct z as [ | p | p] eqn:Hzp.
    + reflexivity.
    + unfold binary_normalize.
      assert (Hp : 0 < Zpos p < 2 ^ prec) by lia.
      pose proof (round_integer false p (Zpos p) 0 Hp (Z.le_refl 0)
                    ltac:(rewrite Z.pow_0_r; lia)) as Hround.
      cbn [Z.opp] in Hround. rewrite Hround.
      exact (BigInt_of_integer_number false (Zpos p) Hp).
    + unfold binary_normalize.
      assert (Hp : 0 < Zpos p < 2 ^ prec) by lia.
      pose proof (round_integer true p (Zpos p) 0 Hp (Z.le_refl 0)
                    ltac:(rewrite Z.pow_0_r; lia)) as Hround.
      cbn [Z.opp] in Hround. rewrite Hround.
      exact (BigInt_of_integer_number true (Zpos p) Hp).
Qed.
End SmallIntegers.

(* ================================================================== *)
(** * waitForBatchConfirmation                                        *)
(* ================================================================== *)

Section Polling.
Context {RT : Runtime} {U : Type}.
Variables (request : RequestFn) (batchId : JsVal) (maxAttempts intervalMs : number).

Let poll := poll_request batchId.
Let ms := setTimeout_delay intervalMs.
Let waiting (fuel k : nat) :=
  @waitForBatchConfirmation_from RT U fuel (ProviderObj request) batchId
    maxAttempts intervalMs (counter k).

Lemma getCallsStatus_run (w : World U) :
  @getCallsStatus RT U (ProviderObj request) batchId w =
  (match request (log w) poll with Resolve v => Ok v | Reject e => Throw e end,
   mkWorld (log w ++ [EvRequest poll]) (ui w)).
Proof.
  unfold getCallsStatus, provider_request, bind, emit, poll, poll_request. cbn.
  destruct (request _ _); reflexivity.
Qed.

(** One round whose poll asks to go on: the poll and the timer are
    recorded and the loop continues with the counter one higher. *)
Lemma wait_step_pending (fuel k : nat) (w : World U) :
  SFltb (counter k) maxAttempts = true ->
  keeps_polling (request (log w) poll) = true ->
  waiting (S fuel) k w =
  waiting fuel (S k) (mkWorld (log w ++ [EvRequest poll; EvSleep ms]) (ui w)).
Proof.
  unfold keeps_polling, waiting. intros Hlt H.
  cbn [waitForBatchConfirmation_from]. rewrite Hlt.
  unfold bind at 1. rewrite getCallsStatus_run.
  destruct (request (log w) poll) as [v | e]; [ | discriminate].
  unfold bind at 1.
  destruct (get_prop v "status") as [e | s] eqn:Es; [discriminate | ].
  apply andb_prop in H. destruct H as [Hc Hf].
  apply negb_true_iff in Hc. apply negb_true_iff in Hf.
  cbn [lift ret]. rewrite Hc. cbn [lift ret]. unfold bind at 1.
  cbn [lift ret]. rewrite Hf. unfold bind at 1, sleep, emit. cbn [log ui].
  rewrite <- app_assoc. reflexivity.
Qed.

Lemma wait_step_confirmed (fuel k : nat) (w : World U) (status : JsVal) :
  SFltb (counter k) maxAttempts = true ->
  request (log w) poll = Resolve status ->
  get_prop status "status" = inr (JStr "CONFIRMED") ->
  waiting (S fuel) k w = (Ok status, mkWorld (log w ++ [EvRequest poll]) (ui w)).
Proof.
  unfold waiting. intros Hlt Hr Hs. cbn [waitForBatchConfirmation_from]. rewrite Hlt.
  unfold bind at 1. rewrite getCallsStatus_run, Hr.
  unfold bind at 1. rewrite Hs. reflexivity.
Qed.

Lemma wait_step_failed (fuel k : nat) (w : World U) (status err : JsVal) :
  SFltb (counter k) maxAttempts = true ->
  request (log w) poll = Resolve status ->
  get_prop status "status" = inr (JStr "FAILED") ->
  get_prop status "error" = inr err ->
  waiting (S fuel) k w =
  (Throw (new_Error ("Batch failed: " ++ ToString err)),
   mkWorld (log w ++ [EvRequest poll]) (ui w)).
Proof.
  unfold waiting. intros Hlt Hr Hs He. cbn [waitForBatchConfirmation_from]. rewrite Hlt.
  unfold bind at 1. rewrite getCallsStatus_run, Hr.
  unfold bind at 1. rewrite Hs. cbn [lift ret].
  change (strict_eq_str (JStr "FAILED") "CONFIRMED") with false.
  change (strict_eq_str (JStr "FAILED") "FAILED") with true.
  cbv iota. unfold bind at 1. cbn [lift ret].
  unfold bind at 1. rewrite He. reflexivity.
Qed.

(** A round whose poll rejects, or whose answer has no readable status. *)
Lemma wait_step_aborted (fuel k : nat) (w : World U) (e : Exn) :
  SFltb (counter k) maxAttempts = true ->
  request (log w) poll = Reject e \/
  (exists answer,
      request (log w) poll = Resolve answer /\ get_prop answer "status" = inl e) ->
  waiting (S fuel) k w = (Throw e, mkWorld (log w ++ [EvRequest poll]) (ui w)).
Proof.
  unfold waiting. intros Hlt H. cbn [waitForBatchConfirmation_from]. rewrite Hlt.
  unfold bind at 1. rewrite getCallsStatus_run.
  destruct H as [Hr | (answer & Hr & Hs)]; rewrite Hr.
  - reflexivity.
  - unfold bind at 1. rewrite Hs. reflexivity.
Qed.

(** The counter has reached [maxAttempts]: the loop is left, whatever fuel
    remains. *)
Lemma wait_step_timeout (fuel k : nat) (w : World U) :
  SFltb (counter k) maxAttempts = false ->
  waiting fuel k w = (Throw (new_Error "Batch confirmation timeout"), w).
Proof.
  unfold waiting. intros Hlt.
  destruct fuel; cbn [waitForBatchConfirmation_from]; rewrite Hlt; reflexivity.
Qed.

(** [j] rounds in a row whose polls all ask to go on. *)
Lemma wait_pending_prefix (j fuel : nat) :
  forall (k : nat) (w : World U),
  (forall i, (i < j)%nat -> SFltb (counter (k + i)) maxAttempts = true) ->
  (forall i, (i < j)%nat ->
     keeps_polling (request (pending_log batchId ms i (log w)) poll) = true) ->
  waiting (j + fuel)%nat k w =
  waiting fuel (k + j)%nat (mkWorld (pending_log batchId ms j (log w)) (ui w)).
Proof.
  induction j as [ | j IH]; intros k w Hlt H.
  - rewrite Nat.add_0_r. destruct w; reflexivity.
  - change (S j + fuel)%nat with (S (j + fuel)).
    rewrite wait_step_pending;
      [ | rewrite <- (Nat.add_0_r k); apply Hlt; lia | apply (H 0%nat); lia].
    rewrite IH.
    + replace (S k + j)%nat with (k + S j)%nat by lia. reflexivity.
    + intros i Hi. replace (S k + i)%nat with (k + S i)%nat by lia. apply Hlt. lia.
    + intros i Hi. apply (H (S i)). lia.
Qed.
End Polling.

Section PollingClaims.
Context {RT : Runtime} {U : Type}.

(** C1.  Let [maxAttempts] allow [n] rounds, and let the first [k] polls
    of a working provider report a status other than CONFIRMED and FAILED
    (each is then followed by one wait).  If poll [k] is within the
    attempts and reports CONFIRMED, the helper returns that very status
    object; if it reports FAILED, the helper throws [Batch failed: <the
    reported error>]; and if [k] is the number of attempts, the helper
    throws [Batch confirmation timeout].  In each case the history shows
    what was polled before.  The default allows 60 rounds, and an integer
    [maxAttempts] below [2^53] allows that many. *)
Theorem waitForBatchConfirmation_outcomes
    (request : RequestFn) (batchId : JsVal) (maxAttempts intervalMs : option number)
    (w : World U) (n k fuel : nat) :
  let ms := intervalMs_or_default intervalMs in
  let poll := poll_request batchId in
  let history j := pending_log batchId ms j (log w) in
  let run :=
    waitForBatchConfirmation fuel (ProviderObj request) batchId
      maxAttempts intervalMs w in
  attempts_of (maxAttempts_or_default maxAttempts) n ->
  (forall j, (j < k)%nat -> keeps_polling (request (history j) poll) = true) ->
  (forall status,
      (k < n)%nat -> (k < fuel)%nat ->
      request (history k) poll = Resolve status ->
      get_prop status "status" = inr (JStr "CONFIRMED") ->
      run = (Ok status, mkWorld (history k ++ [EvRequest poll]) (ui w)))
  /\ (forall status err,
      (k < n)%nat -> (k < fuel)%nat ->
      request (history k) poll = Resolve status ->
      get_prop status "status" = inr (JStr "FAILED") ->
      get_prop status "error" = inr err ->
      run = (Throw (new_Error ("Batch failed: " ++ ToString err)),
             mkWorld (history k ++ [EvRequest poll]) (ui w)))
  /\ (k = n -> (n <= fuel)%nat ->
      run = (Throw (new_Error "Batch confirmation timeout"),
             mkWorld (history n) (ui w)))
  /\ attempts_of (maxAttempts_or_default None) 60
  /\ (forall z, z < 2 ^ 53 ->
      attempts_of (maxAttempts_or_default (Some (Number_of_bigint z))) (Z.to_nat z)).
Proof.
  intros ms poll history run [Hin Hout] Hpending.
  unfold run, waitForBatchConfirmation.
  fold (maxAttempts_or_default maxAttempts).
  change (S754_zero false) with (counter 0).
  split; [ | split; [ | split; [ | split]]].
  - intros status Hk Hfuel Hr Hs.
    replace fuel with (k + S (fuel - k - 1))%nat by lia.
    rewrite wait_pending_prefix by (try exact Hpending; intros i Hi; apply Hin; lia).
    apply wait_step_confirmed with (w := mkWorld (history k) (ui w));
      [apply Hin; lia | exact Hr | exact Hs].
  - intros status err Hk Hfuel Hr Hs He.
    replace fuel with (k + S (fuel - k - 1))%nat by lia.
    rewrite wait_pending_prefix by (try exact Hpending; intros i Hi; apply Hin; lia).
    apply wait_step_failed
      with (w := mkWorld (history k) (ui w)) (status := status);
      [apply Hin; lia | exact Hr | exact Hs | exact He].
  - intros Hk Hfuel. subst k.
    replace fuel with (n + (fuel - n))%nat by lia.
    rewrite wait_pending_prefix by (try exact Hpending; intros i Hi; apply Hin; lia).
    apply wait_step_timeout. exact Hout.
  - exact (attempts_of_bigint 60 eq_refl).
  - intros z Hz. exact (attempts_of_bigint z Hz).
Qed.

(** The loop never polls more often than it has rounds, waits after every
    poll but a final one, and comes to an end when its fuel covers the
    rounds. *)
Lemma wait_from_shape (provider : Provider) (batchId : JsVal)
    (maxAttempts intervalMs : number) (n : nat) :
  forall (k0 fuel : nat) (w : World U),
  (forall i, (i < n)%nat -> SFltb (counter (k0 + i)) maxAttempts = true) ->
  SFltb (counter (k0 + n)) maxAttempts = false ->
  let run :=
    waitForBatchConfirmation_from fuel provider batchId maxAttempts intervalMs
      (counter k0) w in
  (exists (k : nat) (last : bool),
      (k + (if last then 1 else 0) <= n)%nat /\
      snd run =
      mkWorld (pending_log batchId (setTimeout_delay intervalMs) k (log w) ++
               (if last then [EvRequest (poll_request batchId)] else []))
              (ui w))
  /\ ((n <= fuel)%nat -> completes (fst run)).
Proof.
  induction n as [ | n IH]; intros k0 fuel w Hin Hout run; unfold run.
  - rewrite Nat.add_0_r in Hout.
    destruct fuel; cbn [waitForBatchConfirmation_from]; rewrite Hout;
      (split; [ | intros _; exact I]); exists 0%nat, false; (split; [lia | ]);
      cbn; rewrite app_nil_r; destruct w; reflexivity.
  - assert (Hlt : SFltb (counter k0) maxAttempts = true)
      by (rewrite <- (Nat.add_0_r k0); apply Hin; lia).
    destruct fuel as [ | fuel].
    { cbn [waitForBatchConfirmation_from]. rewrite Hlt.
      split; [ | intros Hle; lia]. exists 0%nat, false. split; [lia | ].
      cbn. rewrite app_nil_r. destruct w; reflexivity. }
    destruct provider as [ | | request].
    + cbn [waitForBatchConfirmation_from]. rewrite Hlt.
      split; [ | intros _; exact I]. exists 0%nat, false. split; [lia | ].
      cbn. rewrite app_nil_r. destruct w; reflexivity.
    + cbn [waitForBatchConfirmation_from]. rewrite Hlt.
      split; [ | intros _; exact I]. exists 0%nat, false. split; [lia | ].
      cbn. rewrite app_nil_r. destruct w; reflexivity.
    + destruct (keeps_polling (request (log w) (poll_request batchId))) eqn:Hp.
      * rewrite wait_step_pending by assumption.
        destruct (IH (S k0) fuel
                    (mkWorld (log w ++ [EvRequest (poll_request batchId);
                                        EvSleep (setTimeout_delay intervalMs)])
                             (ui w))) as [(k & last & Hle & Hw) Hc].
        { intros i Hi. replace (S k0 + i)%nat with (k0 + S i)%nat by lia.
          apply Hin. lia. }
        { replace (S k0 + n)%nat with (k0 + S n)%nat by lia. exact Hout. }
        split; [ | intros Hfuel; apply Hc; lia].
        exists (S k), last. split; [lia | ]. rewrite Hw. reflexivity.
      * assert (Hstop : exists r,
          waitForBatchConfirmation_from (S fuel) (ProviderObj request) batchId
            maxAttempts intervalMs (counter k0) w
          = (r, mkWorld (log w ++ [EvRequest (poll_request batchId)]) (ui w))
          /\ completes r).
        { unfold keeps_polling in Hp.
          cbn [waitForBatchConfirmation_from]. rewrite Hlt.
          unfold bind at 1. rewrite getCallsStatus_run.
          destruct (request (log w) (poll_request batchId)) as [v | e];
            [ | eexists; split; [reflexivity | exact I]].
          unfold bind at 1.
          destruct (get_prop v "status") as [e | s] eqn:Es;
            [eexists; split; [reflexivity | exact I] | ].
          cbn [lift ret].
          destruct (strict_eq_str s "CONFIRMED") eqn:Hc;
            [eexists; split; [reflexivity | exact I] | ].
          unfold bind at 1. cbn [lift ret].
          destruct (strict_eq_str s "FAILED") eqn:Hf; [ | discriminate Hp].
          unfold bind at 1.
          destruct (get_prop v "error"); eexists; split; (reflexivity || exact I). }
        destruct Hstop as (r & Hrun & Hc). rewrite Hrun.
        split; [ | intros _; exact Hc].
        exists 0%nat, true. split; [lia | reflexivity].
Qed.

(** With [maxAttempts = Infinity] and polls that never report a final
    status, no amount of fuel lets the helper come to an end. *)
Lemma wait_from_endless (request : RequestFn) (batchId : JsVal) (intervalMs : number) :
  (forall history, keeps_polling (request history (poll_request batchId)) = true) ->
  forall (fuel k : nat) (w : World U),
    fst (waitForBatchConfirmation_from fuel (ProviderObj request) batchId
           (S754_infinity false) intervalMs (counter k) w) = OutOfFuel.
Proof.
  intros Hp. induction fuel as [ | fuel IH]; intros k w.
  - cbn [waitForBatchConfirmation_from]. rewrite counter_below_infinity. reflexivity.
  - rewrite wait_step_pending by (apply counter_below_infinity || apply Hp).
    apply IH.
Qed.

(** C2 (amended).  Let [maxAttempts] allow [n] rounds, as the default
    allows 60 and an integer below [2^53] allows that many.  Then for every
    provider the helper issues at most [n] status queries, one wait of
    [intervalMs] (2000 by default, and [z] for an integer [z] below [2^31])
    follows every query but a final one, and the call returns or throws
    once it has fuel for [n] rounds; with zero attempts it throws the
    timeout error at once.  Leaving out [maxAttempts] is passing 60, and
    leaving out [intervalMs] is passing 2000.  With [maxAttempts =
    Infinity] and polls that never report a final status the call does not
    end. *)
Theorem waitForBatchConfirmation_bounded
    (provider : Provider) (batchId : JsVal) (maxAttempts intervalMs : option number)
    (w : World U) (n fuel : nat) :
  let ms := intervalMs_or_default intervalMs in
  let run := waitForBatchConfirmation fuel provider batchId maxAttempts intervalMs w in
  attempts_of (maxAttempts_or_default maxAttempts) n ->
  (exists (k : nat) (last : bool),
      (k + (if last then 1 else 0) <= n)%nat /\
      snd run =
      mkWorld (pending_log batchId ms k (log w) ++
               (if last then [EvRequest (poll_request batchId)] else []))
              (ui w))
  /\ ((n <= fuel)%nat -> completes (fst run))
  /\ waitForBatchConfirmation fuel provider batchId None intervalMs w
     = waitForBatchConfirmation fuel provider batchId
         (Some (Number_of_bigint 60)) intervalMs w
  /\ waitForBatchConfirmation fuel provider batchId maxAttempts None w
     = waitForBatchConfirmation fuel provider batchId
         maxAttempts (Some (Number_of_bigint 2000)) w
  /\ attempts_of (maxAttempts_or_default None) 60
  /\ intervalMs_or_default None = 2000
  /\ (forall z, z < 2 ^ 53 ->
      attempts_of (maxAttempts_or_default (Some (Number_of_bigint z))) (Z.to_nat z))
  /\ (forall z, 0 <= z < 2 ^ 31 ->
      intervalMs_or_default (Some (Number_of_bigint z)) = z)
  /\ waitForBatchConfirmation fuel provider batchId (Some (Number_of_bigint 0))
       intervalMs w
     = (Throw (new_Error "Batch confirmation timeout"), w)
  /\ (forall request,
      (forall history, keeps_polling (request history (poll_request batchId)) = true) ->
      fst (waitForBatchConfirmation fuel (ProviderObj request) batchId
             (Some (S754_infinity false)) intervalMs w) = OutOfFuel).
Proof.
  intros ms run [Hin Hout].
  destruct (wait_from_shape provider batchId (maxAttempts_or_default maxAttempts)
              (match intervalMs with Some x => x | None => Number_of_bigint 2000 end)
              n 0 fuel w Hin Hout) as [Hshape Hc].
  split; [exact Hshape | ].
  split; [exact Hc | ].
  split; [reflexivity | ].
  split; [reflexivity | ].
  split; [exact (attempts_of_bigint 60 eq_refl) | ].
  split; [reflexivity | ].
  split; [intros z Hz; exact (attempts_of_bigint z Hz) | ].
  split; [intros z Hz; exact (setTimeout_delay_bigint z Hz) | ].
  split.
  - unfold waitForBatchConfirmation. destruct fuel; reflexivity.
  - intros request Hp. unfold waitForBatchConfirmation.
    exact (wait_from_endless request batchId _ Hp fuel 0 w).
Qed.
End PollingClaims.

(** C2 (as stated) fails: with [maxAttempts = 2.5] and polls that stay
    PENDING the helper issues three queries, more than [maxAttempts]. *)
Lemma waitForBatchConfirmation_not_bounded :
  ~ @bounded_polling Sample.runtime unit.
Proof.
  intros H.
  destruct (H (ProviderObj Sample.stuck_wallet) (JStr "0xb1")
              (Some Sample.two_and_a_half) None (Sample.empty_world tt))
    as (fuel & evs & Hc & Hlog & Hle).
  cbv zeta in Hc, Hlog.
  assert (Hin : forall i, (i < 3)%nat ->
            SFltb (counter (0 + i)) Sample.two_and_a_half = true).
  { intros i Hi. destruct i as [ | [ | [ | i]]]; [reflexivity .. | lia]. }
  assert (Hout : SFltb (counter 3) Sample.two_and_a_half = false) by reflexivity.
  destruct fuel as [ | [ | [ | fuel]]].
  - vm_compute in Hc. exact Hc.
  - vm_compute in Hc. exact Hc.
  - vm_compute in Hc. exact Hc.
  - unfold waitForBatchConfirmation in Hlog.
    change (S754_zero false) with (counter 0) in Hlog.
    change (S (S (S fuel))) with (3 + fuel)%nat in Hlog.
    rewrite wait_pending_prefix in Hlog by (try exact Hin; intros; reflexivity).
    rewrite wait_step_timeout in Hlog by exact Hout.
    cbn [snd log Sample.empty_world pending_log app] in Hlog.
    subst evs. vm_compute in Hle. discriminate Hle.
Qed.

(* ================================================================== *)
(** * The helper and the loops written out in App.tsx                 *)
(* ================================================================== *)

Section InlineLoops.
Context {RT : Runtime} {VM : Viem} {CFG : Config}.

(** Round by round, the helper (with a wait of 2000 ms) and the inline
    loop see the same answers, record the same history and end the same
    way; only what they make of the ending differs. *)
Lemma loops_agree (provider : Provider) (batchId : JsVal)
    (maxAttempts intervalMs : number) (n : nat) :
  setTimeout_delay intervalMs = 2000 ->
  forall (k0 fuel : nat) (w : World App.State),
  (forall i, (i < n)%nat -> SFltb (counter (k0 + i)) maxAttempts = true) ->
  SFltb (counter (k0 + n)) maxAttempts = false ->
  (n <= fuel)%nat ->
  exists (e : PollEnd) (w' : World App.State),
    waitForBatchConfirmation_from fuel provider batchId maxAttempts intervalMs
      (counter k0) w = (helper_completion e, w')
    /\ App.confirmation_loop provider batchId n w = (loop_completion e, w').
Proof.
  intros Hms. induction n as [ | n IH]; intros k0 fuel w Hin Hout Hfuel.
  - rewrite Nat.add_0_r in Hout. exists TimedOut, w.
    split; [ | reflexivity].
    destruct fuel; cbn [waitForBatchConfirmation_from]; rewrite Hout; reflexivity.
  - assert (Hlt : SFltb (counter k0) maxAttempts = true)
      by (rewrite <- (Nat.add_0_r k0); apply Hin; lia).
    destruct fuel as [ | fuel]; [lia | ].
    cbn [waitForBatchConfirmation_from App.confirmation_loop]. rewrite Hlt, Hms.
    destruct provider as [ | | request].
    + eexists (Aborted _), w. split; reflexivity.
    + eexists (Aborted _), w. split; reflexivity.
    + unfold getCallsStatus, bind, provider_request, sleep, emit.
      cbn -[get_prop strict_eq_str ToString String.append
            waitForBatchConfirmation_from App.confirmation_loop SFadd
            Number_of_bigint].
      destruct (request (log w) _) as [v | e]; cbn [await ret throw].
      2: { eexists (Aborted e), _. split; reflexivity. }
      destruct (get_prop v "status") as [e | s]; cbn [lift ret throw].
      { eexists (Aborted e), _. split; reflexivity. }
      destruct (strict_eq_str s "CONFIRMED").
      { eexists (Confirmed v), _. split; reflexivity. }
      destruct (strict_eq_str s "FAILED").
      { destruct (get_prop v "error") as [e | err]; cbn [lift ret throw].
        - eexists (Aborted e), _. split; reflexivity.
        - eexists (Failed err), _. split; reflexivity. }
      apply (IH (S k0) fuel).
      * intros i Hi. replace (S k0 + i)%nat with (k0 + S i)%nat by lia.
        apply Hin. lia.
      * replace (S k0 + n)%nat with (k0 + S n)%nat by lia. exact Hout.
      * lia.
Qed.


End InlineLoops.


(* ================================================================== *)
(** * Which requests the flow issues                                  *)
(* ================================================================== *)

Section IssuedRequests.
Context {RT : Runtime} {VM : Viem}.
Variable P : Event -> Prop.
Hypothesis P_poll : forall batchId, P (EvRequest (poll_request batchId)).
Hypothesis P_sleep : forall ms, P (EvSleep ms).
Hypothesis P_console : forall text, P (EvConsoleLog text).
Hypothesis P_state : forall name v, P (EvSetState name v).

Lemma appends_getCallsStatus {U} provider batchId :
  appends P (@getCallsStatus RT U provider batchId).
Proof.
  unfold getCallsStatus. apply appends_bind; [ | intros; apply appends_ret].
  apply appends_provider_request. apply P_poll.
Qed.

Lemma appends_wait_from {U} fuel provider batchId maxAttempts intervalMs :
  forall attempt,
  appends P (@waitForBatchConfirmation_from RT U fuel provider batchId
               maxAttempts intervalMs attempt).
Proof.
  induction fuel as [ | fuel IH]; intros attempt;
    cbn [waitForBatchConfirmation_from];
    (apply appends_if; [ | apply appends_throw]).
  - apply appends_out_of_fuel.
  - apply appends_bind; [apply appends_getCallsStatus | intros status].
    apply appends_bind; [apply appends_lift | intros s].
    apply appends_if; [apply appends_ret | ].
    apply appends_bind; [apply appends_lift | intros s'].
    apply appends_if.
    + apply appends_bind; [apply appends_lift | intros; apply appends_throw].
    + apply appends_bind; [apply appends_emit, P_sleep | intros; apply IH].
Qed.

Lemma appends_waitForBatchConfirmation {U} fuel provider batchId maxAttempts intervalMs :
  appends P (@waitForBatchConfirmation RT U fuel provider batchId
               maxAttempts intervalMs).
Proof. apply appends_wait_from. Qed.

Lemma appends_sendTransaction {U} provider fromAddress contractAddress paymasterUrl :
  (forall r, sponsored_submission (JStr paymasterUrl) (JStr contractAddress) r ->
             P (EvRequest r)) ->
  appends P (@sendTransaction RT VM U provider fromAddress contractAddress paymasterUrl).
Proof.
  intros P_send. unfold sendTransaction.
  apply appends_bind; [apply appends_lift | intros data].
  apply appends_try_catch.
  - apply appends_bind; [destruct provider; auto with frames | intros _].
    apply appends_bind; [apply appends_if; auto with frames | intros _].
    cbv zeta.
    apply appends_bind; [ | intros; apply appends_ret].
    apply appends_provider_request. apply P_send.
    split; [reflexivity | ]. do 2 eexists. repeat split; reflexivity.
  - intros e. apply appends_bind; [apply appends_emit, P_console | intros _].
    apply appends_throw.
Qed.

Context {CFG : Config}.
Hypothesis P_submit :
  forall r, sponsored_submission VITE_PAYMASTER_SERVICE_URL (JStr CONTRACT_ADDRESS) r ->
            P (EvRequest r).

Lemma appends_setError s : appends P (App.setError s).
Proof.
  unfold App.setError. apply appends_bind; [apply appends_update_ui | intros _].
  apply appends_emit, P_state.
Qed.

Lemma appends_setIsLoading b : appends P (App.setIsLoading b).
Proof.
  unfold App.setIsLoading. apply appends_bind; [apply appends_update_ui | intros _].
  apply appends_emit, P_state.
Qed.

Lemma appends_setRefreshTrigger f : appends P (App.setRefreshTrigger f).
Proof.
  unfold App.setRefreshTrigger.
  apply appends_bind; [apply appends_update_ui | intros _].
  apply appends_bind; [apply appends_read_ui | intros n].
  apply appends_emit, P_state.
Qed.

Lemma appends_confirmation_loop provider batchId n :
  appends P (App.confirmation_loop provider batchId n).
Proof.
  induction n as [ | n IH]; cbn [App.confirmation_loop].
  - apply appends_ret.
  - apply appends_bind;
      [apply appends_provider_request, (P_poll batchId) | intros status].
    apply appends_bind; [apply appends_lift | intros s].
    apply appends_if; [apply appends_ret | ].
    apply appends_bind; [apply appends_lift | intros s'].
    apply appends_if.
    + apply appends_bind; [apply appends_lift | intros; apply appends_throw].
    + apply appends_bind; [apply appends_emit, P_sleep | intros; exact IH].
Qed.

Lemma appends_inline_confirmation provider batchId :
  appends P (App.inline_confirmation provider batchId).
Proof.
  unfold App.inline_confirmation.
  apply appends_bind; [apply appends_confirmation_loop | intros confirmed].
  apply appends_if; [apply appends_throw | apply appends_ret].
Qed.

Lemma appends_inline_submission provider account data :
  appends P (App.inline_submission provider account data).
Proof.
  unfold App.inline_submission. cbv zeta.
  apply appends_provider_request, P_submit.
  split; [reflexivity | ]. do 2 eexists. repeat split; reflexivity.
Qed.

Lemma appends_handleCreateDonation amountStr description :
  appends P (App.handleCreateDonation amountStr description).
Proof.
  unfold App.handleCreateDonation.
  apply appends_bind; [apply appends_read_ui | intros provider].
  apply appends_bind; [apply appends_read_ui | intros account].
  apply appends_if.
  { apply appends_bind; [apply appends_setError | intros; apply appends_ret]. }
  apply appends_bind; [apply appends_setError | intros _].
  apply appends_bind; [apply appends_setIsLoading | intros _].
  apply appends_try_finally; [ | apply appends_setIsLoading].
  apply appends_try_catch.
  - apply appends_bind; [apply appends_lift | intros amountInWei].
    apply appends_bind; [apply appends_lift | intros data].
    apply appends_bind; [apply appends_inline_submission | intros batchId].
    apply appends_bind; [apply appends_if; auto with frames | intros _].
    apply appends_bind; [apply appends_inline_confirmation | intros _].
    apply appends_setRefreshTrigger.
  - intros err. apply appends_bind; [apply appends_setError | intros _].
    apply appends_throw.
Qed.

Lemma appends_handleDonate id amountStr :
  appends P (App.handleDonate id amountStr).
Proof.
  unfold App.handleDonate.
  apply appends_bind; [apply appends_read_ui | intros provider].
  apply appends_bind; [apply appends_read_ui | intros account].
  apply appends_if.
  { apply appends_bind; [apply appends_setError | intros; apply appends_ret]. }
  apply appends_bind; [apply appends_setError | intros _].
  apply appends_bind; [apply appends_setIsLoading | intros _].
  apply appends_try_finally; [ | apply appends_setIsLoading].
  apply appends_try_catch.
  - apply appends_bind; [apply appends_lift | intros amountInWei].
    apply appends_bind; [apply appends_lift | intros data].
    apply appends_bind; [apply appends_inline_submission | intros batchId].
    apply appends_bind; [apply appends_if; auto with frames | intros _].
    apply appends_bind; [apply appends_inline_confirmation | intros _].
    apply appends_setRefreshTrigger.
  - intros err. apply appends_bind; [apply appends_setError | intros _].
    apply appends_throw.
Qed.
End IssuedRequests.

Section RequestClaims.
Context {RT : Runtime} {VM : Viem} {CFG : Config}.

Lemma poll_is_not_a_submission url contract batchId :
  submits_sponsored url contract (EvRequest (poll_request batchId)).
Proof. exact I. Qed.

Lemma sponsored_is_harmless url contract r :
  sponsored_submission url contract r -> submits_sponsored url contract (EvRequest r).
Proof.
  intros H. unfold submits_sponsored. destruct H as [Hm H]. rewrite Hm.
  cbn. split; [exact Hm | exact H].
Qed.

(** C5.  Every provider request that [sendTransaction], [getCallsStatus],
    [waitForBatchConfirmation], [handleCreateDonation] and [handleDonate]
    add to the history has method [wallet_sendCalls] or
    [wallet_getCallsStatus]. *)
Theorem flow_issues_two_rpc_methods :
  (forall (U : Type) provider fromAddress contractAddress paymasterUrl,
      appends rpc_of_the_flow
        (@sendTransaction RT VM U provider fromAddress contractAddress paymasterUrl))
  /\ (forall (U : Type) provider batchId,
      appends rpc_of_the_flow (@getCallsStatus RT U provider batchId))
  /\ (forall (U : Type) fuel provider batchId maxAttempts intervalMs,
      appends rpc_of_the_flow
        (@waitForBatchConfirmation RT U fuel provider batchId maxAttempts intervalMs))
  /\ (forall amountStr description,
      appends rpc_of_the_flow (App.handleCreateDonation amountStr description))
  /\ (forall id amountStr,
      appends rpc_of_the_flow (App.handleDonate id amountStr)).
Proof.
  assert (Hsub : forall url contract r,
             sponsored_submission url contract r -> rpc_of_the_flow (EvRequest r)).
  { intros url contract r [Hm _]. left. exact Hm. }
  assert (Hpoll : forall batchId, rpc_of_the_flow (EvRequest (poll_request batchId))).
  { intros batchId. right. reflexivity. }
  repeat split; intros.
  - apply appends_sendTransaction; [intros; exact I | apply Hsub].
  - apply appends_getCallsStatus. exact Hpoll.
  - apply appends_waitForBatchConfirmation; [exact Hpoll | intros; exact I].
  - apply appends_handleCreateDonation;
      try exact Hpoll; try (intros; exact I); apply Hsub.
  - apply appends_handleDonate;
      try exact Hpoll; try (intros; exact I); apply Hsub.
Qed.
End RequestClaims.

(* ================================================================== *)
(** * Every submission asks for sponsorship                           *)
(* ================================================================== *)

Section Submissions.
Context {RT : Runtime} {VM : Viem} {CFG : Config}.

Lemma provider_request_run {U} (request : RequestFn) (r : Request) (w : World U) :
  provider_request (ProviderObj request) r w =
  (match request (log w) r with Resolve v => Ok v | Reject e => Throw e end,
   mkWorld (log w ++ [EvRequest r]) (ui w)).
Proof.
  unfold provider_request, bind, emit. cbn.
  destruct (request (log w) r); reflexivity.
Qed.

(** How the guarded part of a handler turns the completion of its
    attempt into the handler's own. *)
Lemma guarded_attempt_run (attempt : App.M unit) (fallback : string)
    (w : World App.State) :
  (App.setError "" ;;
   App.setIsLoading true ;;
   try_finally
     (try_catch attempt
        (fun err => App.setError (App.message_or fallback err) ;; throw err))
     (App.setIsLoading false)) w
  = guarded_completion fallback
      (fst (attempt (mkWorld (started_history w) (loading_state (ui w)))))
      (snd (attempt (mkWorld (started_history w) (loading_state (ui w))))).
Proof.
  unfold bind at 1. unfold App.setError at 1, bind at 1, update_ui, emit.
  cbn [log ui]. unfold bind at 1.
  unfold App.setIsLoading at 1, bind at 1, update_ui, emit. cbn [log ui App.error
    App.account App.provider App.sdk App.isLoading App.refreshTrigger].
  rewrite <- app_assoc. cbn [app].
  fold (started_history w). fold (loading_state (ui w)).
  unfold try_finally, try_catch.
  destruct (attempt (mkWorld (started_history w) (loading_state (ui w))))
    as [[[] | e | ] w3]; cbn [fst snd guarded_completion]; try reflexivity.
  unfold bind, App.setError, App.setIsLoading, bind, update_ui, emit, throw.
  cbn. rewrite <- app_assoc. reflexivity.
Qed.

(** The attempt both handlers guard, for any way [encode] of building
    the call data: once the amount and the call data are there, the
    submission is the next thing that happens. *)
Lemma attempt_submits (encode : Z -> Exn + JsVal) (amountStr : string)
    (request : RequestFn) (account : option string)
    (wei : Z) (data : JsVal) (w : World App.State) :
  App.amountInWei_of amountStr = inr wei ->
  encode wei = inr data ->
  let r := handler_request account data in
  let w' := mkWorld (log w ++ [EvRequest r]) (ui w) in
  (amountInWei <- lift (App.amountInWei_of amountStr) ;;
   data <- lift (encode amountInWei) ;;
   batchId <- App.inline_submission (ProviderObj request) account data ;;
   (if negb (truthy batchId)
    then throw (new_Error "Failed to get batch ID")
    else ret tt) ;;
   App.inline_confirmation (ProviderObj request) batchId ;;
   App.setRefreshTrigger (fun prev => SFadd prec emax prev (Number_of_bigint 1))) w =
  match request (log w) r with
  | Reject e => (Throw e, w')
  | Resolve batchId =>
      if truthy batchId
      then (App.inline_confirmation (ProviderObj request) batchId ;;
            App.setRefreshTrigger
              (fun prev => SFadd prec emax prev (Number_of_bigint 1))) w'
      else (Throw (new_Error "Failed to get batch ID"), w')
  end.
Proof.
  intros Hwei Hdata r w'.
  rewrite Hwei. unfold bind at 1. cbn [lift ret].
  rewrite Hdata. unfold bind at 1. cbn [lift ret].
  unfold bind at 1. unfold App.inline_submission. cbv zeta.
  fold (handler_request account data). fold r.
  rewrite provider_request_run. fold w'.
  destruct (request (log w) r) as [batchId | e]; [ | reflexivity].
  unfold bind at 1. destruct (truthy batchId); reflexivity.
Qed.

Lemma poll_is_no_submission batchId : no_submission (EvRequest (poll_request batchId)).
Proof. cbn. discriminate. Qed.

(** What follows the submission in a handler holds no other one. *)
Lemma confirmation_submits_nothing (request : RequestFn) (batchId : JsVal) :
  appends no_submission
    (App.inline_confirmation (ProviderObj request) batchId ;;
     App.setRefreshTrigger (fun prev => SFadd prec emax prev (Number_of_bigint 1))).
Proof.
  apply appends_bind; [ | intros _].
  - apply appends_inline_confirmation;
      [exact poll_is_no_submission | intros; exact I].
  - apply appends_setRefreshTrigger. intros; exact I.
Qed.

Lemma guarded_completion_log (fallback : string) (r : Result unit)
    (w' : World App.State) :
  exists tail,
    log (snd (guarded_completion fallback r w')) = (log w' ++ tail)%list
    /\ Forall no_submission tail.
Proof.
  destruct r as [a | e | ]; cbn [guarded_completion snd log].
  - eexists. split; [reflexivity | ]. repeat constructor.
  - eexists. split; [reflexivity | ]. repeat constructor.
  - exists []. rewrite app_nil_r. split; [reflexivity | constructor].
Qed.

(** The guarded part of a handler submits exactly once, as soon as the
    amount and the call data are there. *)
Lemma guarded_attempt_submits_once (encode : Z -> Exn + JsVal) (amountStr : string)
    (request : RequestFn) (account : option string) (fallback : string)
    (wei : Z) (data : JsVal) (w : World App.State) :
  App.amountInWei_of amountStr = inr wei ->
  encode wei = inr data ->
  submits_once (handler_request account data) (started_history w)
    (log (snd
      ((App.setError "" ;;
        App.setIsLoading true ;;
        try_finally
          (try_catch
             (amountInWei <- lift (App.amountInWei_of amountStr) ;;
              data <- lift (encode amountInWei) ;;
              batchId <- App.inline_submission (ProviderObj request) account data ;;
              (if negb (truthy batchId)
               then throw (new_Error "Failed to get batch ID")
               else ret tt) ;;
              App.inline_confirmation (ProviderObj request) batchId ;;
              App.setRefreshTrigger
                (fun prev => SFadd prec emax prev (Number_of_bigint 1)))
             (fun err => App.setError (App.message_or fallback err) ;; throw err))
          (App.setIsLoading false)) w))).
Proof.
  intros Hwei Hdata.
  rewrite guarded_attempt_run.
  rewrite (attempt_submits encode amountStr request account wei data _ Hwei Hdata).
  cbv zeta. cbn [log ui].
  set (r := handler_request account data).
  set (w' := mkWorld (started_history w ++ [EvRequest r]) (loading_state (ui w))).
  assert (Hafter : forall x : Result unit * World App.State,
             (exists evs, log (snd x) = (log w' ++ evs)%list
                          /\ Forall no_submission evs) ->
             submits_once r (started_history w)
               (log (snd (guarded_completion fallback (fst x) (snd x))))).
  { intros x (evs & Hlog & Hevs).
    destruct (guarded_completion_log fallback (fst x) (snd x)) as (tail & Ht & Htail).
    exists (evs ++ tail)%list. split.
    - rewrite Ht, Hlog. unfold w'. cbn [log].
      rewrite <- !app_assoc. reflexivity.
    - apply Forall_app. split; assumption. }
  assert (Hstop : forall e,
             exists evs, log (snd (@Throw unit e, w')) = (log w' ++ evs)%list
                         /\ Forall no_submission evs).
  { intros e. exists []. rewrite app_nil_r. split; [reflexivity | constructor]. }
  destruct (request (started_history w) r) as [batchId | e].
  - destruct (truthy batchId).
    + apply Hafter. apply confirmation_submits_nothing.
    + apply Hafter. apply Hstop.
  - apply Hafter. apply Hstop.
Qed.

(** C4.  Whatever they do, [sendTransaction], [handleCreateDonation] and
    [handleDonate] add no [wallet_sendCalls] request to the history but a
    sponsored one: its single parameter has version [1.0], the Base
    Sepolia chain id in hex, exactly one call, to the contract address,
    with value [0x0], and [capabilities.paymasterService.url] is the
    paymaster URL in use.  And each of them does submit: given a provider
    that takes requests, a paymaster URL and call data that viem encodes,
    [sendTransaction] goes on with exactly one such request; past the
    wallet check, with an amount that converts, so does each handler, as
    the first thing after raising [isLoading]. *)
Theorem submissions_request_sponsorship :
  (forall (U : Type) provider fromAddress contractAddress paymasterUrl,
      appends (submits_sponsored (JStr paymasterUrl) (JStr contractAddress))
        (@sendTransaction RT VM U provider fromAddress contractAddress paymasterUrl))
  /\ (forall amountStr description,
      appends (submits_sponsored VITE_PAYMASTER_SERVICE_URL (JStr CONTRACT_ADDRESS))
        (App.handleCreateDonation amountStr description))
  /\ (forall id amountStr,
      appends (submits_sponsored VITE_PAYMASTER_SERVICE_URL (JStr CONTRACT_ADDRESS))
        (App.handleDonate id amountStr))
  /\ (forall (U : Type) request fromAddress contractAddress paymasterUrl data
             (w : World U),
      encodeFunctionData REWARDS_ABI "claimReward" None = inr data ->
      paymasterUrl <> "" ->
      let r := sendTransaction_request fromAddress contractAddress paymasterUrl data in
      sponsored_submission (JStr paymasterUrl) (JStr contractAddress) r
      /\ submits_once r (log w)
           (log (snd (sendTransaction (ProviderObj request) fromAddress
                        contractAddress paymasterUrl w))))
  /\ (forall request (w : World App.State),
      App.provider (ui w) = ProviderObj request ->
      App.not_connected (App.provider (ui w)) (App.account (ui w)) = false ->
      (forall amountStr description wei data,
          App.amountInWei_of amountStr = inr wei ->
          encodeFunctionData FUNDING_ABI "createDonation"
            (Some [JBigInt wei; JStr description]) = inr data ->
          let r := handler_request (App.account (ui w)) data in
          sponsored_submission VITE_PAYMASTER_SERVICE_URL (JStr CONTRACT_ADDRESS) r
          /\ submits_once r (started_history w)
               (log (snd (App.handleCreateDonation amountStr description w))))
      /\ (forall id amountStr wei data,
          App.amountInWei_of amountStr = inr wei ->
          encodeFunctionData FUNDING_ABI "donate"
            (Some [JBigInt id; JBigInt wei]) = inr data ->
          let r := handler_request (App.account (ui w)) data in
          sponsored_submission VITE_PAYMASTER_SERVICE_URL (JStr CONTRACT_ADDRESS) r
          /\ submits_once r (started_history w)
               (log (snd (App.handleDonate id amountStr w))))).
Proof.
  assert (Hshape : forall url contract from data,
    sponsored_submission url (JStr contract)
      {| method := "wallet_sendCalls";
         params :=
           [ JObj [ ("version", JStr "1.0");
                    ("chainId", JStr (numberToHex baseSepolia_id));
                    ("from", from);
                    ("calls", JArr [ JObj [ ("to", JStr contract);
                                            ("value", JStr "0x0");
                                            ("data", data) ] ]);
                    ("capabilities",
                      JObj [ ("paymasterService", JObj [ ("url", url) ]) ]) ] ] |}).
  { intros url contract from data.
    split; [reflexivity | ]. do 2 eexists. repeat split; reflexivity. }
  split; [ | split; [ | split; [ | split]]].
  - intros U provider fromAddress contractAddress paymasterUrl.
    apply appends_sendTransaction; [intros; exact I | ].
    apply sponsored_is_harmless.
  - intros amountStr description.
    apply appends_handleCreateDonation;
      try (intros; exact I); apply sponsored_is_harmless.
  - intros id amountStr.
    apply appends_handleDonate;
      try (intros; exact I); apply sponsored_is_harmless.
  - intros U request fromAddress contractAddress paymasterUrl data w Hdata Hurl r.
    split; [apply Hshape | ].
    unfold sendTransaction. rewrite Hdata.
    unfold bind at 1. cbn [lift ret]. unfold try_catch.
    unfold bind at 1. cbn [ret].
    apply String.eqb_neq in Hurl. rewrite Hurl.
    unfold bind at 1. cbn [ret]. cbv zeta.
    unfold bind at 1.
    fold (sendTransaction_request fromAddress contractAddress paymasterUrl data).
    fold r. rewrite provider_request_run.
    destruct (request (log w) r) as [v | e].
    + exists []. split; [reflexivity | constructor].
    + exists [EvConsoleLog ("Error sending transaction : " ++ Exn_toString e)].
      split; [ | repeat constructor].
      unfold bind, console_log, emit, throw. cbn [log ui snd].
      rewrite <- app_assoc. reflexivity.
  - intros request w Hprovider Hconnected. split.
    + intros amountStr description wei data Hwei Hdata r.
      split; [apply Hshape | ].
      unfold App.handleCreateDonation.
      unfold bind at 1, read_ui at 1. unfold bind at 1, read_ui at 1.
      rewrite Hconnected, Hprovider.
      exact (guarded_attempt_submits_once
               (fun amountInWei =>
                  encodeFunctionData FUNDING_ABI "createDonation"
                    (Some [JBigInt amountInWei; JStr description]))
               amountStr request (App.account (ui w))
               "Failed to create donation" wei data w Hwei Hdata).
    + intros id amountStr wei data Hwei Hdata r.
      split; [apply Hshape | ].
      unfold App.handleDonate.
      unfold bind at 1, read_ui at 1. unfold bind at 1, read_ui at 1.
      rewrite Hconnected, Hprovider.
      exact (guarded_attempt_submits_once
               (fun amountInWei =>
                  encodeFunctionData FUNDING_ABI "donate"
                    (Some [JBigInt id; JBigInt amountInWei]))
               amountStr request (App.account (ui w))
               "Failed to process donation" wei data w Hwei Hdata).
Qed.
End Submissions.

(* ================================================================== *)
(** * sendTransaction                                                 *)
(* ================================================================== *)

Section SendTransaction.
Context {RT : Runtime} {VM : Viem} {U : Type}.

(** C8.  Given that viem encodes the fixed [claimReward] call,
    [sendTransaction] is determined as follows.  Without a provider that
    has a [request] member it throws [No provider available. Please
    connect to a base account]; otherwise, with an empty [paymasterUrl],
    it throws [Paymaster URL is required!]; in both cases no request is
    issued.  Otherwise it issues one [wallet_sendCalls] request and returns
    what the provider resolves with, unchanged, or throws what the
    provider rejects with.  Every throw is logged to the console first. *)
Theorem sendTransaction_validates_first
    (provider : Provider) (fromAddress contractAddress paymasterUrl : string)
    (data : JsVal) (w : World U) :
  encodeFunctionData REWARDS_ABI "claimReward" None = inr data ->
  let r := sendTransaction_request fromAddress contractAddress paymasterUrl data in
  let no_provider :=
    new_Error "No provider available. Please connect to a base account" in
  let no_url := new_Error "Paymaster URL is required!" in
  sendTransaction provider fromAddress contractAddress paymasterUrl w =
  match provider with
  | ProviderObj request =>
      if (paymasterUrl =? "")%string
      then (Throw no_url, mkWorld (log w ++ [sendTransaction_logs no_url]) (ui w))
      else
        match request (log w) r with
        | Resolve v => (Ok v, mkWorld (log w ++ [EvRequest r]) (ui w))
        | Reject e =>
            (Throw e, mkWorld (log w ++ [EvRequest r; sendTransaction_logs e]) (ui w))
        end
  | _ =>
      (Throw no_provider, mkWorld (log w ++ [sendTransaction_logs no_provider]) (ui w))
  end.
Proof.
  intros Hdata r no_provider no_url.
  unfold sendTransaction. rewrite Hdata.
  unfold bind at 1. cbn [lift ret]. unfold try_catch.
  destruct provider as [ | | request]; try reflexivity.
  unfold bind at 1. cbn [ret].
  destruct (paymasterUrl =? "")%string; [reflexivity | ].
  unfold bind at 1. cbn [ret]. cbv zeta.
  unfold bind at 1, provider_request, bind at 1, emit. cbn [log ui].
  fold (sendTransaction_request fromAddress contractAddress paymasterUrl data). fold r.
  destruct (request (log w) r) as [v | e]; cbn [await ret throw].
  - reflexivity.
  - unfold bind, console_log, emit, throw. cbn [log ui].
    rewrite <- app_assoc. reflexivity.
Qed.
End SendTransaction.

(* ================================================================== *)
(** * useContract                                                     *)
(* ================================================================== *)

Section ContractReads.
Context {RT : Runtime} {CH : Chain} {CFG : Config} {U : Type}.

Lemma client_readContract_run (c : ReadCall) (w : World U) :
  client_readContract c w =
  (match readContract (log w) c with Resolve v => Ok v | Reject e => Throw e end,
   mkWorld (log w ++ [EvReadContract c]) (ui w)).
Proof.
  unfold client_readContract, bind, emit. cbn.
  destruct (readContract (log w) c); reflexivity.
Qed.

(** A [getDonation] performs its one read and nothing else, whatever the
    answer. *)
Lemma getDonation_world (id : Z) (w : World U) :
  snd (getDonation id w) = mkWorld (log w ++ [EvReadContract (getDonation_call id)]) (ui w).
Proof.
  unfold getDonation. fold (getDonation_call id).
  unfold bind at 1. rewrite client_readContract_run.
  destruct (readContract (log w) (getDonation_call id)) as [v | e]; [ | reflexivity].
  repeat (unfold bind at 1;
          match goal with
          | |- context [lift ?x] => destruct x; cbn [lift ret throw]
          end; [reflexivity | ]).
  reflexivity.
Qed.

Lemma getTotalDonations_run (w : World U) :
  getTotalDonations w =
  (match readContract (log w) totalDonations_call with
   | Resolve v => Ok (Number v)
   | Reject e => Throw e
   end,
   mkWorld (log w ++ [EvReadContract totalDonations_call]) (ui w)).
Proof.
  unfold getTotalDonations. fold totalDonations_call.
  unfold bind. rewrite client_readContract_run.
  destruct (readContract (log w) totalDonations_call); reflexivity.
Qed.

(** C7.  [getDonation(id)] performs exactly one [readContract] call, for
    [getDonation] with argument [id]; when it resolves, the answer's
    [targetAmount], [totalDonated] and [timestamp] go through [BigInt]
    (the identity on a bigint) and [creator] and [description] are passed
    on as they are; when it rejects, so does [getDonation].
    [getTotalDonations] performs exactly one [readContract] call, for
    [totalDonations], and returns [Number] of the answer.  Neither adds
    anything else to the history: no provider request is made. *)
Theorem contract_reads_pass_through :
  (forall (id : Z) (w : World U),
      snd (getDonation id w)
      = mkWorld (log w ++ [EvReadContract (getDonation_call id)]) (ui w))
  /\ (forall (id : Z) (w : World U) result x1 x2 x3 target total stamp who what,
      readContract (log w) (getDonation_call id) = Resolve result ->
      get_prop result "targetAmount" = inr x1 -> BigInt x1 = inr target ->
      get_prop result "totalDonated" = inr x2 -> BigInt x2 = inr total ->
      get_prop result "creator" = inr who ->
      get_prop result "timestamp" = inr x3 -> BigInt x3 = inr stamp ->
      get_prop result "description" = inr what ->
      fst (getDonation id w)
      = Ok {| targetAmount := target; totalDonated := total; creator := who;
              timestamp := stamp; description := what |})
  /\ (forall (id : Z) (w : World U) e,
      readContract (log w) (getDonation_call id) = Reject e ->
      fst (getDonation id w) = Throw e)
  /\ (forall z : Z, BigInt (JBigInt z) = inr z)
  /\ (forall w : World U,
      getTotalDonations w
      = (match readContract (log w) totalDonations_call with
         | Resolve v => Ok (Number v)
         | Reject e => Throw e
         end,
         mkWorld (log w ++ [EvReadContract totalDonations_call]) (ui w)))
  /\ (forall z : Z, Number (JBigInt z) = Number_of_bigint z).
Proof.
  split; [exact getDonation_world | ].
  split.
  { intros id w result x1 x2 x3 target total stamp who what
           Hr H1 B1 H2 B2 Hc H3 B3 Hd.
    unfold getDonation. fold (getDonation_call id).
    unfold bind at 1. rewrite client_readContract_run, Hr. cbv zeta.
    unfold bind at 1. rewrite H1. cbn [lift ret].
    unfold bind at 1. rewrite B1. cbn [lift ret].
    unfold bind at 1. rewrite H2. cbn [lift ret].
    unfold bind at 1. rewrite B2. cbn [lift ret].
    unfold bind at 1. rewrite Hc. cbn [lift ret].
    unfold bind at 1. rewrite H3. cbn [lift ret].
    unfold bind at 1. rewrite B3. cbn [lift ret].
    unfold bind at 1. rewrite Hd. reflexivity. }
  split.
  { intros id w e Hr. unfold getDonation. fold (getDonation_call id).
    unfold bind at 1. rewrite client_readContract_run, Hr. reflexivity. }
  split; [reflexivity | ].
  split; [exact getTotalDonations_run | reflexivity].
Qed.
End ContractReads.

(* ================================================================== *)
(** * The handlers' loading and error flags                           *)
(* ================================================================== *)

Section Flags.
Context {RT : Runtime} {VM : Viem} {CFG : Config}.

Lemma bumps_setRefreshTrigger :
  bumps (App.setRefreshTrigger (fun prev => SFadd prec emax prev (Number_of_bigint 1))).
Proof. intros w. split; [eexists | ]; reflexivity. Qed.

Lemma bumps_bind {A} (m : App.M A) (k : A -> App.M unit) :
  quiet m -> (forall a, bumps (k a)) -> bumps (bind m k).
Proof.
  intros Hm Hk w. unfold bind.
  destruct (Hm w) as [(e1 & H1) C1].
  destruct (m w) as [[a | e | ] w1]; cbn in *; subst w1.
  - destruct (Hk a (mkWorld (log w ++ e1) (ui w))) as [(e2 & H2) C2].
    split; [ | exact C2]. exists (e1 ++ e2)%list. rewrite H2. cbn.
    rewrite app_assoc. reflexivity.
  - split; [exists e1 | ]; reflexivity.
  - contradiction.
Qed.

Lemma quiet_confirmation_loop provider batchId n :
  quiet (App.confirmation_loop provider batchId n).
Proof.
  induction n as [ | n IH]; cbn [App.confirmation_loop]; auto 10 with frames.
  apply quiet_bind; [apply quiet_provider_request | intros status].
  apply quiet_bind; [apply quiet_lift | intros s].
  apply quiet_if; [apply quiet_ret | ].
  apply quiet_bind; [apply quiet_lift | intros s'].
  apply quiet_if.
  - apply quiet_bind; [apply quiet_lift | intros; apply quiet_throw].
  - apply quiet_bind; [apply quiet_emit | intros; exact IH].
Qed.

Lemma quiet_inline_confirmation provider batchId :
  quiet (App.inline_confirmation provider batchId).
Proof.
  unfold App.inline_confirmation.
  apply quiet_bind; [apply quiet_confirmation_loop | intros confirmed].
  apply quiet_if; [apply quiet_throw | apply quiet_ret].
Qed.

(** The guarded part shared by both handlers: clear the error, raise
    [isLoading], run [attempt], record the error of a throw and rethrow,
    and lower [isLoading] whatever happened. *)
Lemma guarded_attempt_manages_flags (attempt : App.M unit) (fallback : string)
    (w : World App.State) :
  bumps attempt ->
  manages_flags fallback w
    ((App.setError "" ;;
      App.setIsLoading true ;;
      try_finally
        (try_catch attempt
           (fun err => App.setError (App.message_or fallback err) ;; throw err))
        (App.setIsLoading false)) w).
Proof.
  intros Hb.
  unfold bind at 1. unfold App.setError at 1, bind at 1, update_ui, emit.
  cbn [log ui]. unfold bind at 1.
  unfold App.setIsLoading at 1, bind at 1, update_ui, emit. cbn [log ui App.error
    App.account App.provider App.sdk App.isLoading App.refreshTrigger].
  match goal with
  | |- manages_flags _ _ (try_finally _ _ ?w2) => set (w2' := w2)
  end.
  destruct (Hb w2') as [(evs & Hlog) Hres].
  unfold try_finally, try_catch.
  destruct (attempt w2') as [[[] | e | ] w3]; cbn [fst snd] in Hlog, Hres.
  - unfold manages_flags. cbn. split.
    + exists evs. rewrite Hlog. unfold w2'. cbn [log].
      rewrite <- !app_assoc. reflexivity.
    + rewrite Hres. reflexivity.
  - unfold manages_flags. cbn. split.
    + exists (evs ++ [EvSetState "error" (JStr (App.message_or fallback e))])%list.
      rewrite Hlog. unfold w2'. cbn [log]. rewrite <- !app_assoc. reflexivity.
    + rewrite Hres. reflexivity.
  - contradiction.
Qed.

End Flags.


(* ================================================================== *)
(** * DonationList.loadDonations                                      *)
(* ================================================================== *)

Section Loading.
Context {RT : Runtime} {CH : Chain} {CFG : Config}.

(** Visiting ids in order always returns, changes nothing but the
    history, and reads each id once, in the order given. *)
Lemma load_in_order_reads (ids : list nat) :
  forall kept (w : World DonationList.State),
  exists kept' evs,
    load_in_order ids kept w = (Ok kept', mkWorld (log w ++ evs) (ui w))
    /\ reads_of evs = map (fun k => getDonation_call (Z.of_nat k)) ids.
Proof.
  induction ids as [ | k rest IH]; intros kept w.
  - exists kept, []. cbn. rewrite app_nil_r. destruct w. split; reflexivity.
  - cbn [load_in_order map].
    pose proof (getDonation_world (Z.of_nat k) w) as Hw.
    destruct (getDonation (Z.of_nat k) w) as [[d | e | ] w1] eqn:Hg;
      cbn [snd] in Hw; subst w1.
    + destruct (IH (kept ++ [ {| DonationList.id := Z.of_nat k;
                                 DonationList.donation := d |} ])%list
                  (mkWorld (log w ++ [EvReadContract (getDonation_call (Z.of_nat k))])
                           (ui w)))
        as (kept' & evs & Hrun & Hreads).
      exists kept', (EvReadContract (getDonation_call (Z.of_nat k)) :: evs).
      rewrite Hrun. cbn [log ui reads_of]. rewrite <- app_assoc, Hreads.
      split; reflexivity.
    + unfold bind, console_error, emit. cbn [log ui].
      match goal with
      | |- context [load_in_order rest kept ?w1] =>
          destruct (IH kept w1) as (kept' & evs & Hrun & Hreads)
      end.
      eexists kept', (EvReadContract (getDonation_call (Z.of_nat k)) :: _ :: evs).
      rewrite Hrun. cbn [log ui reads_of]. rewrite <- !app_assoc, Hreads.
      split; reflexivity.
    + exfalso. revert Hg. unfold getDonation.
      unfold bind at 1. rewrite client_readContract_run.
      destruct (readContract _ _); [ | discriminate].
      repeat (unfold bind at 1;
              match goal with
              | |- context [lift ?x] => destruct x; cbn [lift ret throw]
              end; [discriminate | ]).
      discriminate.
Qed.

(** While the counter behaves like the integers below [total], the loop
    on numbers visits the ids in order. *)
Lemma load_from_in_order (total : number) (n : nat) :
  forall (fuel k0 : nat) kept (w : World DonationList.State),
  (forall k, (k0 <= k < k0 + n)%nat ->
     SFltb (counter k) total = true /\
     BigInt_of_number (counter k) = inr (Z.of_nat k)) ->
  SFltb (counter (k0 + n)) total = false ->
  (n <= fuel)%nat ->
  DonationList.load_from fuel (counter k0) total kept w
  = load_in_order (seq k0 n) kept w.
Proof.
  induction n as [ | n IH]; intros fuel k0 kept w Hin Hout Hfuel.
  - rewrite Nat.add_0_r in Hout.
    destruct fuel; cbn [DonationList.load_from]; rewrite Hout; reflexivity.
  - destruct fuel as [ | fuel]; [lia | ].
    destruct (Hin k0 ltac:(lia)) as [Hlt Hid].
    cbn [DonationList.load_from seq load_in_order]. rewrite Hlt.
    unfold bind at 1. unfold DonationList.load_one, try_catch.
    rewrite Hid. unfold bind at 1. cbn [lift ret]. unfold bind at 1.
    change (SFadd prec emax (counter k0) (Number_of_bigint 1)) with (counter (S k0)).
    destruct (getDonation (Z.of_nat k0) w) as [[d | e | ] w1].
    + unfold bind at 1. cbn [lift ret].
      apply IH; [intros k Hk; apply Hin; lia | | lia].
      replace (S k0 + n)%nat with (k0 + S n)%nat by lia. exact Hout.
    + unfold bind, console_error, emit. cbn [log ui ret].
      apply IH; [intros k Hk; apply Hin; lia | | lia].
      replace (S k0 + n)%nat with (k0 + S n)%nat by lia. exact Hout.
    + reflexivity.
Qed.
(** C9.  [loadDonations] raises [isLoadingDonations], clears the error
    and reads [totalDonations].  If that read rejects, the list-level
    error is set to the error's message (a fixed text for a non-[Error]),
    the donations stay as they were and [isLoadingDonations] is lowered.
    If it resolves with a total that lets the counter run through
    [0 .. n-1], the ids [0], ..., [n-1] are read in ascending order, each
    exactly once whether or not an earlier one failed; the donations are
    set to the entries that loaded, highest id first; the error stays
    empty and [isLoadingDonations] is lowered. *)
Theorem loadDonations_loads_in_order (fuel : nat) (w : World DonationList.State) :
  let started :=
    (log w ++ [EvSetState "isLoadingDonations" (JBool true);
               EvSetState "error" (JStr "")])%list in
  let asked :=
    mkWorld (started ++ [EvReadContract totalDonations_call])
      {| DonationList.donations := DonationList.donations (ui w);
         DonationList.isLoadingDonations := true;
         DonationList.error := "" |} in
  (forall e,
      readContract started totalDonations_call = Reject e ->
      let message := shown_message "Failed to load donations" e in
      DonationList.loadDonations fuel w =
      (Ok tt,
       mkWorld (log asked ++ [EvSetState "error" (JStr message);
                              EvSetState "isLoadingDonations" (JBool false)])
               (loaded_state (DonationList.donations (ui w)) message)))
  /\ (forall result n,
      readContract started totalDonations_call = Resolve result ->
      counts_to (Number result) n ->
      (n <= fuel)%nat ->
      exists kept evs,
        load_in_order (seq 0 n) [] asked = (Ok kept, mkWorld (log asked ++ evs) (ui asked))
        /\ reads_of evs = map (fun k => getDonation_call (Z.of_nat k)) (seq 0 n)
        /\ DonationList.loadDonations fuel w =
           (Ok tt,
            mkWorld (log asked ++ evs ++
                     [EvSetState "donations"
                        (JArr (map DonationList.DonationWithId_value (rev kept)));
                      EvSetState "isLoadingDonations" (JBool false)])
                    (loaded_state (rev kept) ""))).
Proof.
  intros started asked.
  assert (Hprefix : forall (body : number -> DonationList.M unit) handler cleanup,
    (DonationList.setIsLoadingDonations true ;;
     DonationList.setError "" ;;
     try_finally (try_catch (total <- getTotalDonations ;; body total) handler) cleanup) w
    = try_finally
        (try_catch
           (fun w1 =>
              match readContract started totalDonations_call with
              | Resolve v => body (Number v) w1
              | Reject e => (Throw e, w1)
              end) handler) cleanup asked).
  { intros body handler cleanup.
    unfold bind at 1. unfold DonationList.setIsLoadingDonations at 1.
    unfold bind at 1, update_ui, emit. cbn [log ui].
    unfold bind at 1. unfold DonationList.setError at 1.
    unfold bind at 1, update_ui, emit. cbn [log ui DonationList.donations
      DonationList.isLoadingDonations DonationList.error].
    unfold try_finally, try_catch. unfold bind at 1.
    rewrite getTotalDonations_run. cbn [log ui].
    replace ((log w ++ [EvSetState "isLoadingDonations" (JBool true)]) ++
             [EvSetState "error" (JStr "")])%list with started
      by (unfold started; rewrite <- app_assoc; reflexivity).
    fold asked.
    destruct (readContract started totalDonations_call); reflexivity. }
  unfold DonationList.loadDonations. split.
  - intros e He. cbv zeta.
    rewrite (Hprefix (fun total =>
               donationsList <- DonationList.load_from fuel (S754_zero false) total [] ;;
               DonationList.setDonations (rev donationsList))).
    rewrite He. unfold try_finally, try_catch. cbn.
    rewrite <- !app_assoc. reflexivity.
  - intros result n Hr [Hin Hout] Hfuel.
    destruct (load_in_order_reads (seq 0 n) [] asked) as (kept & evs & Hrun & Hreads).
    exists kept, evs. split; [exact Hrun | split; [exact Hreads | ]].
    rewrite (Hprefix (fun total =>
               donationsList <- DonationList.load_from fuel (S754_zero false) total [] ;;
               DonationList.setDonations (rev donationsList))).
    rewrite Hr. unfold try_finally, try_catch. unfold bind at 1.
    change (S754_zero false) with (counter 0).
    rewrite (load_from_in_order (Number result) n fuel 0 [] asked)
      by (try exact Hfuel; try exact Hout; intros k Hk; apply Hin; lia).
    rewrite Hrun. cbn. rewrite <- !app_assoc. reflexivity.
Qed.
End Loading.

(* ================================================================== *)
(** * DonationCard: the progress bar                                  *)
(* ================================================================== *)

Section Progress.

(** [Math.min(x, 100)] is never above 100 (it is NaN exactly when [x] is). *)
Lemma Math_min_100_not_above (x : number) :
  SFltb num_100 (Math_min x num_100) = false.
Proof.
  unfold num_100.
  set (hundred := S754_finite false 7036874417766400 (-46)).
  destruct x as [s | s | | s m e]; unfold Math_min; fold hundred.
  - destruct (SFltb (S754_zero s) hundred) eqn:Hlt;
      [apply SFltb_asym, Hlt | apply SFltb_irrefl].
  - destruct (SFltb (S754_infinity s) hundred) eqn:Hlt;
      [apply SFltb_asym, Hlt | apply SFltb_irrefl].
  - reflexivity.
  - destruct (SFltb (S754_finite s m e) hundred) eqn:Hlt;
      [apply SFltb_asym, Hlt | apply SFltb_irrefl].
Qed.

(** Dividing a number above zero by [+0] and scaling gives [+Infinity],
    which [Math.min] cuts to 100. *)
Lemma progress_of_zero_target (total : number) :
  SFltb (S754_zero false) total = true ->
  DonationCard.progress_of total (S754_zero false) = num_100.
Proof.
  destruct total as [s | s | | s m e]; cbn; try discriminate.
  - destruct s; [discriminate | reflexivity].
  - destruct s; [discriminate | reflexivity].
Qed.

(** C10.  The progress value is
    [Math.min((totalDonated / targetAmount) * 100, 100)] on the two local
    numbers [Number(field) / 1e18].  For every donation it is not above
    100.  The division is unguarded: with [donation.targetAmount = 0] the
    local [targetAmount] is [+0], so a local [totalDonated] above zero
    gives exactly 100, and [donation.totalDonated = 0] gives NaN. *)
Theorem progress_is_capped (donation : Donation) :
  DonationCard.progress donation
  = Math_min
      (SFmul prec emax
         (SFdiv prec emax (DonationCard.totalDonated donation)
                          (DonationCard.targetAmount donation))
         num_100)
      num_100
  /\ SFltb num_100 (DonationCard.progress donation) = false
  /\ (targetAmount donation = 0 ->
      SFltb (S754_zero false) (DonationCard.totalDonated donation) = true ->
      DonationCard.progress donation = num_100)
  /\ (targetAmount donation = 0 ->
      totalDonated donation = 0 ->
      DonationCard.progress donation = S754_nan).
Proof.
  split; [reflexivity | ].
  split; [apply Math_min_100_not_above | ].
  split.
  - intros Ht Hpos. unfold DonationCard.progress, DonationCard.targetAmount.
    rewrite Ht. apply progress_of_zero_target. exact Hpos.
  - intros Ht Hd. unfold DonationCard.progress, DonationCard.targetAmount,
      DonationCard.totalDonated.
    rewrite Ht, Hd. reflexivity.
Qed.
End Progress.

(* ================================================================== *)
(** * The statements at work on the sample environment                *)
(* ================================================================== *)

(** C1 at work: a wallet that answers PENDING, then CONFIRMED; a wallet
    that answers FAILED; and two attempts against a wallet that stays
    PENDING. *)
Lemma waitForBatchConfirmation_outcomes_witness :
  let poll := EvRequest (poll_request (JStr "0xb1")) in
  @waitForBatchConfirmation Sample.runtime unit 60
    (ProviderObj Sample.slow_wallet) (JStr "0xb1") None None (Sample.empty_world tt)
  = (Ok (Sample.status_object "CONFIRMED"), mkWorld [poll; EvSleep 2000; poll] tt)
  /\ @waitForBatchConfirmation Sample.runtime unit 60
    (ProviderObj Sample.failing_wallet) (JStr "0xb1") None None (Sample.empty_world tt)
  = (Throw (new_Error "Batch failed: reverted"), mkWorld [poll] tt)
  /\ @waitForBatchConfirmation Sample.runtime unit 2
    (ProviderObj Sample.stuck_wallet) (JStr "0xb1")
    (Some (Number_of_bigint 2)) (Some (Number_of_bigint 5)) (Sample.empty_world tt)
  = (Throw (new_Error "Batch confirmation timeout"),
     mkWorld [poll; EvSleep 5; poll; EvSleep 5] tt).
Proof.
  cbv zeta. split; [ | split].
  - refine (proj1 (@waitForBatchConfirmation_outcomes Sample.runtime unit
             Sample.slow_wallet (JStr "0xb1") None None (Sample.empty_world tt)
             60 1 60 (attempts_of_bigint 60 eq_refl) _)
             (Sample.status_object "CONFIRMED") _ _ _ _).
    + intros j Hj. assert (j = 0)%nat as -> by lia. reflexivity.
    + lia.
    + lia.
    + reflexivity.
    + reflexivity.
  - refine (proj1 (proj2 (@waitForBatchConfirmation_outcomes Sample.runtime unit
             Sample.failing_wallet (JStr "0xb1") None None (Sample.empty_world tt)
             60 0 60 (attempts_of_bigint 60 eq_refl) _))
             (Sample.failed_object "reverted") (JStr "reverted") _ _ _ _ _).
    + intros j Hj. lia.
    + lia.
    + lia.
    + reflexivity.
    + reflexivity.
    + reflexivity.
  - refine (proj1 (proj2 (proj2 (@waitForBatchConfirmation_outcomes Sample.runtime unit
             Sample.stuck_wallet (JStr "0xb1")
             (Some (Number_of_bigint 2)) (Some (Number_of_bigint 5))
             (Sample.empty_world tt) 2 2 2 (attempts_of_bigint 2 eq_refl) _))) _ _).
    + intros j Hj.
      assert (j = 0 \/ j = 1)%nat as [-> | ->] by lia; reflexivity.
    + reflexivity.
    + lia.
Defined.

(** C2 at work: two attempts against a wallet that stays PENDING. *)
Lemma waitForBatchConfirmation_bounded_witness :
  completes
    (fst (@waitForBatchConfirmation Sample.runtime unit 2
            (ProviderObj Sample.stuck_wallet) (JStr "0xb1")
            (Some (Number_of_bigint 2)) None (Sample.empty_world tt))).
Proof.
  refine (proj1 (proj2 (@waitForBatchConfirmation_bounded Sample.runtime unit
            (ProviderObj Sample.stuck_wallet) (JStr "0xb1")
            (Some (Number_of_bigint 2)) None (Sample.empty_world tt) 2 2
            (attempts_of_bigint 2 eq_refl))) _).
  lia.
Defined.

(** C4 at work: a donation through the slow wallet is submitted once,
    with a request that asks the sample paymaster to sponsor it. *)
Lemma submissions_request_sponsorship_witness :
  let w := Sample.empty_world (Sample.connected Sample.slow_wallet) in
  let r := @handler_request Sample.viem Sample.config (Some "0xA11CE") (JStr "donate") in
  App.provider (ui w) = ProviderObj Sample.slow_wallet
  /\ App.not_connected (App.provider (ui w)) (App.account (ui w)) = false
  /\ @App.amountInWei_of Sample.runtime "1" = inr (10 ^ 18)
  /\ @sponsored_submission Sample.viem
       (@VITE_PAYMASTER_SERVICE_URL Sample.config)
       (JStr (@CONTRACT_ADDRESS Sample.config)) r
  /\ submits_once r (started_history w)
       (log (snd (@App.handleDonate Sample.runtime Sample.viem Sample.config 2 "1" w))).
Proof.
  cbv zeta. split; [reflexivity | split; [reflexivity | split; [reflexivity | ]]].
  exact (proj2 (proj2 (proj2 (proj2 (proj2
           (@submissions_request_sponsorship Sample.runtime Sample.viem Sample.config))))
           Sample.slow_wallet
           (Sample.empty_world (Sample.connected Sample.slow_wallet))
           eq_refl eq_refl)
           2 "1" (10 ^ 18) (JStr "donate") eq_refl eq_refl).
Defined.


(** C7 at work: reading campaign 2 of the sample contract. *)
Lemma contract_reads_pass_through_witness :
  fst (@getDonation Sample.runtime Sample.chain Sample.config unit 2 (Sample.empty_world tt))
  = Ok {| targetAmount := 10; totalDonated := 2; creator := JStr "0xA11CE";
          timestamp := 1700000000; description := JStr "books" |}.
Proof.
  refine (proj1 (proj2 (@contract_reads_pass_through
            Sample.runtime Sample.chain Sample.config unit))
            2 (Sample.empty_world tt) (Sample.donation_object 10 2)
            (JBigInt 10) (JBigInt 2) (JBigInt 1700000000) _ _ _ _ _
            _ _ _ _ _ _ _ _ _); reflexivity.
Defined.

(** C8 at work: a submission through the sample wallet. *)
Lemma sendTransaction_validates_first_witness :
  @sendTransaction Sample.runtime Sample.viem unit
    (ProviderObj Sample.slow_wallet) "0xA11CE" "0xC0" "https://paymaster.example"
    (Sample.empty_world tt)
  = (Ok (JStr "0xb1"),
     mkWorld [EvRequest (@sendTransaction_request Sample.viem "0xA11CE" "0xC0"
                           "https://paymaster.example" (JStr "claimReward"))] tt).
Proof.
  exact (@sendTransaction_validates_first Sample.runtime Sample.viem unit
           (ProviderObj Sample.slow_wallet) "0xA11CE" "0xC0" "https://paymaster.example"
           (JStr "claimReward") (Sample.empty_world tt) eq_refl).
Defined.

(** C10 at work: nothing asked for, something given. *)
Lemma progress_is_capped_witness :
  DonationCard.progress
    {| targetAmount := 0; totalDonated := 5; creator := JNull;
       timestamp := 0; description := JNull |} = num_100
  /\ DonationCard.progress
    {| targetAmount := 0; totalDonated := 0; creator := JNull;
       timestamp := 0; description := JNull |} = S754_nan.
Proof.
  split.
  - apply (proj1 (proj2 (proj2 (progress_is_capped
             {| targetAmount := 0; totalDonated := 5; creator := JNull;
                timestamp := 0; description := JNull |})))); reflexivity.
  - apply (proj2 (proj2 (proj2 (progress_is_capped
             {| targetAmount := 0; totalDonated := 0; creator := JNull;
                timestamp := 0; description := JNull |})))); reflexivity.
Defined.

(** C9 at work: the sample contract holds three campaigns, the middle one
    unreadable. *)
Lemma loadDonations_loads_in_order_witness :
  let w := Sample.empty_world Sample.list_state in
  let asked :=
    mkWorld [EvSetState "isLoadingDonations" (JBool true);
             EvSetState "error" (JStr "");
             EvReadContract (@totalDonations_call Sample.config)]
      {| DonationList.donations := [];
         DonationList.isLoadingDonations := true;
         DonationList.error := "" |} in
  @counts_to Sample.runtime (@Number Sample.runtime (JBigInt 3)) 3
  /\ exists kept evs,
      @load_in_order Sample.runtime Sample.chain Sample.config [0; 1; 2]%nat [] asked
      = (Ok kept, mkWorld (log asked ++ evs) (ui asked))
      /\ reads_of evs
         = map (fun k => @getDonation_call Sample.config (Z.of_nat k)) [0; 1; 2]%nat
      /\ @DonationList.loadDonations Sample.runtime Sample.chain Sample.config 5 w
         = (Ok tt,
            mkWorld (log asked ++ evs ++
                     [EvSetState "donations"
                        (JArr (map DonationList.DonationWithId_value (rev kept)));
                      EvSetState "isLoadingDonations" (JBool false)])
                    (loaded_state (rev kept) "")).
Proof.
  cbv zeta.
  assert (Hcount : @counts_to Sample.runtime (@Number Sample.runtime (JBigInt 3)) 3).
  { split; [ | reflexivity].
    intros k Hk.
    assert (k = 0 \/ k = 1 \/ k = 2)%nat as [-> | [-> | ->]] by lia;
      split; reflexivity. }
  split; [exact Hcount | ].
  apply (proj2 (@loadDonations_loads_in_order Sample.runtime Sample.chain Sample.config
                  5 (Sample.empty_world Sample.list_state)) (JBigInt 3) 3%nat).
  - reflexivity.
  - exact Hcount.
  - lia.
Defined.

(* ================================================================== *)
(** * Further properties: how a confirmation wait is cut short        *)
(* ================================================================== *)

Section PollingEdges.
Context {RT : Runtime} {U : Type}.

(** A poll that rejects, or whose answer is [null] or [undefined], ends
    the helper at once: the rejection value (or the engine's TypeError) is
    thrown as it is, no wait follows, and no further poll is made. *)
Theorem waitForBatchConfirmation_aborts
    (request : RequestFn) (batchId : JsVal) (maxAttempts intervalMs : option number)
    (w : World U) (n k fuel : nat) :
  let ms := intervalMs_or_default intervalMs in
  let poll := poll_request batchId in
  let history j := pending_log batchId ms j (log w) in
  let run :=
    waitForBatchConfirmation fuel (ProviderObj request) batchId
      maxAttempts intervalMs w in
  attempts_of (maxAttempts_or_default maxAttempts) n ->
  (k < n)%nat ->
  (k < fuel)%nat ->
  (forall j, (j < k)%nat -> keeps_polling (request (history j) poll) = true) ->
  (forall e,
      request (history k) poll = Reject e ->
      run = (Throw e, mkWorld (history k ++ [EvRequest poll]) (ui w)))
  /\ (forall answer,
      request (history k) poll = Resolve answer ->
      answer = JNull \/ answer = JUndefined ->
      run = (Throw (new_TypeError (engine_message (ReadOfNullish answer "status"))),
             mkWorld (history k ++ [EvRequest poll]) (ui w))).
Proof.
  intros ms poll history run [Hin _] Hk Hfuel Hpending.
  unfold run, waitForBatchConfirmation.
  fold (maxAttempts_or_default maxAttempts).
  change (S754_zero false) with (counter 0).
  replace fuel with (k + S (fuel - k - 1))%nat by lia.
  rewrite wait_pending_prefix by (try exact Hpending; intros i Hi; apply Hin; lia).
  split.
  - intros e Hr.
    apply wait_step_aborted with (w := mkWorld (history k) (ui w));
      [apply Hin; lia | left; exact Hr].
  - intros answer Hr Hnull.
    apply wait_step_aborted with (w := mkWorld (history k) (ui w));
      [apply Hin; lia | right; exists answer; split; [exact Hr | ]].
    destruct Hnull as [-> | ->]; reflexivity.
Qed.

(** Without a usable provider the helper throws the engine's TypeError
    in its first round, before anything is recorded; with no attempt to
    make it reports a timeout all the same. *)
Theorem waitForBatchConfirmation_without_provider
    (batchId : JsVal) (maxAttempts intervalMs : option number) (w : World U)
    (fuel : nat) :
  SFltb (S754_zero false) (maxAttempts_or_default maxAttempts) = true ->
  waitForBatchConfirmation (S fuel) ProviderNull batchId maxAttempts intervalMs w
  = (Throw (new_TypeError (engine_message (ReadOfNullish JNull "request"))), w)
  /\ waitForBatchConfirmation (S fuel) ProviderNoRequest batchId maxAttempts
       intervalMs w
  = (Throw (new_TypeError (engine_message (NotAFunction "provider.request"))), w)
  /\ waitForBatchConfirmation (S fuel) ProviderNull batchId
       (Some (Number_of_bigint 0)) intervalMs w
  = (Throw (new_Error "Batch confirmation timeout"), w).
Proof.
  intros Hn. unfold waitForBatchConfirmation.
  fold (maxAttempts_or_default maxAttempts).
  cbn [waitForBatchConfirmation_from]. rewrite Hn. repeat split.
Qed.
End PollingEdges.

(* ================================================================== *)
(** * Further properties: what a run may cost                         *)
(* ================================================================== *)

Section Budget.
Context {U : Type}.

Lemma requests_in_app (a b : list Event) :
  requests_in (a ++ b) = (requests_in a + requests_in b)%nat.
Proof.
  induction a as [ | e a IH]; [reflexivity | ].
  destruct e; cbn [app requests_in]; rewrite IH; reflexivity.
Qed.

Lemma slept_in_app (a b : list Event) :
  slept_in (a ++ b) = slept_in a + slept_in b.
Proof.
  induction a as [ | e a IH]; [reflexivity | ].
  destruct e; cbn [app slept_in]; rewrite IH; lia.
Qed.

Lemma spends_nothing {A} (m : M U A) :
  (forall w, log (snd (m w)) = log w) -> spends 0 0 m.
Proof.
  intros H w. exists []. rewrite H, app_nil_r. cbn. repeat split; lia.
Qed.

Lemma spends_ret {A} (a : A) : spends 0 0 (@ret U A a).
Proof. apply spends_nothing. reflexivity. Qed.

Lemma spends_throw {A} e : spends 0 0 (@throw U A e).
Proof. apply spends_nothing. reflexivity. Qed.

Lemma spends_lift {A} (x : Exn + A) : spends 0 0 (@lift U A x).
Proof. destruct x; [apply spends_throw | apply spends_ret]. Qed.

Lemma spends_read_ui {A} (f : U -> A) : spends 0 0 (read_ui f).
Proof. apply spends_nothing. reflexivity. Qed.

Lemma spends_update_ui (f : U -> U) : spends 0 0 (update_ui f).
Proof. apply spends_nothing. reflexivity. Qed.

Lemma spends_state name v : spends 0 0 (@emit U (EvSetState name v)).
Proof. intros w. exists [EvSetState name v]. cbn. repeat split; lia. Qed.

Lemma spends_sleep ms : 0 <= ms -> spends 0 ms (@sleep U ms).
Proof. intros H w. exists [EvSleep ms]. cbn. repeat split; lia. Qed.

Lemma spends_weaken {A} (r r' : nat) (s s' : Z) (m : M U A) :
  spends r s m -> (r <= r')%nat -> s <= s' -> spends r' s' m.
Proof.
  intros H Hr Hs w. destruct (H w) as (evs & Hlog & Hreq & Hsl).
  exists evs. repeat split; (assumption || lia).
Qed.

Lemma spends_provider_request {RT : Runtime} provider r :
  spends 1 0 (@provider_request RT U provider r).
Proof.
  destruct provider; cbn;
    try (apply spends_weaken with (r := 0%nat) (s := 0); [apply spends_throw | lia | lia]).
  intros w. exists [EvRequest r]. unfold bind, emit. cbn.
  destruct (request (log w) r); cbn; repeat split; lia.
Qed.

Lemma spends_bind {A B} r1 s1 r2 s2 (m : M U A) (k : A -> M U B) :
  0 <= s2 ->
  spends r1 s1 m -> (forall a, spends r2 s2 (k a)) ->
  spends (r1 + r2) (s1 + s2) (bind m k).
Proof.
  intros Hs2 Hm Hk w. unfold bind.
  destruct (Hm w) as (e1 & H1 & R1 & S1).
  destruct (m w) as [[a | e | ] w1]; cbn [snd] in *.
  - destruct (Hk a w1) as (e2 & H2 & R2 & S2).
    exists (e1 ++ e2)%list. rewrite H2, H1, app_assoc, requests_in_app, slept_in_app.
    repeat split; lia.
  - exists e1. repeat split; (assumption || lia).
  - exists e1. repeat split; (assumption || lia).
Qed.

Lemma spends_if {A} r s (b : bool) (m1 m2 : M U A) :
  spends r s m1 -> spends r s m2 -> spends r s (if b then m1 else m2).
Proof. destruct b; auto. Qed.

Lemma spends_try_catch {A} r1 s1 r2 s2 (body : M U A) handler :
  0 <= s2 ->
  spends r1 s1 body -> (forall e, spends r2 s2 (handler e)) ->
  spends (r1 + r2) (s1 + s2) (try_catch body handler).
Proof.
  intros Hs2 Hb Hh w. unfold try_catch.
  destruct (Hb w) as (e1 & H1 & R1 & S1).
  destruct (body w) as [[a | e | ] w1]; cbn [snd] in *.
  - exists e1. repeat split; (assumption || lia).
  - destruct (Hh e w1) as (e2 & H2 & R2 & S2).
    exists (e1 ++ e2)%list. rewrite H2, H1, app_assoc, requests_in_app, slept_in_app.
    repeat split; lia.
  - exists e1. repeat split; (assumption || lia).
Qed.

Lemma spends_try_finally {A} r1 s1 r2 s2 (body : M U A) cleanup :
  0 <= s2 ->
  spends r1 s1 body -> spends r2 s2 cleanup ->
  spends (r1 + r2) (s1 + s2) (try_finally body cleanup).
Proof.
  intros Hs2 Hb Hc w. unfold try_finally.
  destruct (Hb w) as (e1 & H1 & R1 & S1).
  destruct (body w) as [[a | e | ] w1]; cbn [snd] in *.
  3: exists e1; repeat split; (assumption || lia).
  all: destruct (Hc w1) as (e2 & H2 & R2 & S2).
  all: destruct (cleanup w1) as [[[] | e' | ] w2]; cbn [snd] in *.
  all: exists (e1 ++ e2)%list;
       rewrite H2, H1, app_assoc, requests_in_app, slept_in_app.
  all: repeat split; lia.
Qed.
End Budget.

Section HelperBudget.
Context {RT : Runtime} {U : Type}.

Lemma setTimeout_delay_nonneg (x : number) : 0 <= setTimeout_delay x.
Proof. unfold setTimeout_delay. destruct x; lia. Qed.

Lemma spends_wait_from provider batchId maxAttempts intervalMs (n : nat) :
  forall (k0 fuel : nat),
  (forall i, (i < n)%nat -> SFltb (counter (k0 + i)) maxAttempts = true) ->
  SFltb (counter (k0 + n)) maxAttempts = false ->
  spends n (Z.of_nat n * setTimeout_delay intervalMs)
    (@waitForBatchConfirmation_from RT U fuel provider batchId
       maxAttempts intervalMs (counter k0)).
Proof.
  pose proof (setTimeout_delay_nonneg intervalMs) as Hms.
  set (ms := setTimeout_delay intervalMs) in *.
  induction n as [ | n IH]; intros k0 fuel Hin Hout.
  - rewrite Nat.add_0_r in Hout.
    destruct fuel; cbn [waitForBatchConfirmation_from]; rewrite Hout;
      apply spends_throw.
  - assert (Hlt : SFltb (counter k0) maxAttempts = true)
      by (rewrite <- (Nat.add_0_r k0); apply Hin; lia).
    assert (Hn : 0 <= Z.of_nat n * ms) by nia.
    destruct fuel as [ | fuel]; cbn [waitForBatchConfirmation_from]; rewrite Hlt.
    { apply spends_weaken with (r := 0%nat) (s := 0); [ | lia | nia].
      intros w. exists []. cbn. rewrite app_nil_r. repeat split; lia. }
    apply spends_weaken with (r := (1 + n)%nat) (s := 0 + (ms + Z.of_nat n * ms));
      [ | lia | nia].
    apply spends_bind; [lia | | intros status].
    { unfold getCallsStatus.
      apply spends_weaken with (r := (1 + 0)%nat) (s := 0 + 0); [ | lia | lia].
      apply spends_bind; [lia | apply spends_provider_request | ].
      intros; apply spends_ret. }
    apply spends_weaken with (r := (0 + n)%nat) (s := 0 + (ms + Z.of_nat n * ms));
      [ | lia | lia].
    apply spends_bind; [lia | apply spends_lift | intros s].
    apply spends_if.
    { apply spends_weaken with (r := 0%nat) (s := 0); [apply spends_ret | lia | lia]. }
    apply spends_weaken with (r := (0 + n)%nat) (s := 0 + (ms + Z.of_nat n * ms));
      [ | lia | lia].
    apply spends_bind; [lia | apply spends_lift | intros s'].
    apply spends_if.
    + apply spends_weaken with (r := (0 + 0)%nat) (s := 0 + 0); [ | lia | lia].
      apply spends_bind; [lia | apply spends_lift | intros; apply spends_throw].
    + apply spends_weaken with (r := (0 + n)%nat) (s := ms + Z.of_nat n * ms);
        [ | lia | lia].
      apply spends_bind; [exact Hn | apply spends_sleep; exact Hms | intros _].
      apply (IH (S k0) fuel).
      * intros i Hi. replace (S k0 + i)%nat with (k0 + S i)%nat by lia.
        apply Hin. lia.
      * replace (S k0 + n)%nat with (k0 + S n)%nat by lia. exact Hout.
Qed.

(** When [maxAttempts] allows [n] rounds, the helper never makes more
    than [n] requests and never spends more than [n] times the wait in its
    timers, however much fuel it has: 60 requests and 120 seconds with the
    defaults, and three requests for [maxAttempts = 2.5]. *)
Theorem waitForBatchConfirmation_budget
    (provider : Provider) (batchId : JsVal) (maxAttempts intervalMs : option number)
    (n fuel : nat) :
  attempts_of (maxAttempts_or_default maxAttempts) n ->
  spends n (Z.of_nat n * intervalMs_or_default intervalMs)
    (@waitForBatchConfirmation RT U fuel provider batchId maxAttempts intervalMs)
  /\ attempts_of (maxAttempts_or_default None) 60
  /\ Z.of_nat 60 * intervalMs_or_default None = 120000
  /\ attempts_of Sample.two_and_a_half 3.
Proof.
  intros [Hin Hout]. split; [ | split; [ | split]].
  - unfold waitForBatchConfirmation.
    fold (maxAttempts_or_default maxAttempts).
    change (S754_zero false) with (counter 0).
    apply spends_wait_from; assumption.
  - exact (attempts_of_bigint 60 eq_refl).
  - reflexivity.
  - split; [ | reflexivity].
    intros k Hk. destruct k as [ | [ | [ | k]]]; [reflexivity .. | lia].
Qed.
End HelperBudget.

Section HandlerBudget.
Context {RT : Runtime} {VM : Viem} {CFG : Config}.

Lemma spends_setError s : spends 0 0 (App.setError s).
Proof.
  intros w. exists [EvSetState "error" (JStr s)]. cbn. repeat split; lia.
Qed.

Lemma spends_setIsLoading b : spends 0 0 (App.setIsLoading b).
Proof.
  intros w. exists [EvSetState "isLoading" (JBool b)]. cbn. repeat split; lia.
Qed.

Lemma spends_setRefreshTrigger f : spends 0 0 (App.setRefreshTrigger f).
Proof.
  intros w. eexists [EvSetState "refreshTrigger" _]. cbn. repeat split; lia.
Qed.

Lemma spends_confirmation_loop provider batchId (n : nat) :
  spends n (Z.of_nat n * 2000) (App.confirmation_loop provider batchId n).
Proof.
  induction n as [ | n IH]; cbn [App.confirmation_loop].
  - apply spends_ret.
  - apply spends_weaken with (r := (1 + n)%nat) (s := 0 + (2000 + Z.of_nat n * 2000));
      [ | lia | lia].
    apply spends_bind; [lia | apply spends_provider_request | intros status].
    apply spends_weaken with (r := (0 + n)%nat) (s := 0 + (2000 + Z.of_nat n * 2000));
      [ | lia | lia].
    apply spends_bind; [lia | apply spends_lift | intros s].
    apply spends_if.
    { apply spends_weaken with (r := 0%nat) (s := 0); [apply spends_ret | lia | lia]. }
    apply spends_weaken with (r := (0 + n)%nat) (s := 0 + (2000 + Z.of_nat n * 2000));
      [ | lia | lia].
    apply spends_bind; [lia | apply spends_lift | intros s'].
    apply spends_if.
    + apply spends_weaken with (r := (0 + 0)%nat) (s := 0 + 0); [ | lia | lia].
      apply spends_bind; [lia | apply spends_lift | intros; apply spends_throw].
    + apply spends_weaken with (r := (0 + n)%nat) (s := 2000 + Z.of_nat n * 2000);
        [ | lia | lia].
      apply spends_bind; [lia | apply spends_sleep; lia | intros; exact IH].
Qed.

Lemma spends_inline_confirmation provider batchId :
  spends 60 120000 (App.inline_confirmation provider batchId).
Proof.
  unfold App.inline_confirmation.
  apply spends_weaken with (r := (60 + 0)%nat) (s := Z.of_nat 60 * 2000 + 0);
    [ | lia | lia].
  apply spends_bind; [lia | apply spends_confirmation_loop | intros confirmed].
  apply spends_if; [apply spends_throw | apply spends_ret].
Qed.

(** What follows the wallet check in both handlers, for any way of
    building the call data. *)
Lemma spends_guarded_attempt (encode : Z -> Exn + JsVal) amountStr provider account
    fallback :
  spends 61 120000
    (App.setError "" ;;
     App.setIsLoading true ;;
     try_finally
       (try_catch
          (amountInWei <- lift (App.amountInWei_of amountStr) ;;
           data <- lift (encode amountInWei) ;;
           batchId <- App.inline_submission provider account data ;;
           (if negb (truthy batchId)
            then throw (new_Error "Failed to get batch ID")
            else ret tt) ;;
           App.inline_confirmation provider batchId ;;
           App.setRefreshTrigger (fun prev => SFadd prec emax prev (Number_of_bigint 1)))
          (fun err => App.setError (App.message_or fallback err) ;; throw err))
       (App.setIsLoading false)).
Proof.
  apply spends_weaken with (r := (0 + 61)%nat) (s := 0 + 120000); [ | lia | lia].
  apply spends_bind; [lia | apply spends_setError | intros _].
  apply spends_weaken with (r := (0 + 61)%nat) (s := 0 + 120000); [ | lia | lia].
  apply spends_bind; [lia | apply spends_setIsLoading | intros _].
  apply spends_weaken with (r := (61 + 0)%nat) (s := 120000 + 0); [ | lia | lia].
  apply spends_try_finally; [lia | | apply spends_setIsLoading].
  apply spends_weaken with (r := (61 + 0)%nat) (s := 120000 + 0); [ | lia | lia].
  apply spends_try_catch; [lia | | ].
  - apply spends_weaken with (r := (0 + 61)%nat) (s := 0 + 120000); [ | lia | lia].
    apply spends_bind; [lia | apply spends_lift | intros amountInWei].
    apply spends_weaken with (r := (0 + 61)%nat) (s := 0 + 120000); [ | lia | lia].
    apply spends_bind; [lia | apply spends_lift | intros data].
    apply spends_weaken with (r := (1 + 60)%nat) (s := 0 + 120000); [ | lia | lia].
    apply spends_bind; [lia | apply spends_provider_request | intros batchId].
    apply spends_weaken with (r := (0 + 60)%nat) (s := 0 + 120000); [ | lia | lia].
    apply spends_bind;
      [lia | apply spends_if; [apply spends_throw | apply spends_ret] | intros _].
    apply spends_weaken with (r := (60 + 0)%nat) (s := 120000 + 0); [ | lia | lia].
    apply spends_bind;
      [lia | apply spends_inline_confirmation | intros _; apply spends_setRefreshTrigger].
  - intros err.
    apply spends_weaken with (r := (0 + 0)%nat) (s := 0 + 0); [ | lia | lia].
    apply spends_bind; [lia | apply spends_setError | intros _; apply spends_throw].
Qed.

(** One run of [handleCreateDonation] or [handleDonate] makes at most 61
    provider requests (the submission and at most 60 polls) and spends at
    most 120 seconds in its timers, whatever the provider answers. *)
Theorem handlers_request_budget :
  (forall amountStr description,
      spends 61 120000 (App.handleCreateDonation amountStr description))
  /\ (forall id amountStr,
      spends 61 120000 (App.handleDonate id amountStr)).
Proof.
  split.
  - intros amountStr description. unfold App.handleCreateDonation.
    apply spends_weaken with (r := (0 + 61)%nat) (s := 0 + 120000); [ | lia | lia].
    apply spends_bind; [lia | apply spends_read_ui | intros provider].
    apply spends_weaken with (r := (0 + 61)%nat) (s := 0 + 120000); [ | lia | lia].
    apply spends_bind; [lia | apply spends_read_ui | intros account].
    apply spends_if.
    + apply spends_weaken with (r := (0 + 0)%nat) (s := 0 + 0); [ | lia | lia].
      apply spends_bind; [lia | apply spends_setError | intros; apply spends_ret].
    + apply (spends_guarded_attempt
               (fun amountInWei =>
                  encodeFunctionData FUNDING_ABI "createDonation"
                    (Some [JBigInt amountInWei; JStr description]))).
  - intros id amountStr. unfold App.handleDonate.
    apply spends_weaken with (r := (0 + 61)%nat) (s := 0 + 120000); [ | lia | lia].
    apply spends_bind; [lia | apply spends_read_ui | intros provider].
    apply spends_weaken with (r := (0 + 61)%nat) (s := 0 + 120000); [ | lia | lia].
    apply spends_bind; [lia | apply spends_read_ui | intros account].
    apply spends_if.
    + apply spends_weaken with (r := (0 + 0)%nat) (s := 0 + 0); [ | lia | lia].
      apply spends_bind; [lia | apply spends_setError | intros; apply spends_ret].
    + apply (spends_guarded_attempt
               (fun amountInWei =>
                  encodeFunctionData FUNDING_ABI "donate"
                    (Some [JBigInt id; JBigInt amountInWei]))).
Qed.
End HandlerBudget.

(* ================================================================== *)
(** * Further properties: a donation from submission to confirmation  *)
(* ================================================================== *)

Section HandlerFlow.
Context {RT : Runtime} {VM : Viem} {CFG : Config}.

Section InlineLoop.
Variables (request : RequestFn) (batchId : JsVal).
Let poll := poll_request batchId.
Let looping := App.confirmation_loop (ProviderObj request) batchId.

Lemma loop_step_pending (n : nat) (w : World App.State) :
  keeps_polling (request (log w) poll) = true ->
  looping (S n) w = looping n (mkWorld (log w ++ [EvRequest poll; EvSleep 2000]) (ui w)).
Proof.
  unfold keeps_polling, looping. intros H.
  cbn [App.confirmation_loop]. fold (poll_request batchId). fold poll.
  unfold bind at 1. rewrite provider_request_run.
  destruct (request (log w) poll) as [v | e]; [ | discriminate].
  unfold bind at 1.
  destruct (get_prop v "status") as [e | s] eqn:Es; [discriminate | ].
  apply andb_prop in H. destruct H as [Hc Hf].
  apply negb_true_iff in Hc. apply negb_true_iff in Hf.
  cbn [lift ret]. rewrite Hc. cbn [lift ret]. unfold bind at 1.
  cbn [lift ret]. rewrite Hf. unfold bind at 1, sleep, emit. cbn [log ui].
  rewrite <- app_assoc. reflexivity.
Qed.

Lemma loop_step_confirmed (n : nat) (w : World App.State) (status : JsVal) :
  request (log w) poll = Resolve status ->
  get_prop status "status" = inr (JStr "CONFIRMED") ->
  looping (S n) w = (Ok true, mkWorld (log w ++ [EvRequest poll]) (ui w)).
Proof.
  unfold looping. intros Hr Hs. cbn [App.confirmation_loop].
  fold (poll_request batchId). fold poll.
  unfold bind at 1. rewrite provider_request_run, Hr.
  unfold bind at 1. rewrite Hs. reflexivity.
Qed.

Lemma loop_step_failed (n : nat) (w : World App.State) (status err : JsVal) :
  request (log w) poll = Resolve status ->
  get_prop status "status" = inr (JStr "FAILED") ->
  get_prop status "error" = inr err ->
  looping (S n) w =
  (Throw (new_Error ("Transaction failed: " ++ ToString err)),
   mkWorld (log w ++ [EvRequest poll]) (ui w)).
Proof.
  unfold looping. intros Hr Hs He. cbn [App.confirmation_loop].
  fold (poll_request batchId). fold poll.
  unfold bind at 1. rewrite provider_request_run, Hr.
  unfold bind at 1. rewrite Hs. cbn [lift ret].
  change (strict_eq_str (JStr "FAILED") "CONFIRMED") with false.
  change (strict_eq_str (JStr "FAILED") "FAILED") with true.
  cbv iota. unfold bind at 1. cbn [lift ret].
  unfold bind at 1. rewrite He. reflexivity.
Qed.

Lemma loop_step_aborted (n : nat) (w : World App.State) (e : Exn) :
  request (log w) poll = Reject e \/
  (exists answer,
      request (log w) poll = Resolve answer /\ get_prop answer "status" = inl e) ->
  looping (S n) w = (Throw e, mkWorld (log w ++ [EvRequest poll]) (ui w)).
Proof.
  unfold looping. intros H. cbn [App.confirmation_loop].
  fold (poll_request batchId). fold poll.
  unfold bind at 1. rewrite provider_request_run.
  destruct H as [Hr | (answer & Hr & Hs)]; rewrite Hr.
  - reflexivity.
  - unfold bind at 1. rewrite Hs. reflexivity.
Qed.

Lemma loop_pending_prefix (k n : nat) :
  forall w : World App.State,
  (forall j, (j < k)%nat ->
     keeps_polling (request (pending_log batchId 2000 j (log w)) poll) = true) ->
  looping (k + n)%nat w =
  looping n (mkWorld (pending_log batchId 2000 k (log w)) (ui w)).
Proof.
  induction k as [ | k IH]; intros w H.
  - destruct w; reflexivity.
  - change (S k + n)%nat with (S (k + n)).
    rewrite loop_step_pending by (apply (H 0%nat); lia).
    rewrite IH; [reflexivity | ].
    intros j Hj. apply (H (S j)). lia.
Qed.
End InlineLoop.

Section Attempt.
Variables (encode : Z -> Exn + JsVal) (amountStr : string).
Variables (request : RequestFn) (account : option string).

(** The attempt both handlers guard, for any way of building the call
    data. *)
Let attempt : App.M unit :=
  amountInWei <- lift (App.amountInWei_of amountStr) ;;
  data <- lift (encode amountInWei) ;;
  batchId <- App.inline_submission (ProviderObj request) account data ;;
  (if negb (truthy batchId)
   then throw (new_Error "Failed to get batch ID")
   else ret tt) ;;
  App.inline_confirmation (ProviderObj request) batchId ;;
  App.setRefreshTrigger (fun prev => SFadd prec emax prev (Number_of_bigint 1)).

Lemma guarded_flow (fallback : string) (wei : Z) (data : JsVal) (w : World App.State) :
  App.amountInWei_of amountStr = inr wei ->
  encode wei = inr data ->
  flow_outcomes request (handler_request account data) fallback w
    ((App.setError "" ;;
      App.setIsLoading true ;;
      try_finally
        (try_catch attempt
           (fun err => App.setError (App.message_or fallback err) ;; throw err))
        (App.setIsLoading false)) w).
Proof.
  intros Hwei Hdata. unfold flow_outcomes. cbv zeta.
  rewrite guarded_attempt_run.
  unfold attempt.
  rewrite (attempt_submits encode amountStr request account wei data _ Hwei Hdata). cbv zeta. cbn [log ui].
  set (r := handler_request account data).
  set (w3 := mkWorld (started_history w ++ [EvRequest r]) (loading_state (ui w))).
  assert (Hbind : forall (m : App.M bool) (k : bool -> App.M unit) x w',
             m w3 = (x, w') ->
             bind m k w3 = match x with
                           | Ok a => k a w'
                           | Throw e => (Throw e, w')
                           | OutOfFuel => (OutOfFuel, w')
                           end).
  { intros m k x w' Hm. unfold bind. rewrite Hm. reflexivity. }
  split; [ | split].
  - intros e He. rewrite He.
    unfold thrown_after, settled_state. reflexivity.
  - intros batchId Hb Hfalsy. rewrite Hb, Hfalsy.
    unfold thrown_after, settled_state. reflexivity.
  - intros batchId k Hb Htruthy Hpending. rewrite Hb, Htruthy.
    unfold App.inline_confirmation.
    split; [ | split].
    + intros status Hk Hr Hs.
      assert (Hloop :
        App.confirmation_loop (ProviderObj request) batchId 60 w3
        = (Ok true,
           mkWorld (pending_log batchId 2000 k (log w3) ++
                    [EvRequest (poll_request batchId)]) (ui w3))).
      { replace 60%nat with (k + S (60 - k - 1))%nat by lia.
        rewrite loop_pending_prefix by exact Hpending.
        apply loop_step_confirmed
          with (w := mkWorld (pending_log batchId 2000 k (log w3)) (ui w3))
               (status := status); assumption. }
      unfold bind at 1 3. rewrite (Hbind _ _ _ _ Hloop).
      cbn -[pending_log]. unfold settled_state.
      rewrite <- !app_assoc. reflexivity.
    + intros status err Hk Hr Hs He.
      assert (Hloop :
        App.confirmation_loop (ProviderObj request) batchId 60 w3
        = (Throw (new_Error ("Transaction failed: " ++ ToString err)),
           mkWorld (pending_log batchId 2000 k (log w3) ++
                    [EvRequest (poll_request batchId)]) (ui w3))).
      { replace 60%nat with (k + S (60 - k - 1))%nat by lia.
        rewrite loop_pending_prefix by exact Hpending.
        apply loop_step_failed
          with (w := mkWorld (pending_log batchId 2000 k (log w3)) (ui w3))
               (status := status); assumption. }
      unfold bind at 1 3. rewrite (Hbind _ _ _ _ Hloop).
      cbn -[pending_log ToString String.append]. unfold thrown_after, settled_state.
      reflexivity.
    + intros Hk. subst k.
      assert (Hloop :
        App.confirmation_loop (ProviderObj request) batchId 60 w3
        = (Ok false, mkWorld (pending_log batchId 2000 60 (log w3)) (ui w3))).
      { replace 60%nat with (60 + 0)%nat at 1 by lia.
        rewrite loop_pending_prefix by exact Hpending. reflexivity. }
      unfold bind at 1 3. rewrite (Hbind _ _ _ _ Hloop).
      cbn -[pending_log]. unfold thrown_after, settled_state.
      reflexivity.
Qed.

Lemma guarded_poll_failure (fallback : string) (wei : Z) (data : JsVal)
    (w : World App.State) :
  App.amountInWei_of amountStr = inr wei ->
  encode wei = inr data ->
  poll_failure_outcomes request (handler_request account data) fallback w
    ((App.setError "" ;;
      App.setIsLoading true ;;
      try_finally
        (try_catch attempt
           (fun err => App.setError (App.message_or fallback err) ;; throw err))
        (App.setIsLoading false)) w).
Proof.
  intros Hwei Hdata. unfold poll_failure_outcomes. cbv zeta.
  intros batchId k Hb Htruthy Hk Hpending.
  rewrite guarded_attempt_run.
  unfold attempt.
  rewrite (attempt_submits encode amountStr request account wei data _ Hwei Hdata). cbv zeta. cbn [log ui].
  rewrite Hb, Htruthy.
  set (r := handler_request account data) in *.
  set (w3 := mkWorld (started_history w ++ [EvRequest r]) (loading_state (ui w))).
  assert (Haborted : forall e,
    request (pending_log batchId 2000 k (log w3)) (poll_request batchId) = Reject e \/
    (exists answer,
        request (pending_log batchId 2000 k (log w3)) (poll_request batchId)
        = Resolve answer /\ get_prop answer "status" = inl e) ->
    (App.inline_confirmation (ProviderObj request) batchId ;;
     App.setRefreshTrigger (fun prev => SFadd prec emax prev (Number_of_bigint 1))) w3
    = (Throw e,
       mkWorld (pending_log batchId 2000 k (log w3) ++
                [EvRequest (poll_request batchId)]) (ui w3))).
  { intros e He. unfold App.inline_confirmation.
    assert (Hloop :
      App.confirmation_loop (ProviderObj request) batchId 60 w3
      = (Throw e,
         mkWorld (pending_log batchId 2000 k (log w3) ++
                  [EvRequest (poll_request batchId)]) (ui w3))).
    { replace 60%nat with (k + S (60 - k - 1))%nat by lia.
      rewrite loop_pending_prefix by exact Hpending.
      apply loop_step_aborted
        with (w := mkWorld (pending_log batchId 2000 k (log w3)) (ui w3)).
      exact He. }
    unfold bind at 1 2. rewrite Hloop. reflexivity. }
  split.
  - intros e He. rewrite (Haborted e (or_introl He)).
    cbn -[pending_log]. unfold thrown_after, settled_state.
    reflexivity.
  - intros answer Hr Hnull.
    rewrite (Haborted (new_TypeError (engine_message (ReadOfNullish answer "status")))).
    + cbn -[pending_log]. unfold thrown_after, settled_state.
      reflexivity.
    + right. exists answer. split; [exact Hr | ].
      destruct Hnull as [-> | ->]; reflexivity.
Qed.
End Attempt.

(** With a connected wallet whose provider answers requests, and an
    amount and call data that convert, a handler run is decided by the
    provider's answers.  A rejected submission is rethrown; a falsy batch
    id raises [Failed to get batch ID] and is never polled; otherwise the
    batch id is polled every 2000 ms: CONFIRMED within 60 polls returns
    and sets [refreshTrigger] to the number [prev + 1], FAILED raises
    [Transaction failed: ...], and 60 polls without either raise
    [Transaction confirmation timeout].  Every throw leaves the text shown
    for it in the error state (the message of an [Error], the handler's
    own text for any other value), and [isLoading] is lowered last. *)
Theorem handlers_follow_the_flow (w : World App.State) (request : RequestFn) :
  App.provider (ui w) = ProviderObj request ->
  App.not_connected (App.provider (ui w)) (App.account (ui w)) = false ->
  (forall amountStr description wei data,
      App.amountInWei_of amountStr = inr wei ->
      encodeFunctionData FUNDING_ABI "createDonation"
        (Some [JBigInt wei; JStr description]) = inr data ->
      flow_outcomes request (handler_request (App.account (ui w)) data)
        "Failed to create donation" w
        (App.handleCreateDonation amountStr description w))
  /\ (forall id amountStr wei data,
      App.amountInWei_of amountStr = inr wei ->
      encodeFunctionData FUNDING_ABI "donate"
        (Some [JBigInt id; JBigInt wei]) = inr data ->
      flow_outcomes request (handler_request (App.account (ui w)) data)
        "Failed to process donation" w
        (App.handleDonate id amountStr w)).
Proof.
  intros Hprovider Hconnected. split.
  - intros amountStr description wei data Hwei Hdata.
    unfold App.handleCreateDonation.
    unfold bind at 1, read_ui at 1. unfold bind at 1, read_ui at 1.
    rewrite Hconnected, Hprovider.
    exact (guarded_flow
             (fun amountInWei =>
                encodeFunctionData FUNDING_ABI "createDonation"
                  (Some [JBigInt amountInWei; JStr description]))
             amountStr request (App.account (ui w))
             "Failed to create donation" wei data w Hwei Hdata).
  - intros id amountStr wei data Hwei Hdata.
    unfold App.handleDonate.
    unfold bind at 1, read_ui at 1. unfold bind at 1, read_ui at 1.
    rewrite Hconnected, Hprovider.
    exact (guarded_flow
             (fun amountInWei =>
                encodeFunctionData FUNDING_ABI "donate"
                  (Some [JBigInt id; JBigInt amountInWei]))
             amountStr request (App.account (ui w))
             "Failed to process donation" wei data w Hwei Hdata).
Qed.

(** Once the batch is submitted, a poll that brings no status ends the
    handler at once.  Whether the provider rejects the poll or answers it
    with [null] or [undefined], no further poll or wait is made, the error
    is rethrown after the text shown for it (the message of an [Error],
    the handler's own text for any other value) is put in the error state,
    [refreshTrigger] is not raised and [isLoading] is lowered last -- the
    submitted batch is no longer followed. *)
Theorem handlers_abort_on_poll_failure (w : World App.State) (request : RequestFn) :
  App.provider (ui w) = ProviderObj request ->
  App.not_connected (App.provider (ui w)) (App.account (ui w)) = false ->
  (forall amountStr description wei data,
      App.amountInWei_of amountStr = inr wei ->
      encodeFunctionData FUNDING_ABI "createDonation"
        (Some [JBigInt wei; JStr description]) = inr data ->
      poll_failure_outcomes request (handler_request (App.account (ui w)) data)
        "Failed to create donation" w
        (App.handleCreateDonation amountStr description w))
  /\ (forall id amountStr wei data,
      App.amountInWei_of amountStr = inr wei ->
      encodeFunctionData FUNDING_ABI "donate"
        (Some [JBigInt id; JBigInt wei]) = inr data ->
      poll_failure_outcomes request (handler_request (App.account (ui w)) data)
        "Failed to process donation" w
        (App.handleDonate id amountStr w)).
Proof.
  intros Hprovider Hconnected. split.
  - intros amountStr description wei data Hwei Hdata.
    unfold App.handleCreateDonation.
    unfold bind at 1, read_ui at 1. unfold bind at 1, read_ui at 1.
    rewrite Hconnected, Hprovider.
    exact (guarded_poll_failure
             (fun amountInWei =>
                encodeFunctionData FUNDING_ABI "createDonation"
                  (Some [JBigInt amountInWei; JStr description]))
             amountStr request (App.account (ui w))
             "Failed to create donation" wei data w Hwei Hdata).
  - intros id amountStr wei data Hwei Hdata.
    unfold App.handleDonate.
    unfold bind at 1, read_ui at 1. unfold bind at 1, read_ui at 1.
    rewrite Hconnected, Hprovider.
    exact (guarded_poll_failure
             (fun amountInWei =>
                encodeFunctionData FUNDING_ABI "donate"
                  (Some [JBigInt id; JBigInt amountInWei]))
             amountStr request (App.account (ui w))
             "Failed to process donation" wei data w Hwei Hdata).
Qed.

(** An amount that does not convert never reaches the wallet: when
    [BigInt(Math.floor(parseFloat(amountStr) * 1e18))] throws, as it does
    for a text that [parseFloat] reads as NaN or as an infinity, the
    handler records the error, issues no request at all and rethrows. *)
Theorem handlers_reject_bad_amounts (w : World App.State) (amountStr : string) :
  App.not_connected (App.provider (ui w)) (App.account (ui w)) = false ->
  (forall e,
      App.amountInWei_of amountStr = inl e ->
      (forall description,
          App.handleCreateDonation amountStr description w
          = thrown_after "Failed to create donation" w e (started_history w))
      /\ (forall id,
          App.handleDonate id amountStr w
          = thrown_after "Failed to process donation" w e (started_history w)))
  /\ (parseFloat amountStr = S754_nan \/
      (exists s, parseFloat amountStr = S754_infinity s) ->
      App.amountInWei_of amountStr
      = inl (new_RangeError (engine_message (NotAnInteger (parseFloat amountStr))))).
Proof.
  intros Hconnected. split.
  - intros e He. split.
    + intros description. unfold App.handleCreateDonation.
      unfold bind at 1, read_ui at 1. unfold bind at 1, read_ui at 1.
      rewrite Hconnected. rewrite guarded_attempt_run.
      rewrite He. unfold bind at 1 2. cbn [lift throw fst snd guarded_completion].
      unfold thrown_after, settled_state. cbn. reflexivity.
    + intros id. unfold App.handleDonate.
      unfold bind at 1, read_ui at 1. unfold bind at 1, read_ui at 1.
      rewrite Hconnected. rewrite guarded_attempt_run.
      rewrite He. unfold bind at 1 2. cbn [lift throw fst snd guarded_completion].
      unfold thrown_after, settled_state. cbn. reflexivity.
  - intros [Hnan | [s Hinf]]; unfold App.amountInWei_of.
    + rewrite Hnan. reflexivity.
    + rewrite Hinf. destruct s; reflexivity.
Qed.

(** Without a provider, or without an account, a handler only records
    [Wallet not connected]: it returns normally, issues no request, and
    leaves [isLoading] and [refreshTrigger] as they are. *)
Theorem handlers_refuse_without_wallet (w : World App.State) :
  App.provider (ui w) = ProviderNull \/
  App.account (ui w) = None \/
  App.account (ui w) = Some "" ->
  let refused :=
    (Ok tt,
     mkWorld (log w ++ [EvSetState "error" (JStr "Wallet not connected")])
       {| App.account := App.account (ui w);
          App.provider := App.provider (ui w);
          App.sdk := App.sdk (ui w);
          App.error := "Wallet not connected";
          App.isLoading := App.isLoading (ui w);
          App.refreshTrigger := App.refreshTrigger (ui w) |}) in
  (forall amountStr description,
      App.handleCreateDonation amountStr description w = refused)
  /\ (forall id amountStr, App.handleDonate id amountStr w = refused).
Proof.
  intros Hmissing refused.
  assert (Hnc : App.not_connected (App.provider (ui w)) (App.account (ui w)) = true).
  { destruct Hmissing as [Hp | [Ha | Ha]].
    - rewrite Hp. reflexivity.
    - rewrite Ha. destruct (App.provider (ui w)); reflexivity.
    - rewrite Ha. destruct (App.provider (ui w)); reflexivity. }
  split; intros.
  - unfold App.handleCreateDonation.
    unfold bind at 1, read_ui at 1. unfold bind at 1, read_ui at 1.
    rewrite Hnc. reflexivity.
  - unfold App.handleDonate.
    unfold bind at 1, read_ui at 1. unfold bind at 1, read_ui at 1.
    rewrite Hnc. reflexivity.
Qed.
End HandlerFlow.

(* ================================================================== *)
(** * Further properties: the other contract reads                    *)
(* ================================================================== *)

Section MoreContractReads.
Context {RT : Runtime} {CH : Chain} {CFG : Config} {U : Type}.

(** [getTotalDonated(id)] performs exactly one [readContract] call, for
    [getTotalDonated] with argument [id], and nothing else.  A bigint
    answer is returned as it is, a rejection is passed on, and an answer
    of [null] or [undefined] raises the engine's TypeError. *)
Theorem getTotalDonated_passes_through (id : Z) (w : World U) :
  let c := getTotalDonated_call id in
  snd (getTotalDonated id w) = mkWorld (log w ++ [EvReadContract c]) (ui w)
  /\ (forall z, readContract (log w) c = Resolve (JBigInt z) ->
                fst (getTotalDonated id w) = Ok z)
  /\ (forall e, readContract (log w) c = Reject e ->
                fst (getTotalDonated id w) = Throw e)
  /\ (forall v, readContract (log w) c = Resolve v ->
                v = JNull \/ v = JUndefined ->
                fst (getTotalDonated id w)
                = Throw (new_TypeError (engine_message (NoBigIntConversion v)))).
Proof.
  intros c. unfold getTotalDonated. fold (getTotalDonated_call id). fold c.
  unfold bind. rewrite client_readContract_run.
  repeat split.
  - destruct (readContract (log w) c) as [v | e]; [ | reflexivity].
    destruct (BigInt v); reflexivity.
  - intros z Hr. rewrite Hr. reflexivity.
  - intros e Hr. rewrite Hr. reflexivity.
  - intros v Hr [-> | ->]; rewrite Hr; reflexivity.
Qed.

(** [getDonation] insists on the three amounts but not on the two texts:
    an answer of [null] or [undefined], or an object lacking
    [targetAmount], [totalDonated] or [timestamp], makes it throw, while
    an object that only lacks [creator] and [description] is returned
    with [undefined] in their place. *)
Theorem getDonation_on_incomplete_answers (id : Z) (w : World U) (result : JsVal) :
  readContract (log w) (getDonation_call id) = Resolve result ->
  (result = JNull \/ result = JUndefined ->
   fst (getDonation id w)
   = Throw (new_TypeError (engine_message (ReadOfNullish result "targetAmount"))))
  /\ (forall fields,
      result = JObj fields ->
      lookup_field "targetAmount" fields = None \/
      lookup_field "totalDonated" fields = None \/
      lookup_field "timestamp" fields = None ->
      exists e, fst (getDonation id w) = Throw e)
  /\ (forall target total stamp,
      result = JObj [ ("targetAmount", JBigInt target);
                      ("totalDonated", JBigInt total);
                      ("timestamp", JBigInt stamp) ] ->
      fst (getDonation id w)
      = Ok {| targetAmount := target; totalDonated := total; creator := JUndefined;
              timestamp := stamp; description := JUndefined |}).
Proof.
  intros Hr.
  assert (Hstart : forall result',
            result' = result ->
            getDonation id w
            = (x1 <- lift (get_prop result' "targetAmount") ;;
               targetAmount <- lift (BigInt x1) ;;
               x2 <- lift (get_prop result' "totalDonated") ;;
               totalDonated <- lift (BigInt x2) ;;
               creator <- lift (get_prop result' "creator") ;;
               x3 <- lift (get_prop result' "timestamp") ;;
               timestamp <- lift (BigInt x3) ;;
               description <- lift (get_prop result' "description") ;;
               ret {| targetAmount := targetAmount;
                      totalDonated := totalDonated;
                      creator := creator;
                      timestamp := timestamp;
                      description := description |})
                (mkWorld (log w ++ [EvReadContract (getDonation_call id)]) (ui w))).
  { intros result' ->. unfold getDonation. fold (getDonation_call id).
    unfold bind at 1. rewrite client_readContract_run, Hr. reflexivity. }
  split; [ | split].
  - intros [E | E]; rewrite (Hstart _ (eq_sym E)), E; reflexivity.
  - intros fields E Hmissing. rewrite (Hstart _ (eq_sym E)).
    unfold get_prop.
    destruct (lookup_field "targetAmount" fields) as [x1 | ] eqn:H1.
    2: { eexists. reflexivity. }
    unfold bind at 1. cbn [lift ret].
    unfold bind at 1. destruct (BigInt x1) as [e1 | t1]; [eexists; reflexivity | ].
    cbn [lift ret].
    destruct (lookup_field "totalDonated" fields) as [x2 | ] eqn:H2.
    2: { eexists. reflexivity. }
    unfold bind at 1. cbn [lift ret].
    unfold bind at 1. destruct (BigInt x2) as [e2 | t2]; [eexists; reflexivity | ].
    cbn [lift ret].
    unfold bind at 1.
    destruct (lookup_field "creator" fields) as [who | ]; cbn [lift ret].
    all: destruct (lookup_field "timestamp" fields) as [x3 | ] eqn:H3;
      [ | eexists; reflexivity].
    all: destruct Hmissing as [Hm | [Hm | Hm]]; discriminate Hm.
  - intros target total stamp E. rewrite (Hstart _ (eq_sym E)). reflexivity.
Qed.
End MoreContractReads.

(* ================================================================== *)
(** * Further properties: connecting and disconnecting the wallet     *)
(* ================================================================== *)

Section Connecting.
Context {CFG : Config} {WS : App.WalletService}.

(** The whole of a connection attempt, read off the three calls it
    makes. *)
Lemma handleConnectWallet_run (w : World App.State) :
  let h0 := started_history w in
  let failed (history : list Event) (e : Exn) : Result unit * World App.State :=
    let message := shown_message "Failed to connect wallet" e in
    (Ok tt,
     mkWorld (history ++ disconnects_with message)
             (disconnected_state (ui w) message)) in
  let stuck (history : list Event) : Result unit * World App.State :=
    (OutOfFuel, mkWorld history (loading_state (ui w))) in
  App.handleConnectWallet w =
  match App.connectWallet h0 with
  | (Throw e, evs1) => failed (h0 ++ evs1)%list e
  | (OutOfFuel, evs1) => stuck (h0 ++ evs1)%list
  | (Ok c, evs1) =>
      match App.switchToBaseSepolia (App.connectedProvider c) (h0 ++ evs1)%list with
      | (Throw e, evs2) => failed (h0 ++ evs1 ++ evs2)%list e
      | (OutOfFuel, evs2) => stuck (h0 ++ evs1 ++ evs2)%list
      | (Ok s, evs2) =>
          if truthy s then
            match App.checkPaymasterService VITE_PAYMASTER_SERVICE_URL
                    (App.connectedProvider c) (h0 ++ evs1 ++ evs2)%list with
            | (Throw e, evs3) => failed (h0 ++ evs1 ++ evs2 ++ evs3)%list e
            | (OutOfFuel, evs3) => stuck (h0 ++ evs1 ++ evs2 ++ evs3)%list
            | (Ok v, evs3) =>
                if truthy v then
                  (Ok tt,
                   mkWorld (h0 ++ evs1 ++ evs2 ++ evs3 ++ connects_with c)%list
                           (connected_state (ui w) c))
                else
                  failed (h0 ++ evs1 ++ evs2 ++ evs3)%list
                    (new_Error "Paymaster service not properly configured")
            end
          else
            failed (h0 ++ evs1 ++ evs2)%list
              (new_Error "Failed to switch to Base Sepolia network")
      end
  end.
Proof.
  intros h0 failed stuck.
  assert (Hstart : forall (body : App.M unit) handler cleanup,
    (App.setError "" ;; App.setIsLoading true ;;
     try_finally (try_catch body handler) cleanup) w
    = try_finally (try_catch body handler) cleanup
        (mkWorld h0 (loading_state (ui w)))).
  { intros body handler cleanup.
    unfold bind at 1. unfold App.setError at 1, bind at 1, update_ui, emit.
    cbn [log ui]. unfold bind at 1.
    unfold App.setIsLoading at 1, bind at 1, update_ui, emit.
    cbn [log ui App.error App.account App.provider App.sdk App.isLoading
         App.refreshTrigger].
    rewrite <- app_assoc. reflexivity. }
  unfold App.handleConnectWallet. rewrite Hstart. clear Hstart.
  match goal with
  | |- context [try_finally (try_catch ?b ?h) ?c ?w0] =>
      set (body := b); set (handler := h); set (w0' := w0)
  end.
  assert (Hthrown : forall e l,
            body w0' = (Throw e, mkWorld l (loading_state (ui w))) ->
            try_finally (try_catch body handler) (App.setIsLoading false) w0'
            = failed l e).
  { intros e l Hb. unfold try_finally, try_catch. rewrite Hb.
    unfold handler, failed, bind, App.setError, App.setIsLoading, App.setAccount,
      App.setProvider, App.setSdk, bind, update_ui, emit.
    cbn. rewrite <- !app_assoc. reflexivity. }
  assert (Hstuck : forall l,
            body w0' = (OutOfFuel, mkWorld l (loading_state (ui w))) ->
            try_finally (try_catch body handler) (App.setIsLoading false) w0'
            = stuck l).
  { intros l Hb. unfold try_finally, try_catch. rewrite Hb. reflexivity. }
  destruct (App.connectWallet h0) as [[c | e | ] evs1] eqn:H1.
  2: { apply Hthrown. unfold body, w0'. unfold bind at 1, call at 1. cbn [log ui].
       rewrite H1. reflexivity. }
  2: { apply Hstuck. unfold body, w0'. unfold bind at 1, call at 1. cbn [log ui].
       rewrite H1. reflexivity. }
  destruct (App.switchToBaseSepolia (App.connectedProvider c) (h0 ++ evs1)%list)
    as [[s | e | ] evs2] eqn:H2.
  2: { apply Hthrown. unfold body, w0'. unfold bind at 1, call at 1. cbn [log ui].
       rewrite H1. cbv zeta. unfold bind at 1, call at 1. cbn [log ui].
       rewrite H2. rewrite <- app_assoc. reflexivity. }
  2: { apply Hstuck. unfold body, w0'. unfold bind at 1, call at 1. cbn [log ui].
       rewrite H1. cbv zeta. unfold bind at 1, call at 1. cbn [log ui].
       rewrite H2. rewrite <- app_assoc. reflexivity. }
  assert (Hswitched :
    body w0'
    = ((if negb (truthy s)
        then throw (new_Error "Failed to switch to Base Sepolia network")
        else ret tt) ;;
       isPaymasterValid <-
         call (App.checkPaymasterService VITE_PAYMASTER_SERVICE_URL
                 (App.connectedProvider c)) ;;
       (if negb (truthy isPaymasterValid)
        then throw (new_Error "Paymaster service not properly configured")
        else ret tt) ;;
       App.setAccount (App.address c) ;;
       App.setProvider (App.connectedProvider c) ;;
       App.setSdk (App.connectedSdk c) ;;
       App.setError "")
        (mkWorld (h0 ++ evs1 ++ evs2) (loading_state (ui w)))).
  { unfold body, w0'. unfold bind at 1, call at 1. cbn [log ui].
    rewrite H1. cbv zeta. unfold bind at 1, call at 1. cbn [log ui].
    rewrite H2. rewrite <- app_assoc. reflexivity. }
  destruct (truthy s) eqn:Hs.
  2: { apply Hthrown. rewrite Hswitched; try rewrite Hs. reflexivity. }
  destruct (App.checkPaymasterService VITE_PAYMASTER_SERVICE_URL
              (App.connectedProvider c) (h0 ++ evs1 ++ evs2)%list)
    as [[v | e | ] evs3] eqn:H3.
  2: { apply Hthrown. rewrite Hswitched; try rewrite Hs. unfold bind at 1. cbn [negb ret].
       unfold bind at 1, call at 1. cbn [log ui]. rewrite H3.
       rewrite <- !app_assoc. reflexivity. }
  2: { apply Hstuck. rewrite Hswitched; try rewrite Hs. unfold bind at 1. cbn [negb ret].
       unfold bind at 1, call at 1. cbn [log ui]. rewrite H3.
       rewrite <- !app_assoc. reflexivity. }
  assert (Hchecked :
    body w0'
    = ((if negb (truthy v)
        then throw (new_Error "Paymaster service not properly configured")
        else ret tt) ;;
       App.setAccount (App.address c) ;;
       App.setProvider (App.connectedProvider c) ;;
       App.setSdk (App.connectedSdk c) ;;
       App.setError "")
        (mkWorld (h0 ++ evs1 ++ evs2 ++ evs3) (loading_state (ui w)))).
  { rewrite Hswitched; try rewrite Hs. unfold bind at 1. cbn [negb ret].
    unfold bind at 1, call at 1. cbn [log ui]. rewrite H3.
    rewrite <- !app_assoc. reflexivity. }
  destruct (truthy v) eqn:Hv.
  2: { apply Hthrown. rewrite Hchecked; try rewrite Hv. reflexivity. }
  unfold try_finally, try_catch. rewrite Hchecked; try rewrite Hv.
  unfold bind, App.setError, App.setIsLoading, App.setAccount,
    App.setProvider, App.setSdk, bind, update_ui, emit, ret, connects_with.
  cbn. rewrite <- !app_assoc. reflexivity.
Qed.

(** A connection attempt is all or nothing, and never throws.  If it
    returns, then either [connectWallet] resolved with a connection, the
    switch to Base Sepolia and the paymaster check both came back truthy,
    and account, provider and sdk are those of that very connection, with
    an empty error; or one of the three did not go through, and account,
    provider and sdk are all null, with an error text.  Either way
    [isLoading] is lowered last and [refreshTrigger] is as it was.  If one
    of the three calls never comes back, [isLoading] stays raised. *)
Theorem handleConnectWallet_all_or_nothing (w : World App.State) :
  let h0 := started_history w in
  let run := App.handleConnectWallet w in
  match fst run with
  | Ok _ =>
      (exists c evs,
          connection_checked h0 c evs
          /\ snd run = mkWorld (h0 ++ evs ++ connects_with c)%list
                               (connected_state (ui w) c))
      \/ ((forall c evs, ~ connection_checked h0 c evs)
          /\ exists message history,
               snd run = mkWorld (history ++ disconnects_with message)%list
                                 (disconnected_state (ui w) message))
  | Throw _ => False
  | OutOfFuel =>
      (forall c evs, ~ connection_checked h0 c evs)
      /\ ui (snd run) = loading_state (ui w)
  end.
Proof.
  intros h0 run. unfold run. rewrite handleConnectWallet_run. cbv zeta. fold h0.
  assert (Hnot1 : forall r evs1,
            App.connectWallet h0 = (r, evs1) ->
            (forall c, r <> Ok c) ->
            forall c evs, ~ connection_checked h0 c evs).
  { intros r evs1 H1 Hr c evs (e1 & s & e2 & v & e3 & Hc & _).
    rewrite H1 in Hc. injection Hc as Hc _. exact (Hr c Hc). }
  destruct (App.connectWallet h0) as [[c | e | ] evs1] eqn:H1; cbn [fst snd].
  2: { right. split; [apply (Hnot1 _ _ eq_refl); discriminate | ].
       eexists _, _. reflexivity. }
  2: { split; [apply (Hnot1 _ _ eq_refl); discriminate | reflexivity]. }
  clear Hnot1.
  assert (Hnot2 : forall r evs2,
            App.switchToBaseSepolia (App.connectedProvider c) (h0 ++ evs1)%list
            = (r, evs2) ->
            (forall s, r = Ok s -> truthy s = false) ->
            forall c' evs, ~ connection_checked h0 c' evs).
  { intros r evs2 H2 Hr c' evs (e1 & s & e2 & v & e3 & Hc & Hsw & Hs & _).
    rewrite H1 in Hc. injection Hc as <- <-.
    rewrite H2 in Hsw. injection Hsw as Hsw _.
    rewrite (Hr s Hsw) in Hs. discriminate Hs. }
  destruct (App.switchToBaseSepolia (App.connectedProvider c) (h0 ++ evs1)%list)
    as [[s | e | ] evs2] eqn:H2; cbn [fst snd].
  2: { right. split; [apply (Hnot2 _ _ eq_refl); discriminate | ].
       eexists _, _. reflexivity. }
  2: { split; [apply (Hnot2 _ _ eq_refl); discriminate | reflexivity]. }
  destruct (truthy s) eqn:Hs.
  2: { right. split.
       - apply (Hnot2 _ _ eq_refl). intros s' Hs'. injection Hs' as <-. exact Hs.
       - eexists _, _. reflexivity. }
  clear Hnot2.
  assert (Hnot3 : forall r evs3,
            App.checkPaymasterService VITE_PAYMASTER_SERVICE_URL
              (App.connectedProvider c) (h0 ++ evs1 ++ evs2)%list = (r, evs3) ->
            (forall v, r = Ok v -> truthy v = false) ->
            forall c' evs, ~ connection_checked h0 c' evs).
  { intros r evs3 H3 Hr c' evs (e1 & s' & e2 & v & e3 & Hc & Hsw & _ & Hck & Hv & _).
    rewrite H1 in Hc. injection Hc as <- <-.
    rewrite H2 in Hsw. injection Hsw as <- <-.
    rewrite H3 in Hck. injection Hck as Hck _.
    rewrite (Hr v Hck) in Hv. discriminate Hv. }
  destruct (App.checkPaymasterService VITE_PAYMASTER_SERVICE_URL
              (App.connectedProvider c) (h0 ++ evs1 ++ evs2)%list)
    as [[v | e | ] evs3] eqn:H3; cbn [fst snd].
  2: { right. split; [apply (Hnot3 _ _ eq_refl); discriminate | ].
       eexists _, _. reflexivity. }
  2: { split; [apply (Hnot3 _ _ eq_refl); discriminate | reflexivity]. }
  destruct (truthy v) eqn:Hv; cbn [fst snd].
  - left. exists c, (evs1 ++ evs2 ++ evs3)%list. split.
    + exists evs1, s, evs2, v, evs3. repeat split; assumption.
    + rewrite <- !app_assoc. reflexivity.
  - right. split.
    + apply (Hnot3 _ _ eq_refl). intros v' Hv'. injection Hv' as <-. exact Hv.
    + eexists _, _. reflexivity.
Qed.

(** What decides a connection attempt, step by step.  A rejected
    [connectWallet] ends it with the text shown for the rejection (the
    message of an [Error], [Failed to connect wallet] otherwise), and so
    do a rejected switch to Base Sepolia and a rejected paymaster check; a
    falsy switch ends it with [Failed to switch to Base Sepolia network]
    before the paymaster is checked, a falsy check with [Paymaster service
    not properly configured].  Each of these leaves account, provider and
    sdk null.  Only a truthy switch followed by a truthy check stores the
    connection. *)
Theorem handleConnectWallet_outcomes (w : World App.State) :
  let h0 := started_history w in
  let failed (history : list Event) (message : string) :=
    (Ok tt,
     mkWorld (history ++ disconnects_with message)%list
             (disconnected_state (ui w) message)) in
  (forall e evs1,
      App.connectWallet h0 = (Throw e, evs1) ->
      App.handleConnectWallet w
      = failed (h0 ++ evs1)%list (shown_message "Failed to connect wallet" e))
  /\ (forall c evs1,
      App.connectWallet h0 = (Ok c, evs1) ->
      let switch :=
        App.switchToBaseSepolia (App.connectedProvider c) (h0 ++ evs1)%list in
      (forall e evs2,
          switch = (Throw e, evs2) ->
          App.handleConnectWallet w
          = failed (h0 ++ evs1 ++ evs2)%list
              (shown_message "Failed to connect wallet" e))
      /\ (forall s evs2,
          switch = (Ok s, evs2) ->
          truthy s = false ->
          App.handleConnectWallet w
          = failed (h0 ++ evs1 ++ evs2)%list
              "Failed to switch to Base Sepolia network")
      /\ (forall s evs2,
          switch = (Ok s, evs2) ->
          truthy s = true ->
          let check :=
            App.checkPaymasterService VITE_PAYMASTER_SERVICE_URL
              (App.connectedProvider c) (h0 ++ evs1 ++ evs2)%list in
          (forall e evs3,
              check = (Throw e, evs3) ->
              App.handleConnectWallet w
              = failed (h0 ++ evs1 ++ evs2 ++ evs3)%list
                  (shown_message "Failed to connect wallet" e))
          /\ (forall v evs3,
              check = (Ok v, evs3) ->
              truthy v = false ->
              App.handleConnectWallet w
              = failed (h0 ++ evs1 ++ evs2 ++ evs3)%list
                  "Paymaster service not properly configured")
          /\ (forall v evs3,
              check = (Ok v, evs3) ->
              truthy v = true ->
              App.handleConnectWallet w
              = (Ok tt,
                 mkWorld (h0 ++ evs1 ++ evs2 ++ evs3 ++
                          [ EvSetState "account" (App.account_value (App.address c));
                            EvSetState "provider"
                              (App.provider_value (App.connectedProvider c));
                            EvSetState "sdk" (App.connectedSdk c);
                            EvSetState "error" (JStr "");
                            EvSetState "isLoading" (JBool false) ])%list
                         (connected_state (ui w) c))))).
Proof.
  intros h0 failed.
  pose proof (handleConnectWallet_run w) as Hrun. cbv zeta in Hrun. fold h0 in Hrun.
  split.
  - intros e evs1 H1. rewrite Hrun, H1. reflexivity.
  - intros c evs1 H1 switch. rewrite H1 in Hrun. split; [ | split].
    + intros e evs2 H2. unfold switch in H2. rewrite Hrun, H2. reflexivity.
    + intros s evs2 H2 Hs. unfold switch in H2. rewrite Hrun, H2, Hs. reflexivity.
    + intros s evs2 H2 Hs check. unfold switch in H2. rewrite H2, Hs in Hrun.
      split; [ | split].
      * intros e evs3 H3. unfold check in H3. rewrite Hrun, H3. reflexivity.
      * intros v evs3 H3 Hv. unfold check in H3. rewrite Hrun, H3, Hv. reflexivity.
      * intros v evs3 H3 Hv. unfold check in H3. rewrite Hrun, H3, Hv. reflexivity.
Qed.

(** Disconnecting never throws and never touches [isLoading] or
    [refreshTrigger].  With a falsy sdk nothing is called; when
    [disconnectWallet] is not needed or resolves, account, provider, sdk
    and error are cleared, after which both donation handlers refuse;
    when it rejects, the connection is kept as it was and only the error
    is set. *)
Theorem handleDisconnect_outcomes (w : World App.State) :
  (truthy (App.sdk (ui w)) = false ->
   App.handleDisconnect w = (Ok tt, mkWorld (log w ++ clears)%list (cleared_state (ui w))))
  /\ (forall v evs,
      truthy (App.sdk (ui w)) = true ->
      App.disconnectWallet (App.sdk (ui w)) (log w) = (Ok v, evs) ->
      App.handleDisconnect w
      = (Ok tt, mkWorld (log w ++ evs ++ clears)%list (cleared_state (ui w))))
  /\ (forall e evs,
      truthy (App.sdk (ui w)) = true ->
      App.disconnectWallet (App.sdk (ui w)) (log w) = (Throw e, evs) ->
      let message := shown_message "Failed to disconnect" e in
      App.handleDisconnect w
      = (Ok tt,
         mkWorld (log w ++ evs ++ [EvSetState "error" (JStr message)])%list
           {| App.account := App.account (ui w);
              App.provider := App.provider (ui w);
              App.sdk := App.sdk (ui w);
              App.error := message;
              App.isLoading := App.isLoading (ui w);
              App.refreshTrigger := App.refreshTrigger (ui w) |}))
  /\ App.not_connected (App.provider (cleared_state (ui w)))
                       (App.account (cleared_state (ui w))) = true.
Proof.
  unfold App.handleDisconnect, try_catch.
  split; [ | split; [ | split]].
  - intros Hs. unfold bind at 1, read_ui. cbn [ui]. rewrite Hs.
    unfold bind, App.setError, App.setAccount, App.setProvider,
      App.setSdk, bind, update_ui, emit, ret.
    cbn. rewrite <- !app_assoc. reflexivity.
  - intros v evs Hs Hd. unfold bind at 1, read_ui. cbn [ui]. rewrite Hs.
    unfold bind at 1. unfold bind at 1, call at 1. rewrite Hd.
    unfold bind, App.setError, App.setAccount, App.setProvider,
      App.setSdk, bind, update_ui, emit, ret.
    cbn. rewrite <- !app_assoc. reflexivity.
  - intros e evs Hs Hd. unfold bind at 1, read_ui. cbn [ui]. rewrite Hs.
    unfold bind at 1. unfold bind at 1, call at 1. rewrite Hd.
    unfold bind, App.setError, bind, update_ui, emit.
    cbn. rewrite <- !app_assoc. reflexivity.
  - reflexivity.
Qed.
End Connecting.

(* ================================================================== *)
(** * Further properties: the submit handlers of the two forms        *)
(* ================================================================== *)

Section Forms.

Lemma call_run {U X} (f : External X) (w : World U) :
  call f w = (fst (f (log w)), mkWorld (log w ++ snd (f (log w))) (ui w)).
Proof. unfold call. destruct (f (log w)); reflexivity. Qed.

Lemma skipn_past {A} (h l : list A) : skipn (List.length h) (h ++ l) = l.
Proof. induction h as [ | x h IH]; [reflexivity | exact IH]. Qed.

(** The card's submit handler up to its [try]: after [preventDefault],
    either nothing at all, or [isSubmitting] raised and the error cleared. *)
Lemma card_handleDonate_started
    (id : Z) (onDonate : Z -> string -> External unit) (e : FormEvent)
    (w : World DonationCard.State) (evs0 : list Event) :
  preventDefault e (log w) = (Ok tt, evs0) ->
  let amount := DonationCard.donateAmount (ui w) in
  let h0 := (log w ++ evs0)%list in
  let h1 := (h0 ++ [EvSetState "isSubmitting" (JBool true);
                    EvSetState "error" (JStr "")])%list in
  DonationCard.handleDonate id onDonate e w
  = if (amount =? "")%string then (Ok tt, mkWorld h0 (ui w))
    else
      try_finally
        (try_catch
           (call (onDonate id amount) ;; DonationCard.setDonateAmount "")
           (fun err => DonationCard.setError (App.message_or "Donation failed" err)))
        (DonationCard.setIsSubmitting false)
        (mkWorld h1 {| DonationCard.donateAmount := amount;
                       DonationCard.isSubmitting := true;
                       DonationCard.error := "" |}).
Proof.
  intros Hprevent amount h0 h1.
  unfold DonationCard.handleDonate. unfold bind at 1. rewrite call_run, Hprevent.
  cbn [fst snd]. unfold bind at 1, read_ui. cbn [ui]. fold amount. fold h0.
  destruct (amount =? "")%string; [reflexivity | ].
  unfold bind at 1.
  unfold DonationCard.setIsSubmitting at 1, bind at 1, update_ui, emit.
  cbn [log ui]. unfold bind at 1.
  unfold DonationCard.setError at 1, bind at 1, update_ui, emit.
  cbn [log ui DonationCard.donateAmount DonationCard.isSubmitting
       DonationCard.error].
  fold amount. unfold h1. rewrite <- app_assoc. reflexivity.
Qed.

(** The card's submit handler never throws.  With no amount entered it
    does nothing beyond [preventDefault]: [onDonate] is not called.
    Otherwise it raises [isSubmitting], clears the error and calls
    [onDonate(id, amount)] once; when that resolves the amount field is
    emptied, when it rejects the amount is kept and the error shows the
    message; [isSubmitting] is lowered either way.  Whenever the button is
    enabled, an amount has been entered. *)
Theorem card_handleDonate_outcomes
    (id : Z) (onDonate : Z -> string -> External unit) (e : FormEvent)
    (w : World DonationCard.State) (evs0 : list Event) :
  preventDefault e (log w) = (Ok tt, evs0) ->
  let amount := DonationCard.donateAmount (ui w) in
  let h0 := (log w ++ evs0)%list in
  let h1 := (h0 ++ [EvSetState "isSubmitting" (JBool true);
                    EvSetState "error" (JStr "")])%list in
  (amount = "" ->
   DonationCard.handleDonate id onDonate e w = (Ok tt, mkWorld h0 (ui w)))
  /\ ((amount =? "")%string = false ->
      (forall evs,
          onDonate id amount h1 = (Ok tt, evs) ->
          DonationCard.handleDonate id onDonate e w
          = (Ok tt,
             mkWorld (h1 ++ evs ++ [EvSetState "donateAmount" (JStr "");
                                    EvSetState "isSubmitting" (JBool false)])
               {| DonationCard.donateAmount := "";
                  DonationCard.isSubmitting := false;
                  DonationCard.error := "" |}))
      /\ (forall err evs,
          onDonate id amount h1 = (Throw err, evs) ->
          let message := shown_message "Donation failed" err in
          DonationCard.handleDonate id onDonate e w
          = (Ok tt,
             mkWorld (h1 ++ evs ++ [EvSetState "error" (JStr message);
                                    EvSetState "isSubmitting" (JBool false)])
               {| DonationCard.donateAmount := amount;
                  DonationCard.isSubmitting := false;
                  DonationCard.error := message |})))
  /\ (forall isLoading,
      DonationCard.donate_disabled (ui w) isLoading = false ->
      (amount =? "")%string = false).
Proof.
  intros Hprevent amount h0 h1.
  pose proof (card_handleDonate_started id onDonate e w evs0 Hprevent) as Hstart.
  cbv zeta in Hstart. fold amount h0 h1 in Hstart.
  split; [ | split].
  - intros Hempty. rewrite Hstart, Hempty. reflexivity.
  - intros Hfilled. rewrite Hstart, Hfilled. unfold try_finally, try_catch.
    split.
    + intros evs Hcall. unfold bind at 1. rewrite call_run. cbn [log ui].
      rewrite Hcall. cbn. rewrite <- !app_assoc. reflexivity.
    + intros err evs Hcall. cbv zeta. unfold bind at 1. rewrite call_run. cbn [log ui].
      rewrite Hcall. cbn. rewrite <- !app_assoc. reflexivity.
  - intros isLoading Henabled. unfold DonationCard.donate_disabled in Henabled.
    apply orb_false_elim in Henabled. exact (proj2 Henabled).
Qed.

(** The create form's submit handler up to its [try]. *)
Lemma form_handleSubmit_started
    (onCreateDonation : string -> string -> External unit) (e : FormEvent)
    (w : World CreateDonation.Env) (evs0 : list Event) :
  preventDefault e (log w) = (Ok tt, evs0) ->
  let u := CreateDonation.state (ui w) in
  let h0 := (log w ++ evs0)%list in
  let h1 := (h0 ++ [EvSetState "isSubmitting" (JBool true);
                    EvSetState "error" (JStr "");
                    EvSetState "success" (JStr "")])%list in
  CreateDonation.handleSubmit onCreateDonation e w
  = if (CreateDonation.amount u =? "")%string
       || (CreateDonation.description u =? "")%string
    then (Ok tt, mkWorld h0 (ui w))
    else
      try_finally
        (try_catch
           (call (onCreateDonation (CreateDonation.amount u)
                    (CreateDonation.description u)) ;;
            CreateDonation.setAmount "" ;;
            CreateDonation.setDescription "" ;;
            CreateDonation.setSuccess "Donation campaign created successfully!" ;;
            CreateDonation.setTimeout (CreateDonation.with_success "") 3000)
           (fun err =>
              CreateDonation.setError
                (App.message_or "Failed to create donation" err)))
        (CreateDonation.setIsSubmitting false)
        (mkWorld h1
           {| CreateDonation.state :=
                {| CreateDonation.isExpanded := CreateDonation.isExpanded u;
                   CreateDonation.amount := CreateDonation.amount u;
                   CreateDonation.description := CreateDonation.description u;
                   CreateDonation.isSubmitting := true;
                   CreateDonation.error := "";
                   CreateDonation.success := "" |};
              CreateDonation.timers := CreateDonation.timers (ui w) |}).
Proof.
  intros Hprevent u h0 h1.
  unfold CreateDonation.handleSubmit. unfold bind at 1. rewrite call_run, Hprevent.
  cbn [fst snd]. unfold bind at 1, read_ui at 1. unfold bind at 1, read_ui at 1.
  cbn [ui]. fold u. fold h0.
  destruct ((CreateDonation.amount u =? "")%string
            || (CreateDonation.description u =? "")%string); [reflexivity | ].
  unfold bind at 1.
  unfold CreateDonation.setIsSubmitting at 1, bind at 1,
    CreateDonation.set_state, update_ui, emit.
  cbn [log ui]. unfold bind at 1.
  unfold CreateDonation.setError at 1, bind at 1,
    CreateDonation.set_state, update_ui, emit.
  cbn [log ui]. unfold bind at 1.
  unfold CreateDonation.setSuccess at 1, bind at 1,
    CreateDonation.set_state, update_ui, emit.
  cbn [log ui CreateDonation.state CreateDonation.timers
       CreateDonation.with_success CreateDonation.isExpanded
       CreateDonation.amount CreateDonation.description
       CreateDonation.isSubmitting CreateDonation.error CreateDonation.success].
  fold u. unfold h1. rewrite <- !app_assoc. reflexivity.
Qed.

(** The create form's submit handler never throws.  With the amount or
    the description missing it does nothing beyond [preventDefault].
    Otherwise it raises [isSubmitting], clears error and success and
    calls [onCreateDonation(amount, description)] once.  When that
    resolves, both fields are emptied, the success message is shown and
    one timer of 3000 ms is set whose only effect is to clear the success
    message; when it rejects, the fields are kept, the error shows the
    message and no timer is set.  [isSubmitting] is lowered either way. *)
Theorem form_handleSubmit_outcomes
    (onCreateDonation : string -> string -> External unit) (e : FormEvent)
    (w : World CreateDonation.Env) (evs0 : list Event) :
  preventDefault e (log w) = (Ok tt, evs0) ->
  let u := CreateDonation.state (ui w) in
  let h0 := (log w ++ evs0)%list in
  let h1 := (h0 ++ [EvSetState "isSubmitting" (JBool true);
                    EvSetState "error" (JStr "");
                    EvSetState "success" (JStr "")])%list in
  (CreateDonation.amount u = "" \/ CreateDonation.description u = "" ->
   CreateDonation.handleSubmit onCreateDonation e w = (Ok tt, mkWorld h0 (ui w)))
  /\ ((CreateDonation.amount u =? "")%string = false ->
      (CreateDonation.description u =? "")%string = false ->
      (forall evs,
          onCreateDonation (CreateDonation.amount u) (CreateDonation.description u) h1
          = (Ok tt, evs) ->
          CreateDonation.handleSubmit onCreateDonation e w
          = (Ok tt,
             mkWorld (h1 ++ evs ++
                      [EvSetState "amount" (JStr "");
                       EvSetState "description" (JStr "");
                       EvSetState "success"
                         (JStr "Donation campaign created successfully!");
                       EvSetState "isSubmitting" (JBool false)])
               {| CreateDonation.state :=
                    {| CreateDonation.isExpanded := CreateDonation.isExpanded u;
                       CreateDonation.amount := "";
                       CreateDonation.description := "";
                       CreateDonation.isSubmitting := false;
                       CreateDonation.error := "";
                       CreateDonation.success :=
                         "Donation campaign created successfully!" |};
                  CreateDonation.timers :=
                    (CreateDonation.timers (ui w) ++
                     [ {| CreateDonation.delay := 3000;
                          CreateDonation.fire := CreateDonation.with_success "" |} ])%list
               |}))
      /\ (forall err evs,
          onCreateDonation (CreateDonation.amount u) (CreateDonation.description u) h1
          = (Throw err, evs) ->
          let message := shown_message "Failed to create donation" err in
          CreateDonation.handleSubmit onCreateDonation e w
          = (Ok tt,
             mkWorld (h1 ++ evs ++ [EvSetState "error" (JStr message);
                                    EvSetState "isSubmitting" (JBool false)])
               {| CreateDonation.state :=
                    {| CreateDonation.isExpanded := CreateDonation.isExpanded u;
                       CreateDonation.amount := CreateDonation.amount u;
                       CreateDonation.description := CreateDonation.description u;
                       CreateDonation.isSubmitting := false;
                       CreateDonation.error := message;
                       CreateDonation.success := "" |};
                  CreateDonation.timers := CreateDonation.timers (ui w) |})))
  /\ (forall isLoading,
      CreateDonation.submit_disabled u isLoading = false ->
      (CreateDonation.amount u =? "")%string = false
      /\ (CreateDonation.description u =? "")%string = false).
Proof.
  intros Hprevent u h0 h1.
  pose proof (form_handleSubmit_started onCreateDonation e w evs0 Hprevent) as Hstart.
  cbv zeta in Hstart. fold u h0 h1 in Hstart.
  split; [ | split].
  - intros Hempty. rewrite Hstart.
    destruct Hempty as [Ha | Hd].
    + rewrite Ha. reflexivity.
    + rewrite Hd. rewrite orb_true_r. reflexivity.
  - intros Ha Hd. rewrite Hstart, Ha, Hd. cbn [orb].
    unfold try_finally, try_catch.
    split.
    + intros evs Hcall. unfold bind at 1. rewrite call_run. cbn [log ui].
      rewrite Hcall. cbn. rewrite <- !app_assoc. reflexivity.
    + intros err evs Hcall. cbv zeta. unfold bind at 1. rewrite call_run.
      cbn [log ui]. rewrite Hcall. cbn. rewrite <- !app_assoc. reflexivity.
  - intros isLoading Henabled. unfold CreateDonation.submit_disabled in Henabled.
    apply orb_false_elim in Henabled. destruct Henabled as [Henabled Hd].
    apply orb_false_elim in Henabled. destruct Henabled as [_ Ha].
    split; assumption.
Qed.
End Forms.

Section FormsAndHandlers.
Context {RT : Runtime} {VM : Viem} {CFG : Config}.

(** Without a wallet both handlers, taken as callbacks, resolve after
    one event: the App's error. *)
Lemma refused_callbacks (u0 : App.State) (h : list Event) :
  App.provider u0 = ProviderNull \/
  App.account u0 = None \/
  App.account u0 = Some "" ->
  (forall id amountStr,
      as_callback (App.handleDonate id amountStr) u0 h
      = (Ok tt, [EvSetState "error" (JStr "Wallet not connected")]))
  /\ (forall amountStr description,
      as_callback (App.handleCreateDonation amountStr description) u0 h
      = (Ok tt, [EvSetState "error" (JStr "Wallet not connected")])).
Proof.
  intros Hmissing.
  assert (Hnc : App.not_connected (App.provider u0) (App.account u0) = true).
  { destruct Hmissing as [Hp | [Ha | Ha]].
    - rewrite Hp. reflexivity.
    - rewrite Ha. destruct (App.provider u0); reflexivity.
    - rewrite Ha. destruct (App.provider u0); reflexivity. }
  split; intros; unfold as_callback.
  - unfold App.handleDonate.
    unfold bind at 1, read_ui at 1. unfold bind at 1, read_ui at 1.
    cbn [ui]. rewrite Hnc. cbn. rewrite skipn_past. reflexivity.
  - unfold App.handleCreateDonation.
    unfold bind at 1, read_ui at 1. unfold bind at 1, read_ui at 1.
    cbn [ui]. rewrite Hnc. cbn. rewrite skipn_past. reflexivity.
Qed.

(** A refused submission looks like a successful one.  While the wallet
    is not connected the App's handlers return normally, so a form that
    calls them proceeds as after a success: the card empties its amount
    field and shows no error, and the create form empties its fields and
    shows [Donation campaign created successfully!], although no provider
    request was made. *)
Theorem refused_submission_looks_successful (u0 : App.State) :
  App.provider u0 = ProviderNull \/
  App.account u0 = None \/
  App.account u0 = Some "" ->
  (forall id e (w : World DonationCard.State) evs0,
      preventDefault e (log w) = (Ok tt, evs0) ->
      (DonationCard.donateAmount (ui w) =? "")%string = false ->
      DonationCard.handleDonate id
        (fun i a => as_callback (App.handleDonate i a) u0) e w
      = (Ok tt,
         mkWorld (log w ++ evs0 ++
                  [EvSetState "isSubmitting" (JBool true);
                   EvSetState "error" (JStr "");
                   EvSetState "error" (JStr "Wallet not connected");
                   EvSetState "donateAmount" (JStr "");
                   EvSetState "isSubmitting" (JBool false)])%list
           {| DonationCard.donateAmount := "";
              DonationCard.isSubmitting := false;
              DonationCard.error := "" |}))
  /\ (forall e (w : World CreateDonation.Env) evs0,
      preventDefault e (log w) = (Ok tt, evs0) ->
      (CreateDonation.amount (CreateDonation.state (ui w)) =? "")%string = false ->
      (CreateDonation.description (CreateDonation.state (ui w)) =? "")%string = false ->
      let run :=
        CreateDonation.handleSubmit
          (fun a d => as_callback (App.handleCreateDonation a d) u0) e w in
      fst run = Ok tt
      /\ CreateDonation.success (CreateDonation.state (ui (snd run)))
         = "Donation campaign created successfully!"
      /\ CreateDonation.error (CreateDonation.state (ui (snd run))) = ""
      /\ log (snd run)
         = (log w ++ evs0 ++
            [EvSetState "isSubmitting" (JBool true);
             EvSetState "error" (JStr "");
             EvSetState "success" (JStr "");
             EvSetState "error" (JStr "Wallet not connected");
             EvSetState "amount" (JStr "");
             EvSetState "description" (JStr "");
             EvSetState "success" (JStr "Donation campaign created successfully!");
             EvSetState "isSubmitting" (JBool false)])%list).
Proof.
  intros Hmissing. split.
  - intros id e w evs0 Hprevent Hfilled.
    rewrite (card_handleDonate_started id _ e w evs0 Hprevent). cbv zeta.
    rewrite Hfilled. unfold try_finally, try_catch.
    unfold bind at 1. rewrite call_run. cbn [log ui].
    rewrite (proj1 (refused_callbacks u0 _ Hmissing)).
    cbn. rewrite <- !app_assoc. reflexivity.
  - intros e w evs0 Hprevent Ha Hd. cbv zeta.
    pose proof (form_handleSubmit_started
                  (fun a d => as_callback (App.handleCreateDonation a d) u0)
                  e w evs0 Hprevent) as Hrun.
    cbv zeta in Hrun. rewrite Ha, Hd in Hrun. cbn [orb] in Hrun.
    unfold try_finally, try_catch in Hrun.
    unfold bind at 1 in Hrun. rewrite call_run in Hrun. cbn [log ui] in Hrun.
    rewrite (proj2 (refused_callbacks u0 _ Hmissing)) in Hrun.
    cbn in Hrun. rewrite Hrun. cbn. rewrite <- !app_assoc. repeat split.
Qed.
End FormsAndHandlers.

(* ================================================================== *)
(** * Further properties: call data that cannot be built              *)
(* ================================================================== *)

Section EncodingFailures.
Context {RT : Runtime} {VM : Viem} {CFG : Config}.

(** [sendTransaction] builds its call data before its [try]: an error of
    the encoder escapes as it is, before the provider and the paymaster
    URL are validated, without a console line and without a request.  The
    two handlers build theirs inside the [try]: the same error is rethrown
    only after the text shown for it is put in the error state and
    [isLoading] is lowered; no request is issued either. *)
Theorem encoding_failures_surface :
  (forall U provider fromAddress contractAddress paymasterUrl e (w : World U),
      encodeFunctionData REWARDS_ABI "claimReward" None = inl e ->
      sendTransaction provider fromAddress contractAddress paymasterUrl w = (Throw e, w))
  /\ (forall (w : World App.State) amountStr wei e,
      App.not_connected (App.provider (ui w)) (App.account (ui w)) = false ->
      App.amountInWei_of amountStr = inr wei ->
      (forall description,
          encodeFunctionData FUNDING_ABI "createDonation"
            (Some [JBigInt wei; JStr description]) = inl e ->
          App.handleCreateDonation amountStr description w
          = thrown_after "Failed to create donation" w e (started_history w))
      /\ (forall id,
          encodeFunctionData FUNDING_ABI "donate"
            (Some [JBigInt id; JBigInt wei]) = inl e ->
          App.handleDonate id amountStr w
          = thrown_after "Failed to process donation" w e (started_history w))).
Proof.
  split.
  - intros U provider fromAddress contractAddress paymasterUrl e w He.
    unfold sendTransaction. rewrite He. reflexivity.
  - intros w amountStr wei e Hconnected Hwei. split.
    + intros description He. unfold App.handleCreateDonation.
      unfold bind at 1, read_ui at 1. unfold bind at 1, read_ui at 1.
      rewrite Hconnected. rewrite guarded_attempt_run.
      match goal with
      | |- context [fst (?m ?w0)] => assert (Hrun : m w0 = (Throw e, w0))
      end.
      { unfold bind at 1. rewrite Hwei. cbn [lift ret].
        unfold bind at 1. rewrite He. reflexivity. }
      rewrite Hrun. cbn [fst snd guarded_completion log ui loading_state].
      unfold thrown_after, settled_state. cbn. reflexivity.
    + intros id He. unfold App.handleDonate.
      unfold bind at 1, read_ui at 1. unfold bind at 1, read_ui at 1.
      rewrite Hconnected. rewrite guarded_attempt_run.
      match goal with
      | |- context [fst (?m ?w0)] => assert (Hrun : m w0 = (Throw e, w0))
      end.
      { unfold bind at 1. rewrite Hwei. cbn [lift ret].
        unfold bind at 1. rewrite He. reflexivity. }
      rewrite Hrun. cbn [fst snd guarded_completion log ui loading_state].
      unfold thrown_after, settled_state. cbn. reflexivity.
Qed.
End EncodingFailures.

(* ================================================================== *)
(** * Further properties: loadDonations with a bigint total           *)
(* ================================================================== *)

Section LoadingEveryId.
Context {RT : Runtime} {CH : Chain} {CFG : Config}.

(** The start of [loadDonations]: two state updates and the read of the
    total, whose answer decides how the rest goes on. *)
Lemma loadDonations_asks_total (fuel : nat) (w : World DonationList.State) :
  DonationList.loadDonations fuel w
  = try_finally
      (try_catch
         (fun w1 =>
            match readContract
                    (log w ++ [EvSetState "isLoadingDonations" (JBool true);
                               EvSetState "error" (JStr "")])%list
                    totalDonations_call with
            | Resolve v =>
                (donationsList <-
                   DonationList.load_from fuel (S754_zero false) (Number v) [] ;;
                 DonationList.setDonations (rev donationsList)) w1
            | Reject e => (Throw e, w1)
            end)
         (fun err =>
            DonationList.setError (App.message_or "Failed to load donations" err)))
      (DonationList.setIsLoadingDonations false) (asked_total w).
Proof.
  unfold DonationList.loadDonations.
  unfold bind at 1. unfold DonationList.setIsLoadingDonations at 1.
  unfold bind at 1, update_ui, emit. cbn [log ui].
  unfold bind at 1. unfold DonationList.setError at 1.
  unfold bind at 1, update_ui, emit. cbn [log ui DonationList.donations
    DonationList.isLoadingDonations DonationList.error].
  unfold try_finally, try_catch. unfold bind at 1.
  rewrite getTotalDonations_run. cbn [log ui].
  unfold asked_total. rewrite <- !app_assoc. cbn [app].
  destruct (readContract _ totalDonations_call); reflexivity.
Qed.

(** When [totalDonations] answers with a bigint [z] below [2^53],
    [loadDonations] reads the donations with ids [0], ..., [z - 1], each
    once and in ascending order, never runs for ever, and shows the ones
    that loaded, highest id first, with no error; a total of zero (or
    below) reads nothing and shows the empty list. *)
Theorem loadDonations_reads_every_id
    (fuel : nat) (w : World DonationList.State) (z : Z) :
  let started :=
    (log w ++ [EvSetState "isLoadingDonations" (JBool true);
               EvSetState "error" (JStr "")])%list in
  let ids := seq 0 (Z.to_nat z) in
  readContract started totalDonations_call = Resolve (JBigInt z) ->
  z < 2 ^ 53 ->
  (Z.to_nat z <= fuel)%nat ->
  exists kept evs,
    load_in_order ids [] (asked_total w)
    = (Ok kept, mkWorld (log (asked_total w) ++ evs) (ui (asked_total w)))
    /\ reads_of evs = map (fun k => getDonation_call (Z.of_nat k)) ids
    /\ DonationList.loadDonations fuel w =
       (Ok tt,
        mkWorld (log (asked_total w) ++ evs ++
                 [EvSetState "donations"
                    (JArr (map DonationList.DonationWithId_value (rev kept)));
                  EvSetState "isLoadingDonations" (JBool false)])
                (loaded_state (rev kept) "")).
Proof.
  intros started ids Hr Hz Hfuel.
  destruct (bigint_total_counts z Hz) as [Hin Hout].
  destruct (load_in_order_reads ids [] (asked_total w)) as (kept & evs & Hrun & Hreads).
  exists kept, evs. split; [exact Hrun | split; [exact Hreads | ]].
  rewrite loadDonations_asks_total. fold started. rewrite Hr.
  unfold try_finally, try_catch. unfold bind at 1.
  change (S754_zero false) with (counter 0).
  rewrite (load_from_in_order (Number (JBigInt z)) (Z.to_nat z) fuel 0 [] (asked_total w))
    by (try exact Hfuel; try exact Hout; intros k Hk; apply Hin; lia).
  fold ids. rewrite Hrun. cbn. rewrite <- !app_assoc. reflexivity.
Qed.
End LoadingEveryId.

(* ================================================================== *)
(** * Further properties: from the amount typed to the amount in wei  *)
(* ================================================================== *)

Section Amounts.
Context {RT : Runtime}.

(** Multiplying the number of a whole amount by [1e18] is exact as long
    as the bits of [k * 5^18] fit the mantissa. *)
Lemma SFmul_1e18 (k : Z) :
  0 < k -> k * 5 ^ 18 < 2 ^ prec ->
  SFmul prec emax (integer_number false k) num_1e18
  = S754_finite false
      (Z.to_pos (k * 5 ^ 18 * 2 ^ (prec - Zdigits2 (k * 5 ^ 18))))
      (Zdigits2 (k * 5 ^ 18) - 35).
Proof.
  intros Hpos Hfit.
  assert (H5 : 1 <= 5 ^ 18) by (change (5 ^ 18) with 3814697265625; lia).
  assert (Hk : 0 < k < 2 ^ prec) by nia.
  assert (HK : 0 < k * 5 ^ 18 < 2 ^ prec) by nia.
  pose proof (Zdigits2_range k Hk) as Hd.
  pose proof (Zdigits2_range _ HK) as HD.
  pose proof (Zdigits2_mono k (k * 5 ^ 18) ltac:(nia)) as Hmono.
  pose proof (full_mantissa k Hk) as [Hm _].
  pose proof (full_mantissa _ HK) as [HM Hfull].
  unfold integer_number, num_1e18. cbv zeta. cbn [SFmul xorb].
  set (K := k * 5 ^ 18) in *.
  set (d := Zdigits2 k) in *. set (D := Zdigits2 K) in *.
  set (m := Z.to_pos (k * 2 ^ (prec - d))) in *.
  set (M := Z.to_pos (K * 2 ^ (prec - D))) in *.
  replace (D - 35) with ((d - prec + 7) + (11 + D - d)) by (unfold prec; lia).
  apply round_trailing_zeros;
    [exact Hfull | lia | | unfold prec, emax in *; lia].
  rewrite Pos2Z.inj_mul, Hm, HM. unfold K.
  change (Zpos 7812500000000000) with (5 ^ 18 * 2 ^ 11).
  replace (prec - d) with ((prec - D) + (D - d)) by lia.
  replace (11 + D - d) with ((D - d) + 11) by lia.
  rewrite !Z.pow_add_r by lia. ring.
Qed.

(** The conversion [BigInt(Math.floor(parseFloat(amountStr) * 1e18))]
    throws exactly when the product is NaN or an infinity; for every
    other text, a zero or negative amount included, it yields the integer
    part of the product towards minus infinity. *)
Theorem amount_conversion (amountStr : string) :
  App.amountInWei_of amountStr =
  match SFmul prec emax (parseFloat amountStr) num_1e18 with
  | S754_zero _ => inr 0
  | S754_finite s m e =>
      inr (if 0 <=? e then cond_Zopp s (Zpos m) * 2 ^ e
           else cond_Zopp s (Zpos m) / 2 ^ (- e))
  | x => inl (new_RangeError (engine_message (NotAnInteger x)))
  end.
Proof.
  unfold App.amountInWei_of.
  rewrite (BigInt_of_floor _ (SFmul_short (parseFloat amountStr) num_1e18)).
  destruct (SFmul prec emax (parseFloat amountStr) num_1e18); reflexivity.
Qed.

(** A whole amount of up to 2361 units converts without any rounding: the
    text read as the number [k] becomes exactly [k * 10^18] wei. *)
Theorem whole_amounts_convert_exactly (amountStr : string) (k : Z) :
  parseFloat amountStr = Number_of_bigint k ->
  0 < k <= 2361 ->
  App.amountInWei_of amountStr = inr (k * 10 ^ 18).
Proof.
  intros Hparse Hk.
  rewrite Number_of_bigint_small in Hparse
    by (change (2 ^ prec) with 9007199254740992; lia).
  assert (Hfit : k * 5 ^ 18 < 2 ^ prec).
  { change (5 ^ 18) with 3814697265625.
    change (2 ^ prec) with 9007199254740992. lia. }
  assert (HK : 0 < k * 5 ^ 18 < 2 ^ prec)
    by (split; [change (5 ^ 18) with 3814697265625; lia | exact Hfit]).
  pose proof (Zdigits2_range _ HK) as HD.
  pose proof (full_mantissa _ HK) as [HM _].
  pose proof (SFmul_short (integer_number false k) num_1e18) as Hshort.
  unfold App.amountInWei_of. rewrite Hparse.
  rewrite SFmul_1e18 in * by lia.
  rewrite (BigInt_of_floor _ Hshort).
  cbn [cond_Zopp]. rewrite HM.
  set (D := Zdigits2 (k * 5 ^ 18)) in *.
  f_equal. change (10 ^ 18) with (5 ^ 18 * 2 ^ 18).
  destruct (0 <=? D - 35) eqn:He.
  - apply Z.leb_le in He.
    replace 18 with ((prec - D) + (D - 35)) at 3 by (unfold prec; lia).
    rewrite Z.pow_add_r by lia. ring.
  - apply Z.leb_gt in He.
    replace (prec - D) with (18 + (- (D - 35))) by (unfold prec; lia).
    rewrite Z.pow_add_r by lia.
    rewrite Z.mul_assoc, Z.div_mul by (apply Z.pow_nonzero; lia). ring.
Qed.
End Amounts.

(* ================================================================== *)
(** * Further properties: the total as a number                       *)
(* ================================================================== *)

Section Totals.
Context {RT : Runtime} {CH : Chain} {CFG : Config} {U : Type}.

(** [getTotalDonations] turns the contract's bigint into a number.  Below
    [2^53] nothing is lost: the number converts back to the same bigint.
    From [2^53] on totals start to collide: [2^53 + 1] gives the number
    of [2^53]. *)
Theorem getTotalDonations_keeps_small_totals (z : Z) (w : World U) :
  0 <= z < 2 ^ 53 ->
  readContract (log w) totalDonations_call = Resolve (JBigInt z) ->
  (exists total,
      fst (getTotalDonations w) = Ok total /\ BigInt_of_number total = inr z)
  /\ Number (JBigInt (2 ^ 53 + 1)) = Number (JBigInt (2 ^ 53)).
Proof.
  intros Hz Hr. split; [ | vm_compute; reflexivity].
  exists (Number (JBigInt z)). rewrite getTotalDonations_run, Hr. cbn [fst].
  split; [reflexivity | ].
  cbn [Number]. destruct (Z.eq_dec z 0) as [-> | Hnz]; [reflexivity | ].
  rewrite Number_of_bigint_small by (change prec with 53; lia).
  apply (BigInt_of_integer_number false). change prec with 53. lia.
Qed.
End Totals.

(* ================================================================== *)
(** * The further properties at work on the sample environment        *)
(* ================================================================== *)

(** A wallet whose first poll rejects with [offline]. *)
Lemma waitForBatchConfirmation_aborts_witness :
  attempts_of (maxAttempts_or_default None) 60
  /\ @waitForBatchConfirmation Sample.runtime unit 1
       (ProviderObj SampleForms.broken_wallet) (JStr "0xb1") None None
       (Sample.empty_world tt)
     = (Throw (NonError (JStr "offline")),
        mkWorld [EvRequest (poll_request (JStr "0xb1"))] tt).
Proof.
  assert (H : attempts_of (maxAttempts_or_default None) 60)
    by exact (attempts_of_bigint 60 eq_refl).
  split; [exact H | ].
  refine (proj1 (@waitForBatchConfirmation_aborts Sample.runtime unit
            SampleForms.broken_wallet (JStr "0xb1") None None
            (Sample.empty_world tt) 60 0 1 H _ _ _) (NonError (JStr "offline")) eq_refl).
  - lia.
  - lia.
  - intros j Hj. lia.
Defined.

Lemma waitForBatchConfirmation_without_provider_witness :
  SFltb (S754_zero false) (maxAttempts_or_default (Some (Number_of_bigint 3))) = true
  /\ @waitForBatchConfirmation Sample.runtime unit 1 ProviderNull (JStr "0xb1")
       (Some (Number_of_bigint 3)) None (Sample.empty_world tt)
     = (Throw (new_TypeError "engine fault"), Sample.empty_world tt).
Proof.
  split; [reflexivity | ].
  exact (proj1 (@waitForBatchConfirmation_without_provider Sample.runtime unit
                  (JStr "0xb1") (Some (Number_of_bigint 3)) None
                  (Sample.empty_world tt) 0 eq_refl)).
Defined.

(** Three requests, and three waits of two seconds, are the most the
    helper spends on [maxAttempts = 2.5]. *)
Lemma waitForBatchConfirmation_budget_witness :
  attempts_of (maxAttempts_or_default (Some Sample.two_and_a_half)) 3
  /\ spends 3 6000
       (@waitForBatchConfirmation Sample.runtime unit 10
          (ProviderObj Sample.stuck_wallet) (JStr "0xb1")
          (Some Sample.two_and_a_half) None).
Proof.
  assert (H : attempts_of (maxAttempts_or_default (Some Sample.two_and_a_half)) 3).
  { split; [ | reflexivity].
    intros k Hk. destruct k as [ | [ | [ | k]]]; [reflexivity .. | lia]. }
  split; [exact H | ].
  exact (proj1 (@waitForBatchConfirmation_budget Sample.runtime unit
                  (ProviderObj Sample.stuck_wallet) (JStr "0xb1")
                  (Some Sample.two_and_a_half) None 3 10 H)).
Defined.

(** A campaign created through the slow wallet: the submission resolves
    with a batch id and the first poll reports CONFIRMED. *)
Lemma handlers_follow_the_flow_witness :
  let w := Sample.empty_world (Sample.connected Sample.slow_wallet) in
  let submission :=
    @handler_request Sample.viem Sample.config (Some "0xA11CE") (JStr "createDonation") in
  @App.handleCreateDonation Sample.runtime Sample.viem Sample.config "1" "books" w
  = (Ok tt,
     mkWorld ((started_history w ++ [EvRequest submission]) ++
              [EvRequest (poll_request (JStr "0xb1"));
               EvSetState "refreshTrigger" (JNum (Number_of_bigint 8));
               EvSetState "isLoading" (JBool false)])%list
             (settled_state (ui w) "" true)).
Proof.
  cbv zeta.
  refine (proj1 (proj2 (proj2
            (proj1 (@handlers_follow_the_flow Sample.runtime Sample.viem Sample.config
                      (Sample.empty_world (Sample.connected Sample.slow_wallet))
                      Sample.slow_wallet eq_refl eq_refl)
               "1" "books" 1000000000000000000 (JStr "createDonation")
               eq_refl eq_refl))
            (JStr "0xb1") 0%nat eq_refl eq_refl _)
            (Sample.status_object "CONFIRMED") _ eq_refl eq_refl).
  - intros j Hj. lia.
  - lia.
Defined.

(** An amount that [parseFloat] reads as NaN. *)
Lemma handlers_reject_bad_amounts_witness :
  let w := Sample.empty_world (Sample.connected Sample.slow_wallet) in
  @parseFloat Sample.runtime "abc" = S754_nan
  /\ @App.handleDonate Sample.runtime Sample.viem Sample.config 2 "abc" w
     = thrown_after "Failed to process donation" w
         (new_RangeError "engine fault") (started_history w).
Proof.
  cbv zeta. split; [reflexivity | ].
  pose proof (@handlers_reject_bad_amounts Sample.runtime Sample.viem Sample.config
                (Sample.empty_world (Sample.connected Sample.slow_wallet)) "abc"
                eq_refl) as [Hthrows Hnan].
  exact (proj2 (Hthrows _ (Hnan (or_introl eq_refl))) 2).
Defined.

Lemma handlers_refuse_without_wallet_witness :
  let w := Sample.empty_world SampleForms.disconnected in
  App.provider (ui w) = ProviderNull
  /\ @App.handleDonate Sample.runtime Sample.viem Sample.config 2 "1" w
     = (Ok tt,
        mkWorld [EvSetState "error" (JStr "Wallet not connected")]
          {| App.account := None; App.provider := ProviderNull; App.sdk := JNull;
             App.error := "Wallet not connected"; App.isLoading := false;
             App.refreshTrigger := S754_zero false |}).
Proof.
  cbv zeta. split; [reflexivity | ].
  exact (proj2 (@handlers_refuse_without_wallet Sample.runtime Sample.viem Sample.config
                  (Sample.empty_world SampleForms.disconnected) (or_introl eq_refl))
               2 "1").
Defined.

Lemma getTotalDonated_passes_through_witness :
  fst (@getTotalDonated Sample.runtime SampleForms.bare_chain Sample.config unit 7
         (Sample.empty_world tt)) = Ok 42.
Proof.
  exact (proj1 (proj2 (@getTotalDonated_passes_through Sample.runtime
                         SampleForms.bare_chain Sample.config unit 7
                         (Sample.empty_world tt))) 42 eq_refl).
Defined.

Lemma getDonation_on_incomplete_answers_witness :
  fst (@getDonation Sample.runtime SampleForms.bare_chain Sample.config unit 7
         (Sample.empty_world tt))
  = Ok {| targetAmount := 10; totalDonated := 4; creator := JUndefined;
          timestamp := 1700000000; description := JUndefined |}.
Proof.
  exact (proj2 (proj2 (@getDonation_on_incomplete_answers Sample.runtime
                         SampleForms.bare_chain Sample.config unit 7
                         (Sample.empty_world tt) _ eq_refl))
               10 4 1700000000 eq_refl).
Defined.

(** Connecting through the sample service. *)
Lemma handleConnectWallet_outcomes_witness :
  let w := Sample.empty_world SampleForms.disconnected in
  let c := {| App.address := Some "0xA11CE";
              App.connectedProvider := ProviderObj Sample.slow_wallet;
              App.connectedSdk := JObj [] |} in
  @App.handleConnectWallet Sample.config SampleForms.service w
  = (Ok tt,
     mkWorld (started_history w ++
              [ EvSetState "account" (JStr "0xA11CE");
                EvSetState "provider" (JObj []);
                EvSetState "sdk" (JObj []);
                EvSetState "error" (JStr "");
                EvSetState "isLoading" (JBool false) ])%list
             (connected_state (ui w) c)).
Proof.
  cbv zeta.
  exact (proj2 (proj2
           (proj2 (proj2
              (proj2 (@handleConnectWallet_outcomes Sample.config
                        SampleForms.service
                        (Sample.empty_world SampleForms.disconnected))
                 _ [] eq_refl))
              (JBool true) [] eq_refl eq_refl))
           (JBool true) [] eq_refl eq_refl).
Defined.

(** Disconnecting without an sdk, and with one that cannot be
    disconnected. *)
Lemma handleDisconnect_outcomes_witness :
  let w := Sample.empty_world (Sample.connected Sample.slow_wallet) in
  let u := {| App.account := Some "0xA11CE"; App.provider := ProviderNoRequest;
              App.sdk := JObj []; App.error := ""; App.isLoading := false;
              App.refreshTrigger := Number_of_bigint 3 |} in
  @App.handleDisconnect SampleForms.service w
  = (Ok tt, mkWorld clears (cleared_state (ui w)))
  /\ @App.handleDisconnect SampleForms.service (Sample.empty_world u)
     = (Ok tt,
        mkWorld [EvSetState "error" (JStr "popup closed")]
          {| App.account := Some "0xA11CE"; App.provider := ProviderNoRequest;
             App.sdk := JObj []; App.error := "popup closed"; App.isLoading := false;
             App.refreshTrigger := Number_of_bigint 3 |}).
Proof.
  cbv zeta. split.
  - exact (proj1 (@handleDisconnect_outcomes SampleForms.service
                    (Sample.empty_world (Sample.connected Sample.slow_wallet)))
                 eq_refl).
  - exact (proj1 (proj2 (proj2 (@handleDisconnect_outcomes SampleForms.service
                    (Sample.empty_world
                       {| App.account := Some "0xA11CE";
                          App.provider := ProviderNoRequest;
                          App.sdk := JObj []; App.error := "";
                          App.isLoading := false;
                          App.refreshTrigger := Number_of_bigint 3 |}))))
                 (new_Error "popup closed") [] eq_refl eq_refl).
Defined.

(** A card whose donation is rejected. *)
Lemma card_handleDonate_outcomes_witness :
  DonationCard.handleDonate 2 (fun _ _ => SampleForms.rejecting) SampleForms.submit
    (Sample.empty_world (SampleForms.card "0.5"))
  = (Ok tt,
     mkWorld [ EvSetState "isSubmitting" (JBool true);
               EvSetState "error" (JStr "");
               EvSetState "error" (JStr "Transaction failed: reverted");
               EvSetState "isSubmitting" (JBool false) ]
       {| DonationCard.donateAmount := "0.5";
          DonationCard.isSubmitting := false;
          DonationCard.error := "Transaction failed: reverted" |}).
Proof.
  exact (proj2 (proj1 (proj2 (card_handleDonate_outcomes 2
                  (fun _ _ => SampleForms.rejecting) SampleForms.submit
                  (Sample.empty_world (SampleForms.card "0.5")) [] eq_refl))
                  eq_refl)
               (new_Error "Transaction failed: reverted") [] eq_refl).
Defined.

(** A form whose campaign is accepted. *)
Lemma form_handleSubmit_outcomes_witness :
  let run :=
    CreateDonation.handleSubmit (fun _ _ _ => (Ok tt, [])) SampleForms.submit
      (Sample.empty_world (SampleForms.form "1" "books")) in
  fst run = Ok tt
  /\ CreateDonation.success (CreateDonation.state (ui (snd run)))
     = "Donation campaign created successfully!"
  /\ map CreateDonation.delay (CreateDonation.timers (ui (snd run))) = [3000].
Proof.
  cbv zeta.
  rewrite (proj1 (proj1 (proj2 (form_handleSubmit_outcomes
                    (fun _ _ _ => (Ok tt, [])) SampleForms.submit
                    (Sample.empty_world (SampleForms.form "1" "books")) [] eq_refl))
                    eq_refl eq_refl) [] eq_refl).
  repeat split.
Defined.

(** A donation entered while the wallet is not connected. *)
Lemma refused_submission_looks_successful_witness :
  App.provider SampleForms.disconnected = ProviderNull
  /\ DonationCard.handleDonate 2
       (fun i a =>
          as_callback
            (@App.handleDonate Sample.runtime Sample.viem Sample.config i a)
            SampleForms.disconnected)
       SampleForms.submit (Sample.empty_world (SampleForms.card "0.5"))
     = (Ok tt,
        mkWorld [ EvSetState "isSubmitting" (JBool true);
                  EvSetState "error" (JStr "");
                  EvSetState "error" (JStr "Wallet not connected");
                  EvSetState "donateAmount" (JStr "");
                  EvSetState "isSubmitting" (JBool false) ]
          {| DonationCard.donateAmount := "";
             DonationCard.isSubmitting := false;
             DonationCard.error := "" |}).
Proof.
  split; [reflexivity | ].
  exact (proj1 (@refused_submission_looks_successful Sample.runtime Sample.viem
                  Sample.config SampleForms.disconnected (or_introl eq_refl))
               2 SampleForms.submit (Sample.empty_world (SampleForms.card "0.5"))
               [] eq_refl eq_refl).
Defined.

(** An encoder that rejects every call: [sendTransaction] throws before
    it looks at its (missing) provider, and [handleDonate] records the
    error. *)
Lemma encoding_failures_surface_witness :
  let w := Sample.empty_world (Sample.connected Sample.slow_wallet) in
  @sendTransaction Sample.runtime SampleForms.failing_encoder unit
    ProviderNull "0xA11CE" "0xC0" "" (Sample.empty_world tt)
  = (Throw (new_Error "Function claimReward not found on ABI"), Sample.empty_world tt)
  /\ @App.handleDonate Sample.runtime SampleForms.failing_encoder Sample.config 2 "1" w
     = thrown_after "Failed to process donation" w
         (new_Error "Function donate not found on ABI") (started_history w).
Proof.
  cbv zeta.
  pose proof (@encoding_failures_surface Sample.runtime SampleForms.failing_encoder
                Sample.config) as [Hsend Hhandlers].
  split.
  - exact (Hsend unit ProviderNull "0xA11CE" "0xC0" "" _ (Sample.empty_world tt) eq_refl).
  - exact (proj2 (Hhandlers (Sample.empty_world (Sample.connected Sample.slow_wallet))
                    "1" 1000000000000000000 _ eq_refl eq_refl) 2 eq_refl).
Defined.

(** A contract that reports three donations. *)
Lemma loadDonations_reads_every_id_witness :
  let w := Sample.empty_world Sample.list_state in
  let asked := @asked_total Sample.config w in
  3 < 2 ^ 53
  /\ (Z.to_nat 3 <= 5)%nat
  /\ exists kept evs,
      @load_in_order Sample.runtime SampleForms.three_donations Sample.config
        [0; 1; 2]%nat [] asked
      = (Ok kept, mkWorld (log asked ++ evs) (ui asked))
      /\ reads_of evs
         = map (fun k => @getDonation_call Sample.config (Z.of_nat k)) [0; 1; 2]%nat
      /\ @DonationList.loadDonations Sample.runtime SampleForms.three_donations
           Sample.config 5 w
         = (Ok tt,
            mkWorld (log asked ++ evs ++
                     [EvSetState "donations"
                        (JArr (map DonationList.DonationWithId_value (rev kept)));
                      EvSetState "isLoadingDonations" (JBool false)])
                    (loaded_state (rev kept) "")).
Proof.
  cbv zeta.
  assert (Hfuel : (Z.to_nat 3 <= 5)%nat) by (vm_compute; lia).
  split; [reflexivity | split; [exact Hfuel | ]].
  exact (@loadDonations_reads_every_id Sample.runtime SampleForms.three_donations
           Sample.config 5 (Sample.empty_world Sample.list_state) 3
           eq_refl eq_refl Hfuel).
Defined.

(** The sample runtime reads the text [1] as the number 1. *)
Lemma whole_amounts_convert_exactly_witness :
  @parseFloat Sample.runtime "1" = Number_of_bigint 1
  /\ @App.amountInWei_of Sample.runtime "1" = inr (1 * 10 ^ 18).
Proof.
  assert (Hparse : @parseFloat Sample.runtime "1" = Number_of_bigint 1)
    by reflexivity.
  split; [exact Hparse | ].
  apply (@whole_amounts_convert_exactly Sample.runtime "1" 1 Hparse). lia.
Defined.

(** A contract that reports three donations, read as a number. *)
Lemma getTotalDonations_keeps_small_totals_witness :
  0 <= 3 < 2 ^ 53
  /\ exists total,
      fst (@getTotalDonations Sample.runtime SampleForms.three_donations Sample.config
             unit (Sample.empty_world tt)) = Ok total
      /\ @BigInt_of_number Sample.runtime total = inr 3.
Proof.
  assert (Hz : 0 <= 3 < 2 ^ 53) by (vm_compute; split; discriminate || reflexivity).
  split; [exact Hz | ].
  exact (proj1 (@getTotalDonations_keeps_small_totals Sample.runtime
                  SampleForms.three_donations Sample.config unit 3
                  (Sample.empty_world tt) Hz eq_refl)).
Defined.

(** A donation through a wallet whose first poll rejects. *)
Lemma handlers_abort_on_poll_failure_witness :
  let w := Sample.empty_world (Sample.connected SampleForms.broken_wallet) in
  let submission :=
    @handler_request Sample.viem Sample.config (Some "0xA11CE") (JStr "donate") in
  @App.handleDonate Sample.runtime Sample.viem Sample.config 2 "1" w
  = thrown_after "Failed to process donation" w (NonError (JStr "offline"))
      ((started_history w ++ [EvRequest submission]) ++
       [EvRequest (poll_request (JStr "0xb1"))])%list.
Proof.
  cbv zeta.
  refine (proj1 (proj2 (@handlers_abort_on_poll_failure Sample.runtime Sample.viem
                          Sample.config
                          (Sample.empty_world (Sample.connected SampleForms.broken_wallet))
                          SampleForms.broken_wallet eq_refl eq_refl)
                   2 "1" 1000000000000000000 (JStr "donate") eq_refl eq_refl
                   (JStr "0xb1") 0%nat eq_refl eq_refl _ _)
                (NonError (JStr "offline")) eq_refl).
  - lia.
  - intros j Hj. lia.
Defined.
